(** * Persona-driven shopping automation: task generation and execution

    A shallow embedding of [llm_mcp_web_automation.py]: the persona
    classifier, the rule-based and text-generation task generators, the
    automation methods of [TiraAutomation] with their statistics, and the
    task loop of [InteractiveDemo].

    Conventions of the embedding.
    - Python [int] is [Z]; Python [str] is [string] (a sequence of bytes,
      UTF-8 for the rupee sign).  [str.lower], [str.strip], [\s] and [\d]
      are modelled on ASCII text.
    - The browser (Selenium driver) and the random source are an explicit
      environment: a state [W] and functions from [W] to an outcome and a
      new [W].  A call that raises is the outcome [Raise e], where [e] is
      [str] of the exception.
    - [print] of persona commentary and [time.sleep] are left out, and
      formatting a value into a printed line is taken not to raise; the
      arithmetic in the commentary of [extract_products], which can raise,
      is kept.  The lines printed by [_execute_task] itself are kept as a
      list of [Line]s. *)

From Stdlib Require Import ZArith List String Ascii Bool Lia Sorted.
Import ListNotations.

Open Scope string_scope.
Open Scope Z_scope.

(** ** Python strings *)

Module PyStr.

(** [c.lower()] for an ASCII character. *)
Definition lower_ascii (c : ascii) : ascii :=
  let n := nat_of_ascii c in
  if ((65 <=? n) && (n <=? 90))%nat then ascii_of_nat (n + 32) else c.

(** [s.lower()] *)
Fixpoint lower (s : string) : string :=
  match s with
  | EmptyString => EmptyString
  | String c t => String (lower_ascii c) (lower t)
  end.

(** [sep.join(ls)] *)
Definition join (sep : string) (ls : list string) : string :=
  String.concat sep ls.

(** [word in text] *)
Fixpoint contains (word text : string) : bool :=
  prefix word text ||
  match text with
  | EmptyString => false
  | String _ t => contains word t
  end.

(** [any(word in text for word in words)] *)
Definition any_in (words : list string) (text : string) : bool :=
  existsb (fun word => contains word text) words.

(** [c.isspace()] on ASCII: tab, newline, vertical tab, form feed, carriage
    return, the separators 28 to 31 and the space. *)
Definition is_space (c : ascii) : bool :=
  let n := nat_of_ascii c in
  (((9 <=? n) && (n <=? 13)) || ((28 <=? n) && (n <=? 32)))%nat.

(** An ASCII decimal digit, as [\d] sees it. *)
Definition is_digit (c : ascii) : bool :=
  let n := nat_of_ascii c in ((48 <=? n) && (n <=? 57))%nat.

Definition digit_val (c : ascii) : Z := Z.of_nat (nat_of_ascii c) - 48.

Fixpoint lstrip (s : string) : string :=
  match s with
  | String c t => if is_space c then lstrip t else s
  | EmptyString => EmptyString
  end.

Fixpoint rev_string (acc s : string) : string :=
  match s with
  | EmptyString => acc
  | String c t => rev_string (String c acc) t
  end.

Definition rstrip (s : string) : string :=
  rev_string EmptyString (lstrip (rev_string EmptyString s)).

(** [s.strip()] *)
Definition strip (s : string) : string := rstrip (lstrip s).

(** [s[:n]] *)
Definition take (n : nat) (s : string) : string := substring 0 n s.

End PyStr.

(** ** Core configuration *)

Inductive PersonaType :=
| BEAUTY_ENTHUSIAST
| BUDGET_SHOPPER
| INDECISIVE_SHOPPER
| LUXURY_BUYER
| GIFT_SHOPPER
| SKINCARE_FOCUSED
| CUSTOM.

Record CustomPersona := {
  name : string;
  type : PersonaType;
  budget_range : Z * Z;
  personality_traits : list string;
  interests : list string;
  shopping_goals : list string;
  decision_style : string;
  time_preference : string
}.

Record LLMTask := {
  task_name : string;
  description : string;
  expected_functions : list string;
  success_criteria : string;
  emotional_journey : list string
}.

(** Outcome of a call that may raise: [Raise e] carries [str(e)]. *)
Inductive res (A : Type) :=
| Ok (a : A)
| Raise (e : string).
Arguments Ok {A} a.
Arguments Raise {A} e.

(** ** PersonaCreator._determine_persona_type *)

Definition _determine_persona_type (traits : list string) (decision_style : string)
  : PersonaType :=
  let trait_text := PyStr.lower (PyStr.join " " traits) in
  if PyStr.any_in ["budget"; "cheap"; "affordable"; "price"] trait_text then
    BUDGET_SHOPPER
  else if PyStr.any_in ["luxury"; "premium"; "high-end"; "quality"] trait_text then
    LUXURY_BUYER
  else if PyStr.any_in ["indecis"; "uncertain"; "changeable"] trait_text then
    INDECISIVE_SHOPPER
  else if PyStr.any_in ["beauty"; "makeup"; "trendy"; "impulsive"] trait_text then
    BEAUTY_ENTHUSIAST
  else if PyStr.any_in ["skincare"; "routine"; "organic"] trait_text then
    SKINCARE_FOCUSED
  else if PyStr.any_in ["gift"; "birthday"; "present"] trait_text then
    GIFT_SHOPPER
  else
    CUSTOM.



(** ** TaskGenerationEngine *)

(** One element of the ["tasks"] array of the model's JSON answer; a field
    is [None] when its key is absent, so that [dict.get] returns the
    default. *)
Record TaskData := {
  td_task_name : option string;
  td_description : option string;
  td_expected_functions : option (list string);
  td_success_criteria : option string;
  td_emotional_journey : option (list string)
}.

(** What the [try] block of [_llm_generate_tasks] meets.  The answer is
    taken to follow the JSON schema that the prompt asks for.
    - [ReplyRaises e]: [chat.completions.create] raises, the response has
      no message, [json.loads] rejects the text, or an element of the
      array is not an object; all of them end in the same [except].
    - [ReplyNoJson]: [re.search(r'\{.*\}', ...)] finds nothing.
    - [ReplyJson tasks]: the text parses to an object; [tasks] is the value
      under ["tasks"], [None] when the key is absent. *)
Inductive LLMReply :=
| ReplyRaises (e : string)
| ReplyNoJson
| ReplyJson (tasks : option (list TaskData)).

(** The client answers the prompt, which is built from the persona and the
    fixed function catalog. *)
Record TaskGenerationEngine := {
  openai_client : option (CustomPersona -> LLMReply)
}.

(** [d.get(key, default)] *)
Definition get_default {A : Type} (v : option A) (default : A) : A :=
  match v with Some a => a | None => default end.

Definition task_of_data (task_data : TaskData) : LLMTask :=
  {| task_name := get_default (td_task_name task_data) "Shopping Task";
     description := get_default (td_description task_data) "Complete shopping goal";
     expected_functions :=
       get_default (td_expected_functions task_data) ["search_products"];
     success_criteria := get_default (td_success_criteria task_data) "Task completed";
     emotional_journey := get_default (td_emotional_journey task_data) ["curious"] |}.

(** [persona.interests[0]] raises [IndexError] on an empty list; the
    exception leaves [_rule_generate_tasks]. *)
Definition _rule_generate_tasks (persona : CustomPersona) : res (list LLMTask) :=
  match interests persona with
  | [] => Raise "list index out of range"
  | interest0 :: _ =>
    let tasks :=
      if (decision_style persona =? "quick_impulsive")%string then
        [ {| task_name := "Quick Product Discovery";
             description := "Find and quickly purchase " ++ interest0 ++ " items";
             expected_functions :=
               ["search_products"; "extract_products"; "hover_add_to_cart"];
             success_criteria := "At least 1 item added to cart";
             emotional_journey := ["excited"; "satisfied"] |} ]
      else
        [ {| task_name := "Careful Product Research";
             description := "Research " ++ interest0 ++ " options thoroughly";
             expected_functions :=
               ["search_products"; "extract_products"; "click_product_details"];
             success_criteria := "Product details examined";
             emotional_journey := ["curious"; "confident"] |} ] in
    let tasks :=
      if PyStr.contains "budget"
           (PyStr.lower (PyStr.join " " (personality_traits persona))) then
        (tasks ++
        [ {| task_name := "Budget-Conscious Shopping";
             description := "Find affordable options within budget constraints";
             expected_functions := ["search_products"; "view_cart"];
             success_criteria := "Stay within budget limits";
             emotional_journey := ["cautious"; "satisfied"] |} ])%list
      else tasks in
    Ok tasks
  end.

Definition _llm_generate_tasks (client : CustomPersona -> LLMReply)
    (persona : CustomPersona) : res (list LLMTask) :=
  match client persona with
  | ReplyJson tasks => Ok (map task_of_data (get_default tasks []))
  | ReplyNoJson => _rule_generate_tasks persona
  | ReplyRaises _ => _rule_generate_tasks persona
  end.

Definition generate_shopping_tasks (OPENAI_AVAILABLE : bool)
    (self : TaskGenerationEngine) (persona : CustomPersona) : res (list LLMTask) :=
  match openai_client self with
  | Some client =>
    if OPENAI_AVAILABLE then _llm_generate_tasks client persona
    else _rule_generate_tasks persona
  | None => _rule_generate_tasks persona
  end.

(** ** TiraAutomation *)

(** A product card as the page shows it: whether [is_displayed()] holds,
    the text of its name and price elements ([None] when [find_element] or
    [.text] raises), and an opaque handle. *)
Record Card := {
  displayed : bool;
  card_name : option string;
  card_price : option string;
  handle : nat
}.

(** An entry of [current_products]. *)
Record Product := {
  p_name : string;
  price : Z;
  element : Card;
  index : nat
}.

Record Stats := {
  actions : Z;
  success : Z;
  cart_items : Z
}.

Record TiraAutomation := {
  current_products : list Product;
  stats : Stats
}.

(** [TiraAutomation.__init__] *)
Definition init_automation : TiraAutomation :=
  {| current_products := [];
     stats := {| actions := 0; success := 0; cart_items := 0 |} |}.

(** The dictionaries returned by the automation methods. *)
Inductive Result :=
| Succeeded
| Extracted (products : list Product) (count : nat)
| ExtractFailed
| CartViewed (item_count : nat)
| Failed (error : string).

(** [result.get('success')] *)
Definition succeeded (r : Result) : bool :=
  match r with
  | Succeeded | Extracted _ _ | CartViewed _ => true
  | ExtractFailed | Failed _ => false
  end.

(** [result.get('error', 'Unknown error')] *)
Definition error_of (r : Result) : string :=
  match r with
  | Failed e => e
  | _ => "Unknown error"
  end.

Definition _update_stats (ok : bool) (s : Stats) : Stats :=
  {| actions := actions s + 1;
     success := if ok then success s + 1 else success s;
     cart_items := cart_items s |}.

Definition with_stats (a : TiraAutomation) (s : Stats) : TiraAutomation :=
  {| current_products := current_products a; stats := s |}.

Definition update_stats (ok : bool) (a : TiraAutomation) : TiraAutomation :=
  with_stats a (_update_stats ok (stats a)).

(** *** Price and name of a card *)

(** The rupee sign U+20B9 in UTF-8. *)
Definition rupee : string :=
  String (ascii_of_nat 226) (String (ascii_of_nat 130) (String (ascii_of_nat 185) EmptyString)).

(** After the first digit of the captured group, one or more digits
    followed by any number of comma-led digit runs: digits extend the number, a
    comma is taken only when a digit follows it; [acc] is the value of the
    digits read so far, which is [int] of the group with commas removed. *)
Fixpoint scan_number (acc : Z) (s : string) : Z :=
  match s with
  | String c t =>
    if PyStr.is_digit c then scan_number (10 * acc + PyStr.digit_val c) t
    else if (c =? ",")%char then
      match t with
      | String d t' =>
        if PyStr.is_digit d then scan_number (10 * acc + PyStr.digit_val d) t'
        else acc
      | EmptyString => acc
      end
    else acc
  | EmptyString => acc
  end.

(** Optional white space and then the captured group, anchored at the
    start of [s]. *)
Fixpoint match_amount (s : string) : option Z :=
  match s with
  | String c t =>
    if PyStr.is_space c then match_amount t
    else if PyStr.is_digit c then Some (scan_number (PyStr.digit_val c) t)
    else None
  | EmptyString => None
  end.

(** [re.search] of the price pattern (rupee sign, optional white space,
    captured amount) followed by [int] of the captured group with its
    commas removed: the leftmost rupee sign after which the amount
    matches. *)
Fixpoint search_price (text : string) : option Z :=
  match (if prefix rupee text
         then match_amount (substring 3 (String.length text - 3) text)
         else None) with
  | Some v => Some v
  | None =>
    match text with
    | String _ t => search_price t
    | EmptyString => None
    end
  end.

Definition parse_price (price_text : string) : Z :=
  get_default (search_price (PyStr.strip price_text)) 0.

Definition parse_name (name_text : string) : string :=
  PyStr.take 50 (PyStr.strip name_text) ++ "...".






(** The body of [for i, card in enumerate(visible_cards)]: a card whose
    name or price element is missing is skipped, the counter [i] still
    advances.  The limit that the interpreter puts on the digits it
    converts (4300 by default), past which [int] raises and the card is
    skipped too, is not modelled. *)
Fixpoint parse_cards (i : nat) (visible_cards : list Card) : list Product :=
  match visible_cards with
  | [] => []
  | card :: cards =>
    match card_name card, card_price card with
    | Some name_text, Some price_text =>
      {| p_name := parse_name name_text;
         price := parse_price price_text;
         element := card;
         index := i |} :: parse_cards (S i) cards
    | _, _ => parse_cards (S i) cards
    end
  end.

(** [lst[i]] with Python's negative indices; [None] is [IndexError]. *)
Definition py_index {A : Type} (lst : list A) (i : Z) : option A :=
  let len := Z.of_nat (List.length lst) in
  if 0 <=? i then nth_error lst (Z.to_nat i)
  else if - len <=? i then nth_error lst (Z.to_nat (len + i))
  else None.

(** [float(n)] for an integer raises [OverflowError] when [n] does not
    round to a finite double: from 2^1024 - 2^970 on, in absolute value. *)
Definition float_overflows (n : Z) : bool :=
  2 ^ 1024 - 2 ^ 970 <=? Z.abs n.

(** Whether the commentary of [extract_products] raises: it is printed
    when products were found, and for the price-focused style it computes
    [persona.budget_range[1] * 0.7], which converts the budget to a
    float. *)
Definition commentary_raises (persona : CustomPersona) (products : list Product)
  : bool :=
  match products with
  | [] => false
  | _ :: _ =>
    (decision_style persona =? "price_focused")%string
    && float_overflows (snd (budget_range persona))
  end.

(** *** The page-interaction layer and the random source

    Each field stands for the Selenium calls one automation method makes
    inside its [try] block, in the order the method makes them; [Raise e]
    means one of them raised.
    - [drv_setup]: [webdriver.Chrome], [WebDriverWait], [driver.get].
    - [drv_search term]: wait for the search input, [clear], [send_keys].
    - [drv_cards]: [find_elements] of the product cards, with what
      [is_displayed] and the inner [find_element]s answer for each.
    - [drv_hover card]: scroll to the card, move onto it and look for a
      displayed add button; [Ok true] when there is one.
    - [drv_click_add]: [visible_btn.click()].
    - [drv_view_cart]: [driver.get(CART_URL)] and the number of cart items.
    - [drv_remove_buttons]: the number of remove buttons found.
    - [drv_click_remove]: [remove_btns[0].click()].
    - [drv_refresh]: [driver.refresh()].
    - [rnd]: a draw of the random source. *)
Record Env (W : Type) := {
  drv_setup : W -> res unit * W;
  drv_search : string -> W -> res unit * W;
  drv_cards : W -> res (list Card) * W;
  drv_hover : Card -> W -> res bool * W;
  drv_click_add : W -> res unit * W;
  drv_view_cart : W -> res nat * W;
  drv_remove_buttons : W -> res nat * W;
  drv_click_remove : W -> res unit * W;
  drv_refresh : W -> res unit * W;
  rnd : W -> nat * W
}.
Arguments drv_setup {W}.
Arguments drv_search {W}.
Arguments drv_cards {W}.
Arguments drv_hover {W}.
Arguments drv_click_add {W}.
Arguments drv_view_cart {W}.
Arguments drv_remove_buttons {W}.
Arguments drv_click_remove {W}.
Arguments drv_refresh {W}.
Arguments rnd {W}.

(** Lines that [_execute_task] and the task loop print. *)
Inductive Line :=
| ExecutingTask (i : nat) (task_name : string)
| Executing (function_name : string)
| FunctionFailed (function_name error : string)
| TaskExecutionFailed (e : string)
| Refreshing.

Section Automation.

Context {W : Type} (env : Env W).

Definition search_products (persona : CustomPersona) (search_term : string)
    (self : TiraAutomation) (w : W) : Result * TiraAutomation * W :=
  match drv_search env search_term w with
  | (Ok _, w') => (Succeeded, update_stats true self, w')
  | (Raise e, w') => (Failed e, update_stats false self, w')
  end.

(** The commentary after the products are stored is inside the [try]: when
    it raises, the failure dictionary is returned and the products stay
    stored. *)
Definition extract_products (persona : CustomPersona)
    (self : TiraAutomation) (w : W) : Result * TiraAutomation * W :=
  match drv_cards env w with
  | (Ok cards, w') =>
    let visible_cards := firstn 6 (filter displayed cards) in
    let products := parse_cards 0 visible_cards in
    let stored := {| current_products := products; stats := stats self |} in
    if commentary_raises persona products then (ExtractFailed, stored, w')
    else (Extracted products (List.length products), stored, w')
  | (Raise _, w') => (ExtractFailed, self, w')
  end.

Definition add_to_cart (s : Stats) : Stats :=
  {| actions := actions s; success := success s; cart_items := cart_items s + 1 |}.

Definition hover_add_to_cart (persona : CustomPersona) (product_index : Z)
    (self : TiraAutomation) (w : W) : Result * TiraAutomation * W :=
  match current_products self with
  | [] => (Failed "Invalid product index", self, w)
  | _ :: _ =>
    if product_index >=? Z.of_nat (List.length (current_products self)) then
      (Failed "Invalid product index", self, w)
    else
      match py_index (current_products self) product_index with
      | None => (Failed "list index out of range", update_stats false self, w)
      | Some product =>
        if price product >? snd (budget_range persona) then
          (Failed "Over budget", self, w)
        else
          match drv_hover env (element product) w with
          | (Raise e, w') => (Failed e, update_stats false self, w')
          | (Ok false, w') =>
            (Failed "No add button found", update_stats false self, w')
          | (Ok true, w') =>
            match drv_click_add env w' with
            | (Raise e, w'') => (Failed e, update_stats false self, w'')
            | (Ok _, w'') =>
              (Succeeded,
               update_stats true (with_stats self (add_to_cart (stats self))), w'')
            end
          end
      end
  end.

Definition view_cart (persona : CustomPersona)
    (self : TiraAutomation) (w : W) : Result * TiraAutomation * W :=
  match drv_view_cart env w with
  | (Ok item_count, w') => (CartViewed item_count, update_stats true self, w')
  | (Raise e, w') => (Failed e, update_stats false self, w')
  end.

Definition drop_from_cart (s : Stats) : Stats :=
  {| actions := actions s; success := success s;
     cart_items := Z.max 0 (cart_items s - 1) |}.

Definition remove_from_cart (persona : CustomPersona)
    (self : TiraAutomation) (w : W) : Result * TiraAutomation * W :=
  match drv_remove_buttons env w with
  | (Raise e, w') => (Failed e, update_stats false self, w')
  | (Ok O, w') => (Failed "No items to remove", self, w')
  | (Ok (S _), w') =>
    match drv_click_remove env w' with
    | (Raise e, w'') => (Failed e, update_stats false self, w'')
    | (Ok _, w'') =>
      (Succeeded,
       update_stats true (with_stats self (drop_from_cart (stats self))), w'')
    end
  end.

Definition complete_session (persona : CustomPersona) : Result := Succeeded.

(** ** InteractiveDemo *)

(** [random.choice(seq)]: [IndexError] on an empty sequence. *)
Definition random_choice (seq : list string) (w : W) : res string * W :=
  match seq with
  | [] => (Raise "Cannot choose from an empty sequence", w)
  | _ :: _ =>
    let (r, w') := rnd env w in
    (Ok (nth (r mod List.length seq) seq EmptyString), w')
  end.

Definition prefixed (word : string) (choice : res string * W) : res string * W :=
  match choice with
  | (Ok s, w') => (Ok (word ++ " " ++ s), w')
  | (Raise e, w') => (Raise e, w')
  end.

Definition _get_intelligent_search_term (persona : CustomPersona) (w : W)
  : res string * W :=
  let combined_interests := (interests persona ++ shopping_goals persona)%list in
  if (decision_style persona =? "price_focused")%string then
    prefixed "affordable" (random_choice combined_interests w)
  else
    match type persona with
    | LUXURY_BUYER => prefixed "premium" (random_choice combined_interests w)
    | _ =>
      if PyStr.contains "trending"
           (PyStr.lower (PyStr.join " " (personality_traits persona))) then
        prefixed "trending" (random_choice combined_interests w)
      else random_choice combined_interests w
    end.

(** What one turn of the loop of [_execute_task] does with a function
    name, after printing it.
    - [Returned r a w]: a method was called and [result] assigned.
    - [Completed a w]: [complete_session] was called, which touches
      neither the automation state nor the browser; the loop [break]s.
    - [Unknown]: the [else] branch; the loop [continue]s.
    - [Escaped e w]: an exception reached the [except] of the loop, which
      prints it and [break]s. *)
Inductive Dispatch :=
| Returned (r : Result) (a : TiraAutomation) (w : W)
| Completed (a : TiraAutomation) (w : W)
| Unknown
| Escaped (e : string) (w : W).

Definition dispatch (persona : CustomPersona) (function_name : string)
    (a : TiraAutomation) (w : W) : Dispatch :=
  if (function_name =? "search_products")%string then
    match _get_intelligent_search_term persona w with
    | (Ok search_term, w') =>
      let '(r, a', w'') := search_products persona search_term a w' in
      Returned r a' w''
    | (Raise e, w') => Escaped e w'
    end
  else if (function_name =? "extract_products")%string then
    let '(r, a', w') := extract_products persona a w in Returned r a' w'
  else if (function_name =? "hover_add_to_cart")%string then
    let '(r, a', w') := hover_add_to_cart persona 0 a w in Returned r a' w'
  else if (function_name =? "view_cart")%string then
    let '(r, a', w') := view_cart persona a w in Returned r a' w'
  else if (function_name =? "remove_from_cart")%string then
    let '(r, a', w') := remove_from_cart persona a w in Returned r a' w'
  else if (function_name =? "complete_session")%string then
    Completed a w
  else Unknown.

(** The lines printed after [result] is assigned. *)
Definition report (function_name : string) (r : Result) : list Line :=
  if succeeded r then [] else [FunctionFailed function_name (error_of r)].

Fixpoint run_functions (persona : CustomPersona) (functions : list string)
    (a : TiraAutomation) (w : W) (out : list Line)
  : TiraAutomation * W * list Line :=
  match functions with
  | [] => (a, w, out)
  | function_name :: rest =>
    let out := (out ++ [Executing function_name])%list in
    match dispatch persona function_name a w with
    | Returned r a' w' =>
      run_functions persona rest a' w' (out ++ report function_name r)%list
    | Completed a' w' => (a', w', out)
    | Unknown => run_functions persona rest a w out
    | Escaped e w' => (a, w', (out ++ [TaskExecutionFailed e])%list)
    end
  end.

Definition _execute_task (task : LLMTask) (persona : CustomPersona)
    (a : TiraAutomation) (w : W) (out : list Line)
  : TiraAutomation * W * list Line :=
  run_functions persona (expected_functions task) a w out.

(** How the task loop of [run_interactive_session] ends: it runs through
    ([Finished]) or an exception leaves it ([Crashed]). *)
Inductive Session :=
| Finished (a : TiraAutomation) (w : W) (out : list Line)
| Crashed (e : string) (a : TiraAutomation) (w : W) (out : list Line).

(** [for i, task in enumerate(tasks, 1)], entered at position [i]: the
    test [i < len(tasks)] holds exactly when tasks remain after the current
    one.  [driver.refresh()] is not guarded, an exception there leaves the
    session. *)
Fixpoint run_tasks (persona : CustomPersona) (i : nat) (tasks : list LLMTask)
    (a : TiraAutomation) (w : W) (out : list Line) : Session :=
  match tasks with
  | [] => Finished a w out
  | task :: rest =>
    let out := (out ++ [ExecutingTask i (task_name task)])%list in
    let '(a', w', out') := _execute_task task persona a w out in
    match rest with
    | [] => Finished a' w' out'
    | _ :: _ =>
      match drv_refresh env w' with
      | (Ok _, w'') =>
        run_tasks persona (S i) rest a' w'' (out' ++ [Refreshing])%list
      | (Raise e, w'') => Crashed e a' w'' (out' ++ [Refreshing])%list
      end
    end
  end.

(** [run_interactive_session] for a persona already created: generate the
    tasks, set the browser up, run the tasks.  The [input] that waits for
    the Enter key before the browser is set up is taken to return. *)
Definition run_interactive_session (OPENAI_AVAILABLE : bool)
    (task_engine : TaskGenerationEngine) (persona : CustomPersona) (w : W)
  : Session :=
  match generate_shopping_tasks OPENAI_AVAILABLE task_engine persona with
  | Raise e => Crashed e init_automation w []
  | Ok tasks =>
    match drv_setup env w with
    | (Raise e, w') => Crashed e init_automation w' []
    | (Ok _, w') => run_tasks persona 1 tasks init_automation w' []
    end
  end.

End Automation.

(** ** A scripted shop

    A page-interaction layer for examples: the browser state is the number
    of lines in the cart of the page.  Every call succeeds; the page shows
    [cards], adding puts a line in the cart and removing takes one out. *)
Definition shop (cards : list Card) : Env nat :=
  {| drv_setup := fun w => (Ok tt, w);
     drv_search := fun _ w => (Ok tt, w);
     drv_cards := fun w => (Ok cards, w);
     drv_hover := fun _ w => (Ok true, w);
     drv_click_add := fun w => (Ok tt, S w);
     drv_view_cart := fun w => (Ok w, w);
     drv_remove_buttons := fun w => (Ok w, w);
     drv_click_remove := fun w => (Ok tt, Nat.pred w);
     drv_refresh := fun w => (Ok tt, w);
     rnd := fun w => (O, w) |}.

Definition card_of (name_text price_text : string) : Card :=
  {| displayed := true;
     card_name := Some name_text;
     card_price := Some price_text;
     handle := 0 |}.

(** The persona of the end-to-end scenario, with the defaults of
    [create_custom_persona] for what the scenario leaves open. *)
Definition impulsive_persona : CustomPersona :=
  {| name := "CustomShopper";
     type := _determine_persona_type ["curious"; "practical"] "quick_impulsive";
     budget_range := (500, 5000);
     personality_traits := ["curious"; "practical"];
     interests := ["lipstick"];
     shopping_goals := ["explore products"];
     decision_style := "quick_impulsive";
     time_preference := "normal" |}.

Definition rule_engine : TaskGenerationEngine := {| openai_client := None |}.

Definition final_stats {W : Type} (s : Session (W := W)) : Stats :=
  match s with
  | Finished a _ _ => stats a
  | Crashed _ a _ _ => stats a
  end.

Definition final_out {W : Type} (s : Session (W := W)) : list Line :=
  match s with
  | Finished _ _ out => out
  | Crashed _ _ _ out => out
  end.

(** ** Reference definitions for the properties *)

(** The priority order of the classifier as a table: the keyword groups
    from first to last, each with its category. *)
Definition priority_table : list (list string * PersonaType) :=
  [ (["budget"; "cheap"; "affordable"; "price"], BUDGET_SHOPPER);
    (["luxury"; "premium"; "high-end"; "quality"], LUXURY_BUYER);
    (["indecis"; "uncertain"; "changeable"], INDECISIVE_SHOPPER);
    (["beauty"; "makeup"; "trendy"; "impulsive"], BEAUTY_ENTHUSIAST);
    (["skincare"; "routine"; "organic"], SKINCARE_FOCUSED);
    (["gift"; "birthday"; "present"], GIFT_SHOPPER) ].

(** First match wins; no match gives [CUSTOM]. *)
Fixpoint first_match (table : list (list string * PersonaType)) (text : string)
  : PersonaType :=
  match table with
  | [] => CUSTOM
  | (words, category) :: rest =>
    if PyStr.any_in words text then category else first_match rest text
  end.

Definition trait_text_of (traits : list string) : string :=
  PyStr.lower (PyStr.join " " traits).

Definition empty_answer_engine : TaskGenerationEngine :=
  {| openai_client := Some (fun _ => ReplyJson (Some [])) |}.

(** The function names that the loop of [_execute_task] dispatches; any
    other name reaches its [else] branch. *)
Definition recognized (function_name : string) : bool :=
  existsb (String.eqb function_name)
    ["search_products"; "extract_products"; "hover_add_to_cart";
     "view_cart"; "remove_from_cart"; "complete_session"].

(** The function names announced in a log, in order. *)
Fixpoint announced (out : list Line) : list string :=
  match out with
  | [] => []
  | Executing function_name :: rest => function_name :: announced rest
  | _ :: rest => announced rest
  end.

(** The number of dispatched operations a log shows: the announced
    function names that are recognized. *)
Definition dispatched (out : list Line) : nat :=
  List.length (filter recognized (announced out)).

(** What [hover_add_to_cart] does once [product] is selected: the budget
    gate, then the hover and the click. *)
Definition add_selected {W : Type} (env : Env W) (persona : CustomPersona)
    (product : Product) (self : TiraAutomation) (w : W)
  : Result * TiraAutomation * W :=
  if price product >? snd (budget_range persona) then
    (Failed "Over budget", self, w)
  else
    match drv_hover env (element product) w with
    | (Raise e, w') => (Failed e, update_stats false self, w')
    | (Ok false, w') => (Failed "No add button found", update_stats false self, w')
    | (Ok true, w') =>
      match drv_click_add env w' with
      | (Raise e, w'') => (Failed e, update_stats false self, w'')
      | (Ok _, w'') =>
        (Succeeded,
         update_stats true (with_stats self (add_to_cart (stats self))), w'')
      end
    end.

(** One call moved the counters by an attempt, with a success exactly when
    the call succeeded, or left them alone. *)
Definition counted (r : Result) (s s' : Stats) : Prop :=
  (actions s' = actions s + 1
   /\ success s' = success s + (if succeeded r then 1 else 0))
  \/ (actions s' = actions s /\ success s' = success s).

(** ** Concrete pages and states for the examples *)

Definition lipstick_1200 : Card := card_of "Matte Lipstick" (rupee ++ "1,200").

Definition lipstick_6000 : Card := card_of "Gold Lipstick" (rupee ++ "6,000").

(** The automation state after a search and an extract of [cards]. *)
Definition after_extract (cards : list Card) : TiraAutomation :=
  {| current_products := parse_cards 0 (firstn 6 (filter displayed cards));
     stats := {| actions := 1; success := 1; cart_items := 0 |} |}.

(** * Further parts of the program *)

(** ** SeleniumFunctions.get_catalog *)

(** An entry of the catalog; [cat_parameters] is [None] for an entry
    without the key. *)
Record CatalogEntry := {
  cat_description : string;
  cat_use_case : string;
  cat_parameters : option (list (string * string));
  cat_success_rate : string;
  cat_persona_impact : string
}.

(** The dictionary, in insertion order. *)
Definition get_catalog : list (string * CatalogEntry) :=
  [ ("search_products",
     {| cat_description := "Search for products with persona-specific typing behavior";
        cat_use_case := "Finding products, starting shopping journey";
        cat_parameters := Some [("search_term", "string")];
        cat_success_rate := "100%";
        cat_persona_impact := "High" |});
    ("extract_products",
     {| cat_description := "Extract all visible products with names and prices";
        cat_use_case := "Analyzing available products on current page";
        cat_parameters := None;
        cat_success_rate := "100%";
        cat_persona_impact := "Low" |});
    ("hover_add_to_cart",
     {| cat_description := "Add product to cart using hover interaction";
        cat_use_case := "Quick impulsive purchase from search results";
        cat_parameters := Some [("product_index", "int (0-5)")];
        cat_success_rate := "100%";
        cat_persona_impact := "High" |});
    ("click_product_details",
     {| cat_description := "Click product to examine details with tab handling";
        cat_use_case := "Careful examination before purchase";
        cat_parameters := Some [("product_index", "int (0-5)")];
        cat_success_rate := "100%";
        cat_persona_impact := "High" |});
    ("add_from_details",
     {| cat_description := "Add to cart from product detail page";
        cat_use_case := "Purchase after detailed examination";
        cat_parameters := None;
        cat_success_rate := "100%";
        cat_persona_impact := "Medium" |});
    ("view_cart",
     {| cat_description := "Check shopping cart contents and total";
        cat_use_case := "Reviewing purchases, budget checking";
        cat_parameters := None;
        cat_success_rate := "100%";
        cat_persona_impact := "High" |});
    ("remove_from_cart",
     {| cat_description := "Remove item from cart";
        cat_use_case := "Changing mind, budget concerns";
        cat_parameters := None;
        cat_success_rate := "95%";
        cat_persona_impact := "High" |});
    ("complete_session",
     {| cat_description := "Finish shopping session with satisfaction";
        cat_use_case := "When shopping goals are met";
        cat_parameters := None;
        cat_success_rate := "100%";
        cat_persona_impact := "Medium" |}) ].

(** [name in catalog] *)
Definition in_catalog (function_name : string) : bool :=
  existsb (fun entry => String.eqb function_name (fst entry)) get_catalog.

(** ** PersonaCreator.create_custom_persona *)

(** [s.split(sep)] for a one-character separator: one more piece than there
    are separators, so never an empty list. *)
Fixpoint split_on (sep : ascii) (s : string) : list string :=
  match s with
  | EmptyString => [EmptyString]
  | String c t =>
    if (c =? sep)%char then EmptyString :: split_on sep t
    else
      match split_on sep t with
      | piece :: pieces => String c piece :: pieces
      | [] => [String c EmptyString]
      end
  end.

(** The white space that [int] accepts around a number, on ASCII: tab,
    newline, vertical tab, form feed, carriage return and the space. *)
Definition is_int_space (c : ascii) : bool :=
  let n := nat_of_ascii c in
  (((9 <=? n) && (n <=? 13)) || (n =? 32))%nat.

Fixpoint all_int_space (s : string) : bool :=
  match s with
  | EmptyString => true
  | String c t => is_int_space c && all_int_space t
  end.

Fixpoint int_lstrip (s : string) : string :=
  match s with
  | String c t => if is_int_space c then int_lstrip t else s
  | EmptyString => EmptyString
  end.

(** The end of a conversion: more than 4300 digits are refused. *)
Definition int_finish (count : nat) (acc : Z) : option Z :=
  if (4300 <? count)%nat then None else Some acc.

(** [int] after the first digit: digits, with single underscores allowed
    between two digits, then nothing but white space; [count] is the number
    of digits read so far. *)
Fixpoint int_digits (count : nat) (acc : Z) (s : string) : option Z :=
  match s with
  | EmptyString => int_finish count acc
  | String c t =>
    if PyStr.is_digit c then
      int_digits (S count) (10 * acc + PyStr.digit_val c) t
    else if (c =? "_")%char then
      match t with
      | String d t' =>
        if PyStr.is_digit d then
          int_digits (S count) (10 * acc + PyStr.digit_val d) t'
        else None
      | EmptyString => None
      end
    else if all_int_space s then int_finish count acc
    else None
  end.

Definition int_unsigned (s : string) : option Z :=
  match s with
  | String c t =>
    if PyStr.is_digit c then int_digits 1 (PyStr.digit_val c) t else None
  | EmptyString => None
  end.

(** [int(s)] for a string, base 10, on ASCII text: leading white space is
    skipped, one sign may lead, digits follow, then white space only;
    [None] is [ValueError]. *)
Definition py_int (s : string) : option Z :=
  match int_lstrip s with
  | String c t =>
    if (c =? "+")%char then int_unsigned t
    else if (c =? "-")%char then option_map Z.opp (int_unsigned t)
    else int_unsigned (String c t)
  | EmptyString => None
  end.

(** [s or default] *)
Definition or_default (s default : string) : string :=
  match s with
  | EmptyString => default
  | _ => s
  end.

(** Reading from the terminal: the state is the list of lines still to be
    typed, [input] takes the first and raises [EOFError] when none is
    left. *)
Definition Input (A : Type) : Type := list string -> res A * list string.

Definition ret {A : Type} (a : A) : Input A := fun answers => (Ok a, answers).

Definition bind {A B : Type} (m : Input A) (k : A -> Input B) : Input B :=
  fun answers =>
    match m answers with
    | (Ok a, rest) => k a rest
    | (Raise e, rest) => (Raise e, rest)
    end.

Notation "x <- m ;; k" := (bind m (fun x => k))
  (at level 61, m at next level, right associativity).

Definition input : Input string :=
  fun answers =>
    match answers with
    | [] => (Raise "EOF when reading a line", [])
    | line :: rest => (Ok line, rest)
    end.

(** [[t.strip() for t in text.split(",")] if text else default] *)
Definition comma_list (text : string) (default : list string) : list string :=
  match text with
  | EmptyString => default
  | _ => map PyStr.strip (split_on "," text)
  end.

(** The [try] block around the two budget prompts: a [ValueError] at either
    [int] gives both defaults, and one at the first leaves the second
    prompt unasked. *)
Definition read_budget : Input (Z * Z) :=
  first <- input ;;
  match py_int (or_default first "500") with
  | None => ret (500, 5000)
  | Some min_budget =>
    second <- input ;;
    match py_int (or_default second "5000") with
    | None => ret (500, 5000)
    | Some max_budget => ret (min_budget, max_budget)
    end
  end.

(** [decision_styles.get(decision_choice, "balanced")] *)
Definition decision_style_of (decision_choice : string) : string :=
  if (decision_choice =? "1")%string then "quick_impulsive"
  else if (decision_choice =? "2")%string then "research_heavy"
  else if (decision_choice =? "3")%string then "price_focused"
  else if (decision_choice =? "4")%string then "quality_focused"
  else if (decision_choice =? "5")%string then "indecisive"
  else "balanced".

(** [time_prefs.get(time_choice, "normal")] *)
Definition time_preference_of (time_choice : string) : string :=
  if (time_choice =? "1")%string then "quick"
  else if (time_choice =? "2")%string then "normal"
  else if (time_choice =? "3")%string then "extended"
  else "normal".

Definition create_custom_persona : Input CustomPersona :=
  name_line <- input ;;
  let name := or_default (PyStr.strip name_line) "CustomShopper" in
  traits_line <- input ;;
  let traits := comma_list (PyStr.strip traits_line) ["curious"; "practical"] in
  budget <- read_budget ;;
  interests_line <- input ;;
  let interests := comma_list (PyStr.strip interests_line) ["beauty products"] in
  goals_line <- input ;;
  let goals := comma_list (PyStr.strip goals_line) ["explore products"] in
  decision_line <- input ;;
  let decision_style := decision_style_of (PyStr.strip decision_line) in
  time_line <- input ;;
  let time_preference := time_preference_of (PyStr.strip time_line) in
  let persona_type := _determine_persona_type traits decision_style in
  ret {| name := name;
         type := persona_type;
         budget_range := budget;
         personality_traits := traits;
         interests := interests;
         shopping_goals := goals;
         decision_style := decision_style;
         time_preference := time_preference |}.

(** ** Reference definitions for the further properties *)

(** A decimal digit as a character, and a run of digits as text. *)
Definition digit_char (d : nat) : ascii := ascii_of_nat (48 + d).

Fixpoint digits_text (ds : list nat) : string :=
  match ds with
  | [] => EmptyString
  | d :: rest => String (digit_char d) (digits_text rest)
  end.

(** The number that a run of digits reads as, continuing from [acc]. *)
Fixpoint digits_value (acc : Z) (ds : list nat) : Z :=
  match ds with
  | [] => acc
  | d :: rest => digits_value (10 * acc + Z.of_nat d) rest
  end.

(** Digit groups written with commas between them. *)
Fixpoint groups_text (groups : list (list nat)) : string :=
  match groups with
  | [] => EmptyString
  | [g] => digits_text g
  | g :: rest => digits_text g ++ "," ++ groups_text rest
  end.

(** The task headers printed in a log, in order. *)
Fixpoint headers (out : list Line) : list (nat * string) :=
  match out with
  | [] => []
  | ExecutingTask i task_name :: rest => (i, task_name) :: headers rest
  | _ :: rest => headers rest
  end.

(** The number of page refreshes a log shows. *)
Fixpoint refreshes (out : list Line) : nat :=
  match out with
  | [] => O
  | Refreshing :: rest => S (refreshes rest)
  | _ :: rest => refreshes rest
  end.

(** Whether a log shows an exception that reached the loop of a task. *)
Definition escaped_in (out : list Line) : bool :=
  existsb (fun l => match l with TaskExecutionFailed _ => true | _ => false end) out.

(** Tasks numbered from [i], as [enumerate(tasks, i)] gives them. *)
Fixpoint numbered (i : nat) (tasks : list LLMTask) : list (nat * string) :=
  match tasks with
  | [] => []
  | task :: rest => (i, task_name task) :: numbered (S i) rest
  end.

(** The number of occurrences of [function_name] in a list of names. *)
Definition occurrences (function_name : string) (names : list string) : nat :=
  List.length (filter (String.eqb function_name) names).

(** Whether the character [c] occurs in [s]. *)
Fixpoint has_char (c : ascii) (s : string) : bool :=
  match s with
  | EmptyString => false
  | String x t => (x =? c)%char || has_char c t
  end.

(** Whether some single trait, lower-cased, holds one of [words]. *)
Definition trait_hits (words : list string) (traits : list string) : bool :=
  existsb (fun t => PyStr.any_in words (PyStr.lower t)) traits.

(** Whether a text is white space only. *)
Fixpoint all_space (s : string) : bool :=
  match s with
  | EmptyString => true
  | String c t => PyStr.is_space c && all_space t
  end.

(** Whether an amount cannot go on into [rest]: the text ends or goes on
    with a character that is neither a digit nor a comma. *)
Definition stops (rest : string) : bool :=
  match rest with
  | EmptyString => true
  | String c _ => negb (PyStr.is_digit c) && negb (c =? ",")%char
  end.

(** The text after a leading rupee sign, as [search_price] takes it. *)
Definition after_sign (text : string) : string :=
  substring 3 (String.length text - 3) text.

(** What [search_price] tries at the start of [text]. *)
Definition first_try (text : string) : option Z :=
  if prefix rupee text then match_amount (after_sign text) else None.

(** A run of digits, each below ten, with at least one digit. *)
Definition digit_group (g : list nat) : Prop :=
  g <> [] /\ Forall (fun d => (d < 10)%nat) g.

(** The text that follows the first digit group. *)
Definition continuation (groups : list (list nat)) (rest : string) : string :=
  match groups with
  | [] => rest
  | _ :: _ => "," ++ groups_text groups ++ rest
  end.

(** The state a session keeps sound: a cart count that is not negative
    and at most six stored products. *)
Definition sound (a : TiraAutomation) : Prop :=
  0 <= cart_items (stats a) /\ (List.length (current_products a) <= 6)%nat.

(** The automation state a session ends with. *)
Definition final_automation {W : Type} (s : Session (W := W)) : TiraAutomation :=
  match s with
  | Finished a _ _ => a
  | Crashed _ a _ _ => a
  end.

(** The announced operations that always count as an attempt, and those
    that may. *)
Definition always_counted (names : list string) : nat :=
  occurrences "search_products" names + occurrences "view_cart" names.

Definition may_be_counted (names : list string) : nat :=
  always_counted names
  + occurrences "hover_add_to_cart" names + occurrences "remove_from_cart" names.

(** Whether a function name changes the cart count when dispatched. *)
Definition touches_cart (function_name : string) : bool :=
  (function_name =? "hover_add_to_cart")%string
  || (function_name =? "remove_from_cart")%string.

(** The persona that the seven answers other than a second budget answer
    describe. *)
Definition persona_of (name_line traits_line : string) (budget : Z * Z)
    (interests_line goals_line decision_line time_line : string) : CustomPersona :=
  let traits := comma_list (PyStr.strip traits_line) ["curious"; "practical"] in
  let style := decision_style_of (PyStr.strip decision_line) in
  {| name := or_default (PyStr.strip name_line) "CustomShopper";
     type := _determine_persona_type traits style;
     budget_range := budget;
     personality_traits := traits;
     interests := comma_list (PyStr.strip interests_line) ["beauty products"];
     shopping_goals := comma_list (PyStr.strip goals_line) ["explore products"];
     decision_style := style;
     time_preference := time_preference_of (PyStr.strip time_line) |}.

(** ** Further pages and personas for the examples *)

(** A page whose product cards cannot be read; every other call answers as
    in [shop]. *)
Definition broken_shop : Env nat :=
  {| drv_setup := fun w => (Ok tt, w);
     drv_search := fun _ w => (Ok tt, w);
     drv_cards := fun w => (Raise "no such element", w);
     drv_hover := fun _ w => (Ok true, w);
     drv_click_add := fun w => (Ok tt, S w);
     drv_view_cart := fun w => (Ok w, w);
     drv_remove_buttons := fun w => (Ok w, w);
     drv_click_remove := fun w => (Ok tt, Nat.pred w);
     drv_refresh := fun w => (Ok tt, w);
     rnd := fun w => (O, w) |}.

(** A careful persona with a budget trait. *)
Definition thrifty_persona : CustomPersona :=
  {| name := "Asha";
     type := _determine_persona_type ["Budget-minded"; "careful"] "research_heavy";
     budget_range := (200, 1500);
     personality_traits := ["Budget-minded"; "careful"];
     interests := ["sunscreen"];
     shopping_goals := ["restock essentials"];
     decision_style := "research_heavy";
     time_preference := "normal" |}.

(** A persona built by hand with nothing to search for. *)
Definition aimless_persona : CustomPersona :=
  {| name := "Nobody";
     type := CUSTOM;
     budget_range := (500, 5000);
     personality_traits := ["curious"];
     interests := [];
     shopping_goals := [];
     decision_style := "balanced";
     time_preference := "normal" |}.

(** A text-generation capability that raises on every call. *)
Definition failing_client : CustomPersona -> LLMReply :=
  fun _ => ReplyRaises "connection refused".

(** Answers typed at the prompts of persona creation. *)
Definition typed_answers : list string :=
  ["  Asha "; "Trendy, budget-Minded"; " 1500"; "200 "; "sunscreen, lip balm";
   "restock essentials"; "3"; "1"; "y"].

(** Digit runs for the examples. *)
Definition digits_1 : list nat := [1%nat].
Definition digits_200 : list nat := [2%nat; 0%nat; 0%nat].
Definition digits_1500 : list nat := [1%nat; 5%nat; 0%nat; 0%nat].

(** ** Reference definitions for the counters *)

(** Whether a quick-add returns at its index check or at its budget gate,
    before it calls [_update_stats]. *)
Definition hover_is_gated (persona : CustomPersona) (product_index : Z)
    (self : TiraAutomation) : bool :=
  match current_products self with
  | [] => true
  | _ :: _ =>
    (product_index >=? Z.of_nat (List.length (current_products self)))
    || match py_index (current_products self) product_index with
       | Some product => price product >? snd (budget_range persona)
       | None => false
       end
  end.

(** Whether the page shows no remove button. *)
Definition nothing_to_remove {W : Type} (env : Env W) (w : W) : bool :=
  match drv_remove_buttons env w with
  | (Ok O, _) => true
  | _ => false
  end.

(** Whether the operation that [_execute_task] dispatches for
    [function_name] returns without calling [_update_stats]. *)
Definition uncounted {W : Type} (env : Env W) (persona : CustomPersona)
    (function_name : string) (a : TiraAutomation) (w : W) : bool :=
  if (function_name =? "extract_products")%string then true
  else if (function_name =? "complete_session")%string then true
  else if (function_name =? "hover_add_to_cart")%string then
    hover_is_gated persona 0 a
  else if (function_name =? "remove_from_cart")%string then
    nothing_to_remove env w
  else false.

(** A page whose refresh raises; every other call answers as in [shop]. *)
Definition stuck_shop : Env nat :=
  {| drv_setup := fun w => (Ok tt, w);
     drv_search := fun _ w => (Ok tt, w);
     drv_cards := fun w => (Ok [], w);
     drv_hover := fun _ w => (Ok true, w);
     drv_click_add := fun w => (Ok tt, S w);
     drv_view_cart := fun w => (Ok w, w);
     drv_remove_buttons := fun w => (Ok w, w);
     drv_click_remove := fun w => (Ok tt, Nat.pred w);
     drv_refresh := fun w => (Raise "page crashed", w);
     rnd := fun w => (O, w) |}.

(** Two tasks, the first ending in a complete-session with operations
    after it. *)
Definition finishing_task : LLMTask :=
  {| task_name := "Finish early";
     description := "Look at the cart and stop";
     expected_functions := ["view_cart"; "complete_session"; "remove_from_cart"];
     success_criteria := "Session completed";
     emotional_journey := ["satisfied"] |}.

Definition following_task : LLMTask :=
  {| task_name := "Look again";
     description := "Look at the cart once more";
     expected_functions := ["view_cart"];
     success_criteria := "Cart reviewed";
     emotional_journey := ["curious"] |}.

(** * Properties *)

(** ** Checks of the embedding on concrete inputs *)

Example classify_budget_luxury :
  _determine_persona_type ["budget"; "luxury"] "balanced" = BUDGET_SHOPPER.
Proof. reflexivity. Qed.

Example classify_upper_case :
  _determine_persona_type ["Trendy"; "ORGANIC"] "balanced" = BEAUTY_ENTHUSIAST.
Proof. reflexivity. Qed.

Example price_plain : parse_price (rupee ++ "1200") = 1200.
Proof. reflexivity. Qed.

Example price_commas : parse_price (" MRP " ++ rupee ++ " 1,20,000.50 ") = 120000.
Proof. reflexivity. Qed.

Example price_dangling_comma : parse_price (rupee ++ "12,x") = 12.
Proof. reflexivity. Qed.

Example price_second_sign : parse_price (rupee ++ "x " ++ rupee ++ "7") = 7.
Proof. reflexivity. Qed.

Example price_missing : parse_price "1200" = 0.
Proof. reflexivity. Qed.

Example scenario_1200 :
  final_stats (run_interactive_session (shop [card_of "Matte Lipstick" (rupee ++ "1,200")])
                 false rule_engine impulsive_persona 0%nat)
  = {| actions := 2; success := 2; cart_items := 1 |}.
Proof. reflexivity. Qed.

Example scenario_6000 :
  final_stats (run_interactive_session (shop [card_of "Matte Lipstick" (rupee ++ "6000")])
                 false rule_engine impulsive_persona 0%nat)
  = {| actions := 1; success := 1; cart_items := 0 |}.
Proof. reflexivity. Qed.

Example scenario_6000_out :
  final_out (run_interactive_session (shop [card_of "Matte Lipstick" (rupee ++ "6000")])
               false rule_engine impulsive_persona 0%nat)
  = [ExecutingTask 1 "Quick Product Discovery";
     Executing "search_products"; Executing "extract_products";
     Executing "hover_add_to_cart";
     FunctionFailed "hover_add_to_cart" "Over budget"].
Proof. reflexivity. Qed.

(** ** Classification *)


Lemma determine_first_match (traits : list string) (d : string) :
  _determine_persona_type traits d = first_match priority_table (trait_text_of traits).
Proof.
  unfold _determine_persona_type, trait_text_of, priority_table, first_match.
  repeat match goal with
         | |- context [if ?b then _ else _] => destruct b; try reflexivity
         end.
Qed.

(** C6: the classifier is a function of the lower-cased, space-joined
    traits that scans the keyword groups in the fixed order budget, luxury,
    indecisiveness, beauty/trend, skincare, gift, and returns the category
    of the first group with a keyword in the text, else custom.  A budget
    keyword therefore decides the result whatever else the text holds, a
    luxury keyword decides it only when no budget keyword is there, and
    traits ["budget"; "luxury"] classify as the budget shopper. *)
Theorem classification_is_ordered_scan :
  (forall traits d,
      _determine_persona_type traits d
      = first_match priority_table (PyStr.lower (PyStr.join " " traits)))
  /\ map snd priority_table
     = [BUDGET_SHOPPER; LUXURY_BUYER; INDECISIVE_SHOPPER; BEAUTY_ENTHUSIAST;
        SKINCARE_FOCUSED; GIFT_SHOPPER]
  /\ (forall traits d,
         PyStr.any_in ["budget"; "cheap"; "affordable"; "price"]
           (trait_text_of traits) = true ->
         _determine_persona_type traits d = BUDGET_SHOPPER)
  /\ (forall traits d,
         _determine_persona_type traits d = LUXURY_BUYER ->
         PyStr.any_in ["budget"; "cheap"; "affordable"; "price"]
           (trait_text_of traits) = false)
  /\ (forall d, _determine_persona_type ["budget"; "luxury"] d = BUDGET_SHOPPER)
  /\ (forall d, _determine_persona_type ["luxury"; "budget"] d = BUDGET_SHOPPER).
Proof.
  split; [exact determine_first_match|].
  split; [reflexivity|].
  split.
  { intros traits d H. unfold _determine_persona_type.
    fold (trait_text_of traits). now rewrite H. }
  split.
  { intros traits d. unfold _determine_persona_type.
    fold (trait_text_of traits).
    destruct (PyStr.any_in ["budget"; "cheap"; "affordable"; "price"]
                (trait_text_of traits)); [discriminate | reflexivity]. }
  split; intros d; reflexivity.
Qed.

Lemma classification_is_ordered_scan_witness :
  PyStr.any_in ["budget"; "cheap"; "affordable"; "price"]
    (trait_text_of ["Cheap thrills"; "premium taste"]) = true
  /\ _determine_persona_type ["Cheap thrills"; "premium taste"] "balanced"
     = BUDGET_SHOPPER.
Proof.
  split; [reflexivity|].
  apply (proj1 (proj2 (proj2 classification_is_ordered_scan))).
  reflexivity.
Defined.

(** C9: the category does not depend on the decision style that the
    classifier receives. *)
Theorem classification_ignores_decision_style (traits : list string) (d1 d2 : string) :
  _determine_persona_type traits d1 = _determine_persona_type traits d2.
Proof. reflexivity. Qed.

(** ** Task generation *)


Lemma rule_tasks_nonempty (persona : CustomPersona) :
  interests persona <> [] ->
  exists task rest,
    _rule_generate_tasks persona = Ok (task :: rest) /\ (List.length rest <= 1)%nat.
Proof.
  intros Hne. unfold _rule_generate_tasks.
  destruct (interests persona) as [|interest0 more]; [congruence|].
  destruct (decision_style persona =? "quick_impulsive")%string;
    destruct (PyStr.contains "budget" _); simpl;
    eexists; eexists; (split; [reflexivity | simpl; lia]).
Qed.

(** C2, as stated, fails on the text-generation path: an answer whose
    task array is empty is returned as it is. *)
Lemma generate_empty_on_llm_path :
  generate_shopping_tasks true empty_answer_engine impulsive_persona = Ok []
  /\ interests impulsive_persona <> [].
Proof. split; [reflexivity | discriminate]. Qed.

(** C2, amended: for a persona with at least one interest [generate]
    always returns a sequence of tasks.  On the rule-based path, taken
    when no capability is configured or available and when the capability
    raises or answers without JSON, the sequence has one or two tasks.  On
    the text-generation path it has one task for each element of the
    answer's task array, in the array's order; it is empty exactly when
    that array is empty or absent. *)
Theorem generate_tasks_amended (OPENAI_AVAILABLE : bool)
    (engine : TaskGenerationEngine) (persona : CustomPersona) :
  interests persona <> [] ->
  (exists task rest,
      _rule_generate_tasks persona = Ok (task :: rest) /\ (List.length rest <= 1)%nat)
  /\ (forall client tasks,
         client persona = ReplyJson tasks ->
         _llm_generate_tasks client persona = Ok (map task_of_data (get_default tasks [])))
  /\ (forall client,
         (forall tasks, client persona <> ReplyJson tasks) ->
         _llm_generate_tasks client persona = _rule_generate_tasks persona)
  /\ exists tasks,
      generate_shopping_tasks OPENAI_AVAILABLE engine persona = Ok tasks
      /\ (tasks = [] <->
          OPENAI_AVAILABLE = true
          /\ exists client answer,
              openai_client engine = Some client
              /\ client persona = ReplyJson answer
              /\ get_default answer [] = []).
Proof.
  intros Hne.
  destruct (rule_tasks_nonempty persona Hne) as (task & rest & Hrule & Hlen).
  split; [now exists task, rest|].
  split.
  { intros client tasks H. unfold _llm_generate_tasks. now rewrite H. }
  split.
  { intros client H. unfold _llm_generate_tasks.
    destruct (client persona) as [e| |tasks]; try reflexivity.
    now destruct (H tasks). }
  unfold generate_shopping_tasks.
  assert (Hrule_case :
            exists tasks,
              _rule_generate_tasks persona = Ok tasks /\ tasks <> []).
  { exists (task :: rest). split; [assumption | discriminate]. }
  destruct (openai_client engine) as [client|] eqn:Hclient.
  - destruct OPENAI_AVAILABLE.
    + unfold _llm_generate_tasks.
      destruct (client persona) as [e| |answer] eqn:Hreply.
      * destruct Hrule_case as (tasks & Htasks & Hnonempty).
        exists tasks. split; [assumption|]. split; [congruence|].
        intros (_ & c & ans & Hc & Hans & _). congruence.
      * destruct Hrule_case as (tasks & Htasks & Hnonempty).
        exists tasks. split; [assumption|]. split; [congruence|].
        intros (_ & c & ans & Hc & Hans & _). congruence.
      * exists (map task_of_data (get_default answer [])).
        split; [reflexivity|]. split.
        -- intros Hmap. split; [reflexivity|].
           exists client, answer.
           split; [reflexivity|]. split; [exact Hreply|].
           destruct (get_default answer []); [reflexivity | discriminate].
        -- intros (_ & c & ans & Hc & Hans & Hempty).
           injection Hc as <-. rewrite Hreply in Hans.
           injection Hans as <-. now rewrite Hempty.
    + destruct Hrule_case as (tasks & Htasks & Hnonempty).
      exists tasks. split; [assumption|]. split; [congruence|].
      intros (Hfalse & _). discriminate.
  - destruct Hrule_case as (tasks & Htasks & Hnonempty).
    exists tasks. split; [assumption|]. split; [congruence|].
    intros (_ & c & ans & Hc & _). discriminate.
Qed.

Lemma generate_tasks_amended_witness :
  exists tasks,
    generate_shopping_tasks false rule_engine impulsive_persona = Ok tasks
    /\ (tasks = [] <->
        false = true
        /\ exists client answer,
            openai_client rule_engine = Some client
            /\ client impulsive_persona = ReplyJson answer
            /\ get_default answer [] = []).
Proof.
  apply (generate_tasks_amended false rule_engine impulsive_persona).
  simpl. discriminate.
Defined.

(** ** Counters *)

Lemma announced_app (out1 out2 : list Line) :
  announced (out1 ++ out2) = (announced out1 ++ announced out2)%list.
Proof.
  induction out1 as [|l out1 IH]; simpl; [reflexivity|].
  destruct l; simpl; now rewrite ?IH.
Qed.

Lemma dispatched_app (out1 out2 : list Line) :
  dispatched (out1 ++ out2) = (dispatched out1 + dispatched out2)%nat.
Proof.
  unfold dispatched. now rewrite announced_app, filter_app, length_app.
Qed.

Lemma announced_report (f : string) (r : Result) : announced (report f r) = [].
Proof. unfold report. now destruct (succeeded r). Qed.

Section EngineProperties.

Context {W : Type} (env : Env W).

Ltac step_env :=
  match goal with
  | |- context [match ?f env ?x ?w with _ => _ end] =>
    let o := fresh "o" in let w' := fresh "w" in
    destruct (f env x w) as [o w']; destruct o
  | |- context [match ?f env ?w with _ => _ end] =>
    let o := fresh "o" in let w' := fresh "w" in
    destruct (f env w) as [o w']; destruct o
  | |- context [match ?n with O => _ | S _ => _ end] => is_var n; destruct n
  | |- context [if ?b then _ else _] =>
    lazymatch b with
    | true => fail
    | false => fail
    | _ => destruct b
    end
  end; simpl.

Lemma search_products_counts (persona : CustomPersona) (term : string)
    (a : TiraAutomation) (w : W) :
  let '(r, a', _) := search_products env persona term a w in
  actions (stats a') = actions (stats a) + 1
  /\ success (stats a') = success (stats a) + (if succeeded r then 1 else 0)
  /\ cart_items (stats a') = cart_items (stats a).
Proof.
  unfold search_products. repeat step_env; simpl; lia.
Qed.

Lemma view_cart_counts (persona : CustomPersona) (a : TiraAutomation) (w : W) :
  let '(r, a', _) := view_cart env persona a w in
  actions (stats a') = actions (stats a) + 1
  /\ success (stats a') = success (stats a) + (if succeeded r then 1 else 0)
  /\ cart_items (stats a') = cart_items (stats a).
Proof.
  unfold view_cart. repeat step_env; simpl; lia.
Qed.

Lemma extract_products_keeps_stats (persona : CustomPersona)
    (a : TiraAutomation) (w : W) :
  let '(_, a', _) := extract_products env persona a w in stats a' = stats a.
Proof.
  unfold extract_products. repeat step_env; reflexivity.
Qed.

Lemma hover_add_to_cart_counts (persona : CustomPersona) (i : Z)
    (a : TiraAutomation) (w : W) :
  let '(r, a', _) := hover_add_to_cart env persona i a w in
  counted r (stats a) (stats a')
  /\ cart_items (stats a')
     = cart_items (stats a) + (if succeeded r then 1 else 0).
Proof.
  unfold hover_add_to_cart, counted.
  destruct (current_products a) as [|p ps]; [simpl; lia|].
  destruct (i >=? _); [simpl; lia|].
  destruct (py_index _ _) as [product|]; [|simpl; lia].
  repeat step_env; simpl; lia.
Qed.

Lemma remove_from_cart_counts (persona : CustomPersona)
    (a : TiraAutomation) (w : W) :
  let '(r, a', _) := remove_from_cart env persona a w in
  counted r (stats a) (stats a')
  /\ cart_items (stats a')
     = (if succeeded r then Z.max 0 (cart_items (stats a) - 1)
        else cart_items (stats a)).
Proof.
  unfold remove_from_cart, counted. repeat step_env; simpl; lia.
Qed.

Lemma search_term_chosen (persona : CustomPersona) (w : W) :
  match _get_intelligent_search_term env persona w with
  | (Ok _, _) => (interests persona ++ shopping_goals persona)%list <> []
  | (Raise _, w') => (interests persona ++ shopping_goals persona)%list = [] /\ w' = w
  end.
Proof.
  unfold _get_intelligent_search_term, prefixed, random_choice.
  destruct (interests persona ++ shopping_goals persona)%list as [|x l].
  - destruct (decision_style persona =? "price_focused")%string; [now split|].
    destruct (type persona); try (now split);
      destruct (PyStr.contains _ _); now split.
  - destruct (rnd env w) as [r w'].
    destruct (decision_style persona =? "price_focused")%string; [discriminate|].
    destruct (type persona); try discriminate;
      destruct (PyStr.contains _ _); discriminate.
Qed.

Lemma recognized_false (f : string) :
  (f =? "search_products")%string = false ->
  (f =? "extract_products")%string = false ->
  (f =? "hover_add_to_cart")%string = false ->
  (f =? "view_cart")%string = false ->
  (f =? "remove_from_cart")%string = false ->
  (f =? "complete_session")%string = false ->
  recognized f = false.
Proof.
  intros H1 H2 H3 H4 H5 H6. unfold recognized. simpl.
  now rewrite H1, H2, H3, H4, H5, H6.
Qed.

(** What each branch of the dispatch does to the statistics. *)
Lemma dispatch_cases (persona : CustomPersona) (f : string)
    (a : TiraAutomation) (w : W) :
  match dispatch env persona f a w with
  | Returned r a' _ =>
    recognized f = true
    /\ f <> "complete_session"
    /\ counted r (stats a) (stats a')
    /\ (succeeded r = false -> cart_items (stats a') = cart_items (stats a))
    /\ (f = "search_products" \/ f = "view_cart" ->
        actions (stats a') = actions (stats a) + 1)
    /\ (f = "extract_products" -> stats a' = stats a)
  | Completed a' w' => f = "complete_session" /\ a' = a /\ w' = w
  | Unknown => recognized f = false
  | Escaped _ w' =>
    f = "search_products"
    /\ (interests persona ++ shopping_goals persona)%list = [] /\ w' = w
  end.
Proof.
  unfold dispatch.
  destruct (String.eqb_spec f "search_products") as [->|N1].
  { pose proof (search_term_chosen persona w) as Hterm.
    destruct (_get_intelligent_search_term env persona w) as [[term|e] w1].
    - pose proof (search_products_counts persona term a w1) as Hs.
      destruct (search_products env persona term a w1) as [[r a'] w2].
      destruct Hs as (Ha & Hs & Hc). unfold counted.
      repeat split; try discriminate; try lia; auto.
    - destruct Hterm. now repeat split. }
  destruct (String.eqb_spec f "extract_products") as [->|N2].
  { pose proof (extract_products_keeps_stats persona a w) as Hs.
    destruct (extract_products env persona a w) as [[r a'] w1].
    unfold counted. rewrite Hs.
    repeat split; try discriminate; try lia; auto.
    intros [H|H]; discriminate. }
  destruct (String.eqb_spec f "hover_add_to_cart") as [->|N3].
  { pose proof (hover_add_to_cart_counts persona 0 a w) as Hs.
    destruct (hover_add_to_cart env persona 0 a w) as [[r a'] w1].
    destruct Hs as (Hc & Hcart).
    repeat split; try discriminate; auto.
    - intros Hr. rewrite Hr in Hcart. lia.
    - intros [H|H]; discriminate. }
  destruct (String.eqb_spec f "view_cart") as [->|N4].
  { pose proof (view_cart_counts persona a w) as Hs.
    destruct (view_cart env persona a w) as [[r a'] w1].
    destruct Hs as (Ha & Hs & Hc). unfold counted.
    repeat split; try discriminate; try lia; auto. }
  destruct (String.eqb_spec f "remove_from_cart") as [->|N5].
  { pose proof (remove_from_cart_counts persona a w) as Hs.
    destruct (remove_from_cart env persona a w) as [[r a'] w1].
    destruct Hs as (Hc & Hcart).
    repeat split; try discriminate; auto.
    - intros Hr. now rewrite Hr in Hcart.
    - intros [H|H]; discriminate. }
  destruct (String.eqb_spec f "complete_session") as [->|N6].
  { now repeat split. }
  apply recognized_false; now apply String.eqb_neq.
Qed.

Lemma counted_bounds (r : Result) (s s' : Stats) :
  counted r s s' ->
  0 <= success s' - success s <= actions s' - actions s
  /\ actions s' - actions s <= 1.
Proof.
  unfold counted. destruct (succeeded r); lia.
Qed.

Lemma dispatched_executing (f : string) :
  dispatched [Executing f] = if recognized f then 1%nat else 0%nat.
Proof.
  unfold dispatched. simpl. now destruct (recognized f).
Qed.

(** The loop of one task only appends to the log, and the counters move
    within the number of operations it dispatched. *)
Lemma run_functions_counters (persona : CustomPersona) (functions : list string) :
  forall a w out,
    let '(a', _, out') := run_functions env persona functions a w out in
    exists new,
      out' = (out ++ new)%list
      /\ 0 <= success (stats a') - success (stats a)
            <= actions (stats a') - actions (stats a)
      /\ actions (stats a') - actions (stats a) <= Z.of_nat (dispatched new).
Proof.
  induction functions as [|f rest IH]; intros a w out; simpl.
  - exists []. rewrite app_nil_r. repeat split; simpl; lia.
  - pose proof (dispatch_cases persona f a w) as Hd.
    destruct (dispatch env persona f a w) as [r a1 w1|a1 w1| |e w1].
    + destruct Hd as (Hrec & _ & Hcount & _).
      apply counted_bounds in Hcount.
      specialize (IH a1 w1 ((out ++ [Executing f]) ++ report f r)%list).
      destruct (run_functions env persona rest a1 w1 _) as [[a2 w2] out2].
      destruct IH as (new & -> & Hs & Ha).
      exists ([Executing f] ++ report f r ++ new)%list.
      split; [now rewrite <- !app_assoc|].
      rewrite !dispatched_app, dispatched_executing, Hrec.
      unfold dispatched at 1. rewrite announced_report. simpl. lia.
    + destruct Hd as (-> & -> & ->).
      exists [Executing "complete_session"].
      repeat split; simpl; try lia.
    + specialize (IH a w (out ++ [Executing f])%list).
      destruct (run_functions env persona rest a w _) as [[a2 w2] out2].
      destruct IH as (new & -> & Hs & Ha).
      exists ([Executing f] ++ new)%list.
      split; [now rewrite <- !app_assoc|].
      rewrite dispatched_app, dispatched_executing, Hd. simpl. lia.
    + exists [Executing f; TaskExecutionFailed e].
      split; [now rewrite <- app_assoc|].
      repeat split; simpl; try lia.
Qed.

Lemma run_tasks_counters (persona : CustomPersona) (tasks : list LLMTask) :
  forall i a w out,
    let s := run_tasks env persona i tasks a w out in
    exists new,
      final_out s = (out ++ new)%list
      /\ 0 <= success (final_stats s) - success (stats a)
            <= actions (final_stats s) - actions (stats a)
      /\ actions (final_stats s) - actions (stats a) <= Z.of_nat (dispatched new).
Proof.
  induction tasks as [|task rest IH]; intros i a w out; simpl.
  - exists []. rewrite app_nil_r. simpl. split; [reflexivity | lia].
  - unfold _execute_task.
    pose proof (run_functions_counters persona (expected_functions task) a w
                  (out ++ [ExecutingTask i (task_name task)])%list) as Hrun.
    destruct (run_functions env persona (expected_functions task) a w _)
      as [[a1 w1] out1].
    destruct Hrun as (new1 & -> & Hs1 & Ha1).
    destruct rest as [|task2 rest].
    + exists ([ExecutingTask i (task_name task)] ++ new1)%list.
      split; [simpl; now rewrite <- app_assoc|].
      rewrite dispatched_app. unfold dispatched at 1. simpl. lia.
    + destruct (drv_refresh env w1) as [[u|e] w2].
      * specialize (IH (S i) a1 w2
            (((out ++ [ExecutingTask i (task_name task)]) ++ new1) ++ [Refreshing])%list).
        cbv zeta in IH.
        set (s := run_tasks env persona (S i) (task2 :: rest) a1 w2 _) in *.
        clearbody s. destruct IH as (new2 & Hout & Hs2 & Ha2).
        exists ([ExecutingTask i (task_name task)] ++ new1 ++ [Refreshing] ++ new2)%list.
        split; [rewrite Hout; now rewrite <- !app_assoc|].
        rewrite !dispatched_app. unfold dispatched at 1 3. simpl. lia.
      * exists ([ExecutingTask i (task_name task)] ++ new1 ++ [Refreshing])%list.
        split; [simpl; now rewrite <- !app_assoc|].
        rewrite !dispatched_app. unfold dispatched at 1 3. simpl. lia.
Qed.


(** A quick-add returns before the statistics exactly at its index check
    and at its budget gate; past them it always counts one attempt. *)
Lemma hover_counts_exactly (persona : CustomPersona) (i : Z)
    (a : TiraAutomation) (w : W) :
  let '(r, a', w') := hover_add_to_cart env persona i a w in
  if hover_is_gated persona i a then
    a' = a /\ w' = w /\ succeeded r = false
  else
    actions (stats a') = actions (stats a) + 1
    /\ success (stats a') = success (stats a) + (if succeeded r then 1 else 0)
    /\ cart_items (stats a') = cart_items (stats a) + (if succeeded r then 1 else 0).
Proof.
  unfold hover_add_to_cart, hover_is_gated.
  destruct (current_products a) as [|p ps]; [now repeat split|].
  destruct (i >=? _); [now repeat split|]. cbn [orb].
  destruct (py_index (p :: ps) i) as [product|]; [|simpl; lia].
  destruct (price product >? snd (budget_range persona)); [now repeat split|].
  repeat step_env; lia.
Qed.

(** A removal returns before the statistics exactly when the page shows no
    remove button; otherwise it always counts one attempt. *)
Lemma remove_counts_exactly (persona : CustomPersona)
    (a : TiraAutomation) (w : W) :
  let '(r, a', _) := remove_from_cart env persona a w in
  if nothing_to_remove env w then
    a' = a /\ r = Failed "No items to remove"
  else
    actions (stats a') = actions (stats a) + 1
    /\ success (stats a') = success (stats a) + (if succeeded r then 1 else 0)
    /\ cart_items (stats a')
       = (if succeeded r then Z.max 0 (cart_items (stats a) - 1)
          else cart_items (stats a)).
Proof.
  unfold remove_from_cart, nothing_to_remove.
  destruct (drv_remove_buttons env w) as [[[|n]|e] w1]; simpl;
    [now split | | lia].
  destruct (drv_click_remove env w1) as [[u|e] w2]; simpl; lia.
Qed.

Lemma uncounted_spec (persona : CustomPersona) (f : string)
    (a : TiraAutomation) (w : W) :
  uncounted env persona f a w = true <->
  f = "extract_products"
  \/ f = "complete_session"
  \/ (f = "hover_add_to_cart" /\ hover_is_gated persona 0 a = true)
  \/ (f = "remove_from_cart" /\ nothing_to_remove env w = true).
Proof.
  unfold uncounted.
  destruct (String.eqb_spec f "extract_products") as [->|N1];
    [split; [now left | reflexivity]|].
  destruct (String.eqb_spec f "complete_session") as [->|N2];
    [split; [right; now left | reflexivity]|].
  destruct (String.eqb_spec f "hover_add_to_cart") as [->|N3].
  { split.
    - intros H. right. right. left. now split.
    - intros [H|[H|[(_ & H)|(H & _)]]]; try discriminate; exact H. }
  destruct (String.eqb_spec f "remove_from_cart") as [->|N4].
  { split.
    - intros H. right. right. right. now split.
    - intros [H|[H|[(H & _)|(_ & H)]]]; try discriminate; exact H. }
  split; [discriminate|].
  intros [H|[H|[(H & _)|(H & _)]]]; congruence.
Qed.

(** What a dispatched operation does to the counters, exactly. *)
Lemma dispatch_counts_exactly (persona : CustomPersona) (f : string)
    (a : TiraAutomation) (w : W) :
  match dispatch env persona f a w with
  | Returned r a' _ =>
    if uncounted env persona f a w then stats a' = stats a
    else
      actions (stats a') = actions (stats a) + 1
      /\ success (stats a') = success (stats a) + (if succeeded r then 1 else 0)
  | _ => True
  end.
Proof.
  unfold dispatch, uncounted.
  destruct (String.eqb_spec f "search_products") as [->|N1].
  { cbn [String.eqb Ascii.eqb Bool.eqb].
    destruct (_get_intelligent_search_term env persona w) as [[term|e] w1];
      [|exact I].
    pose proof (search_products_counts persona term a w1) as Hs.
    destruct (search_products env persona term a w1) as [[r a'] w2].
    destruct Hs as (Ha & Hs & _). now split. }
  destruct (String.eqb_spec f "extract_products") as [->|N2].
  { pose proof (extract_products_keeps_stats persona a w) as Hs.
    now destruct (extract_products env persona a w) as [[r a'] w1]. }
  destruct (String.eqb_spec f "hover_add_to_cart") as [->|N3].
  { cbn [String.eqb Ascii.eqb Bool.eqb].
    pose proof (hover_counts_exactly persona 0 a w) as Hs.
    destruct (hover_add_to_cart env persona 0 a w) as [[r a'] w1].
    destruct (hover_is_gated persona 0 a).
    - now destruct Hs as (-> & _).
    - destruct Hs as (Ha & Hs & _). now split. }
  destruct (String.eqb_spec f "view_cart") as [->|N4].
  { cbn [String.eqb Ascii.eqb Bool.eqb].
    pose proof (view_cart_counts persona a w) as Hs.
    destruct (view_cart env persona a w) as [[r a'] w1].
    destruct Hs as (Ha & Hs & _). now split. }
  destruct (String.eqb_spec f "remove_from_cart") as [->|N5].
  { cbn [String.eqb Ascii.eqb Bool.eqb].
    pose proof (remove_counts_exactly persona a w) as Hs.
    destruct (remove_from_cart env persona a w) as [[r a'] w1].
    destruct (nothing_to_remove env w).
    - now destruct Hs as (-> & _).
    - destruct Hs as (Ha & Hs & _). now split. }
  destruct (String.eqb_spec f "complete_session") as [->|N6]; exact I.
Qed.


(** ** The budget gate *)

Lemma py_index_some {A : Type} (lst : list A) (i : Z) (x : A) :
  py_index lst i = Some x ->
  lst <> [] /\ i < Z.of_nat (List.length lst).
Proof.
  unfold py_index. intros H.
  destruct (0 <=? i) eqn:Hi.
  - assert (Hlt : (Z.to_nat i < List.length lst)%nat).
    { apply nth_error_Some. congruence. }
    split; [destruct lst; [simpl in Hlt; lia | discriminate] | lia].
  - apply Z.leb_gt in Hi.
    destruct (- Z.of_nat (List.length lst) <=? i) eqn:Hlow; [|discriminate].
    apply Z.leb_le in Hlow.
    split; [destruct lst; [simpl in Hlow; lia | discriminate] | lia].
Qed.

(** Once the index selects a product, what follows is the budget gate and
    the interaction with that product. *)
Lemma hover_selected (persona : CustomPersona) (i : Z) (product : Product)
    (a : TiraAutomation) (w : W) :
  py_index (current_products a) i = Some product ->
  hover_add_to_cart env persona i a w = add_selected env persona product a w.
Proof.
  intros Hsel. destruct (py_index_some _ _ _ Hsel) as (Hne & Hlt).
  unfold hover_add_to_cart, add_selected.
  destruct (current_products a) as [|p ps] eqn:Hps; [congruence|].
  pose proof (Zge_cases i (Z.of_nat (List.length (p :: ps)))) as Hge.
  destruct (i >=? Z.of_nat (List.length (p :: ps))); [lia|].
  now rewrite Hsel.
Qed.

(** C3: when the targeted product costs strictly more than the upper bound
    of the persona's budget range, the quick-add fails with the outcome
    "Over budget" and changes nothing, the cart count included.  When it
    does not cost more, a successful quick-add increments the cart count by
    exactly 1 and a failed one leaves it alone; the quick-add does succeed
    when the page shows an add button and the click goes through. *)
Theorem budget_gate (persona : CustomPersona) (i : Z) (product : Product)
    (a : TiraAutomation) (w : W) :
  py_index (current_products a) i = Some product ->
  (price product > snd (budget_range persona) ->
   hover_add_to_cart env persona i a w = (Failed "Over budget", a, w))
  /\ (price product <= snd (budget_range persona) ->
      (let '(r, a', _) := hover_add_to_cart env persona i a w in
       (succeeded r = true ->
        cart_items (stats a') = cart_items (stats a) + 1)
       /\ (succeeded r = false ->
           cart_items (stats a') = cart_items (stats a)))
      /\ (forall w1 w2 u,
             drv_hover env (element product) w = (Ok true, w1) ->
             drv_click_add env w1 = (Ok u, w2) ->
             hover_add_to_cart env persona i a w
             = (Succeeded,
                update_stats true (with_stats a (add_to_cart (stats a))), w2))).
Proof.
  intros Hsel. rewrite (hover_selected persona i product a w Hsel).
  split.
  - intros Hover. unfold add_selected.
    pose proof (Zgt_cases (price product) (snd (budget_range persona))) as Hgt.
    destruct (price product >? snd (budget_range persona)); [reflexivity | lia].
  - intros Hfits. split.
    + rewrite <- (hover_selected persona i product a w Hsel).
      pose proof (hover_add_to_cart_counts persona i a w) as Hc.
      destruct (hover_add_to_cart env persona i a w) as [[r a'] w'].
      destruct Hc as (_ & Hcart).
      split; intros Hr; rewrite Hr in Hcart; lia.
    + intros w1 w2 u Hhover Hclick. unfold add_selected.
      pose proof (Zgt_cases (price product) (snd (budget_range persona))) as Hgt.
      destruct (price product >? snd (budget_range persona)); [lia|].
      now rewrite Hhover, Hclick.
Qed.

(** ** Removal from the cart *)

(** C8, amended: remove-from-cart looks at the page, not at the cart
    count.  When the page shows no remove button it fails with the outcome
    "No items to remove" and changes nothing, whatever the cart count is.
    When the page shows a button and the click goes through it succeeds,
    also from a cart count of 0, and counts as a successful attempt.  In
    every state and whatever the page does, a cart count of 0 stays 0, a
    successful removal sets the count to max(0, count - 1), a failed one
    leaves it alone, and a non-negative count stays non-negative. *)
Theorem remove_from_cart_clamped (persona : CustomPersona)
    (a : TiraAutomation) (w : W) :
  let '(r, a', w') := remove_from_cart env persona a w in
  (forall w1,
      drv_remove_buttons env w = (Ok O, w1) ->
      r = Failed "No items to remove" /\ a' = a /\ w' = w1)
  /\ (forall n w1 u w2,
         drv_remove_buttons env w = (Ok (S n), w1) ->
         drv_click_remove env w1 = (Ok u, w2) ->
         r = Succeeded
         /\ w' = w2
         /\ current_products a' = current_products a
         /\ stats a'
            = {| actions := actions (stats a) + 1;
                 success := success (stats a) + 1;
                 cart_items := Z.max 0 (cart_items (stats a) - 1) |})
  /\ (cart_items (stats a) = 0 -> cart_items (stats a') = 0)
  /\ (succeeded r = true ->
      cart_items (stats a') = Z.max 0 (cart_items (stats a) - 1))
  /\ (succeeded r = false -> cart_items (stats a') = cart_items (stats a))
  /\ (0 <= cart_items (stats a) -> 0 <= cart_items (stats a')).
Proof.
  pose proof (remove_from_cart_counts persona a w) as Hc.
  assert (Hempty :
            forall w1,
              drv_remove_buttons env w = (Ok O, w1) ->
              remove_from_cart env persona a w
              = (Failed "No items to remove", a, w1)).
  { intros w1 H. unfold remove_from_cart. now rewrite H. }
  assert (Hshown :
            forall n w1 u w2,
              drv_remove_buttons env w = (Ok (S n), w1) ->
              drv_click_remove env w1 = (Ok u, w2) ->
              remove_from_cart env persona a w
              = (Succeeded,
                 update_stats true (with_stats a (drop_from_cart (stats a))), w2)).
  { intros n w1 u w2 H1 H2. unfold remove_from_cart. now rewrite H1, H2. }
  destruct (remove_from_cart env persona a w) as [[r a'] w'].
  destruct Hc as (_ & Hcart).
  split.
  { intros w1 H. specialize (Hempty w1 H). now inversion Hempty. }
  split.
  { intros n w1 u w2 H1 H2. specialize (Hshown n w1 u w2 H1 H2).
    inversion Hshown; subst. now repeat split. }
  destruct (succeeded r); repeat split; intros; try discriminate; lia.
Qed.

(** ** Negative indices *)

(** C10, amended: the validity check of quick-add only rejects indices
    greater than or equal to the number of visible products.  For a
    non-empty product list and an index i with -len <= i < 0 the operation
    passes the check and targets product len + i, as for that index; for
    i < -len the selection raises, and the operation fails with
    "list index out of range", recorded as a failed attempt. *)
Theorem negative_index_amended (persona : CustomPersona) (i : Z)
    (a : TiraAutomation) (w : W) :
  current_products a <> [] ->
  i < 0 ->
  let len := Z.of_nat (List.length (current_products a)) in
  (i >=? len) = false
  /\ (- len <= i ->
      exists product,
        nth_error (current_products a) (Z.to_nat (len + i)) = Some product
        /\ hover_add_to_cart env persona i a w
           = add_selected env persona product a w
        /\ hover_add_to_cart env persona i a w
           = hover_add_to_cart env persona (len + i) a w)
  /\ (i < - len ->
      hover_add_to_cart env persona i a w
      = (Failed "list index out of range", update_stats false a, w)).
Proof.
  intros Hne Hneg len.
  assert (Hge : (i >=? len) = false).
  { pose proof (Zge_cases i len) as H. destruct (i >=? len); [lia | reflexivity]. }
  split; [exact Hge|]. split.
  - intros Hlow.
    destruct (nth_error (current_products a) (Z.to_nat (len + i)))
      as [product|] eqn:Hnth.
    + exists product. split; [reflexivity|].
      assert (Hsel : py_index (current_products a) i = Some product).
      { unfold py_index. fold len.
        destruct (0 <=? i) eqn:H0; [apply Z.leb_le in H0; lia|].
        destruct (- len <=? i) eqn:H1; [exact Hnth|].
        apply Z.leb_gt in H1. lia. }
      assert (Hsel' : py_index (current_products a) (len + i) = Some product).
      { unfold py_index.
        destruct (0 <=? len + i) eqn:H0; [exact Hnth|].
        apply Z.leb_gt in H0. lia. }
      now rewrite (hover_selected _ _ _ _ _ Hsel), (hover_selected _ _ _ _ _ Hsel').
    + apply nth_error_None in Hnth. unfold len in *. lia.
  - intros Hlow.
    assert (Hnone : py_index (current_products a) i = None).
    { unfold py_index. fold len.
      destruct (0 <=? i) eqn:H0; [apply Z.leb_le in H0; lia|].
      destruct (- len <=? i) eqn:H1; [apply Z.leb_le in H1; lia | reflexivity]. }
    unfold hover_add_to_cart. fold len. rewrite Hge, Hnone.
    destruct (current_products a); [congruence | reflexivity].
Qed.

(** ** The loop of a task *)

Lemma run_tasks_out_head (persona : CustomPersona) (i : nat) (task : LLMTask)
    (rest : list LLMTask) (a : TiraAutomation) (w : W) (out : list Line) :
  exists more,
    final_out (run_tasks env persona i (task :: rest) a w out)
    = (out ++ ExecutingTask i (task_name task) :: more)%list.
Proof.
  destruct (run_tasks_counters persona (task :: rest) i a w out)
    as (new & Hout & _).
  cbn [run_tasks] in *. unfold _execute_task in *.
  pose proof (run_functions_counters persona (expected_functions task) a w
                (out ++ [ExecutingTask i (task_name task)])%list) as Hrun.
  destruct (run_functions env persona (expected_functions task) a w _)
    as [[a1 w1] out1].
  destruct Hrun as (new1 & -> & _).
  destruct rest as [|task2 rest].
  - exists new1. simpl. now rewrite <- app_assoc.
  - destruct (drv_refresh env w1) as [[u|e] w2].
    + destruct (run_tasks_counters persona (task2 :: rest) (S i) a1 w2
                  (((out ++ [ExecutingTask i (task_name task)]) ++ new1)
                     ++ [Refreshing])%list) as (new2 & Hout2 & _).
      cbv zeta in Hout2. rewrite Hout2.
      exists (new1 ++ [Refreshing] ++ new2)%list.
      now rewrite <- !app_assoc.
    + exists (new1 ++ [Refreshing])%list. simpl. now rewrite <- !app_assoc.
Qed.

Lemma run_tasks_cons (persona : CustomPersona) (i : nat) (task task2 : LLMTask)
    (rest : list LLMTask) (a : TiraAutomation) (w : W) (out : list Line) :
  run_tasks env persona i (task :: task2 :: rest) a w out
  = (let '(a', w', out') :=
       _execute_task env task persona a w
         (out ++ [ExecutingTask i (task_name task)])%list in
     match drv_refresh env w' with
     | (Ok _, w'') =>
       run_tasks env persona (S i) (task2 :: rest) a' w'' (out' ++ [Refreshing])%list
     | (Raise e, w'') => Crashed e a' w'' (out' ++ [Refreshing])%list
     end).
Proof. reflexivity. Qed.

Lemma run_tasks_crash (persona : CustomPersona) (tasks : list LLMTask) :
  forall i a w out e a' w' out',
    run_tasks env persona i tasks a w out = Crashed e a' w' out' ->
    exists w0, drv_refresh env w0 = (Raise e, w').
Proof.
  induction tasks as [|task rest IH]; intros i a w out e a' w' out' H.
  - discriminate.
  - cbn [run_tasks] in H.
    destruct (_execute_task env task persona a w _) as [[a1 w1] out1].
    destruct rest as [|task2 rest]; [discriminate|].
    destruct (drv_refresh env w1) as [[u|e1] w2] eqn:Href.
    + now apply IH in H.
    + injection H as <- <- <- <-. now exists w1.
Qed.

(** Without an interest and without a goal the search term cannot be
    chosen: the exception of [random.choice] reaches the loop. *)
Lemma dispatch_escapes (persona : CustomPersona) (a : TiraAutomation) (w : W) :
  (interests persona ++ shopping_goals persona)%list = [] ->
  dispatch env persona "search_products" a w
  = Escaped "Cannot choose from an empty sequence" w.
Proof.
  intros Hnil. unfold dispatch. cbn [String.eqb Ascii.eqb Bool.eqb].
  unfold _get_intelligent_search_term, prefixed, random_choice. rewrite Hnil.
  destruct (decision_style persona =? "price_focused")%string; [reflexivity|].
  destruct (type persona); try reflexivity;
    destruct (PyStr.contains _ _); reflexivity.
Qed.

(** The loop runs through the function names before a complete-session, as
    long as no search is asked of a persona that has nothing to search for. *)
Lemma run_functions_through (persona : CustomPersona) (pre more : list string) :
  (interests persona ++ shopping_goals persona)%list <> []
  \/ ~ In "search_products" pre ->
  ~ In "complete_session" pre ->
  forall a w out,
    run_functions env persona (pre ++ more) a w out
    = (let '(a1, w1, out1) := run_functions env persona pre a w out in
       run_functions env persona more a1 w1 out1)
    /\ announced (snd (run_functions env persona pre a w out))
       = (announced out ++ pre)%list.
Proof.
  induction pre as [|f pre IH]; intros Hne Hnot a w out.
  - simpl. now rewrite app_nil_r.
  - assert (Hf : f <> "complete_session") by (intros ->; apply Hnot; now left).
    assert (Hpre : ~ In "complete_session" pre)
      by (intros H; apply Hnot; now right).
    assert (Hne' : (interests persona ++ shopping_goals persona)%list <> []
                   \/ ~ In "search_products" pre).
    { destruct Hne as [H|H]; [now left|]. right. intros Hin. apply H. now right. }
    simpl. pose proof (dispatch_cases persona f a w) as Hd.
    destruct (dispatch env persona f a w) as [r a1 w1|a1 w1| |e w1].
    + destruct (IH Hne' Hpre a1 w1 ((out ++ [Executing f]) ++ report f r)%list)
        as (Hrun & Hann).
      split; [exact Hrun|]. rewrite Hann.
      rewrite !announced_app, announced_report, app_nil_r. simpl.
      now rewrite <- app_assoc.
    + now destruct Hd as (-> & _).
    + destruct (IH Hne' Hpre a w (out ++ [Executing f])%list) as (Hrun & Hann).
      split; [exact Hrun|]. rewrite Hann, announced_app. simpl.
      now rewrite <- app_assoc.
    + destruct Hd as (-> & Hnil & _). destruct Hne as [H|H]; [easy|].
      exfalso. apply H. now left.
Qed.

(** Nothing after the first complete-session of a list matters. *)
Lemma run_functions_cut (persona : CustomPersona) (pre post : list string) :
  forall a w out,
    run_functions env persona (pre ++ "complete_session" :: post) a w out
    = run_functions env persona (pre ++ ["complete_session"]) a w out.
Proof.
  induction pre as [|f pre IH]; intros a w out.
  - reflexivity.
  - simpl. destruct (dispatch env persona f a w) as [r a1 w1|a1 w1| |e w1];
      try reflexivity; apply IH.
Qed.

(** C5, amended: a recognized operation other than complete-session
    either hands a result back to the loop or, for a search by a persona
    with no interest and no goal, raises an exception that reaches the
    loop (no other operation lets one escape).  In the first case the loop
    reports a failure, if any, and continues with the next operation of
    the same Task; a failed operation never counts as a success and never
    changes the cart count, and it counts as exactly one attempt unless it
    returned before the statistics (every extract, a quick-add stopped by
    its index check or budget gate, a removal for which the page shows no
    remove button), in which case the counters are unchanged: a quick-add
    or a removal that fails on the page is counted as a failed attempt.  In
    the second case the loop reports the exception and breaks out of the
    Task: the remaining operations of that Task are not run and state and
    counters are unchanged.  Neither case aborts the session; the task
    loop of the session is only left early through a page refresh that
    raises between two Tasks. *)
Theorem failure_containment_amended (persona : CustomPersona) :
  (forall f rest a w out,
      recognized f = true ->
      f <> "complete_session" ->
      match dispatch env persona f a w with
      | Returned r a' w' =>
        run_functions env persona (f :: rest) a w out
        = run_functions env persona rest a' w'
            (out ++ [Executing f] ++ report f r)%list
        /\ (succeeded r = true -> report f r = [])
        /\ (succeeded r = false ->
            report f r = [FunctionFailed f (error_of r)]
            /\ success (stats a') = success (stats a)
            /\ cart_items (stats a') = cart_items (stats a)
            /\ actions (stats a')
               = (if uncounted env persona f a w then actions (stats a)
                  else actions (stats a) + 1))
      | Escaped e w' =>
        f = "search_products"
        /\ (interests persona ++ shopping_goals persona)%list = []
        /\ e = "Cannot choose from an empty sequence"
        /\ w' = w
        /\ run_functions env persona (f :: rest) a w out
           = (a, w, (out ++ [Executing f; TaskExecutionFailed e])%list)
      | Completed _ _ => False
      | Unknown => False
      end)
  /\ (forall a w,
         (interests persona ++ shopping_goals persona)%list = [] ->
         dispatch env persona "search_products" a w
         = Escaped "Cannot choose from an empty sequence" w)
  /\ (forall f a w e w',
         dispatch env persona f a w = Escaped e w' ->
         f = "search_products"
         /\ (interests persona ++ shopping_goals persona)%list = [])
  /\ (forall f a w,
         uncounted env persona f a w = true <->
         f = "extract_products"
         \/ f = "complete_session"
         \/ (f = "hover_add_to_cart" /\ hover_is_gated persona 0 a = true)
         \/ (f = "remove_from_cart" /\ nothing_to_remove env w = true))
  /\ (forall tasks i a w out e a' w' out',
         run_tasks env persona i tasks a w out = Crashed e a' w' out' ->
         exists w0, drv_refresh env w0 = (Raise e, w')).
Proof.
  split.
  { intros f rest a w out Hrec Hf.
    pose proof (dispatch_cases persona f a w) as Hd.
    pose proof (dispatch_counts_exactly persona f a w) as He.
    destruct (dispatch env persona f a w) as [r a1 w1|a1 w1| |e w1] eqn:Hdisp.
    - split.
      { simpl. rewrite Hdisp. now rewrite <- app_assoc. }
      split.
      { intros Hok. unfold report. now rewrite Hok. }
      intros Hfail. destruct Hd as (_ & _ & Hcount & Hcart & _).
      unfold report, counted in *. rewrite Hfail in *.
      split; [reflexivity|]. split; [lia|]. split; [now apply Hcart|].
      destruct (uncounted env persona f a w); [now rewrite He | lia].
    - now destruct Hd as (-> & _).
    - congruence.
    - destruct Hd as (-> & Hnil & ->).
      rewrite (dispatch_escapes persona a w Hnil) in Hdisp.
      injection Hdisp as <-.
      repeat split; auto.
      simpl. rewrite (dispatch_escapes persona a w Hnil).
      now rewrite <- app_assoc. }
  split; [intros a w Hnil; now apply dispatch_escapes|].
  split.
  { intros f a w e w' Hdisp.
    pose proof (dispatch_cases persona f a w) as Hd. rewrite Hdisp in Hd.
    now destruct Hd as (-> & Hnil & _). }
  split; [intros f a w; apply uncounted_spec|].
  intros tasks. apply run_tasks_crash.
Qed.

(** C7, amended: executing complete-session terminates its Task
    immediately: whatever follows the first complete-session of the
    operation list is not executed.  When the operations [pre] before it
    run through (no complete-session among them, and no search asked of a
    persona with neither interest nor goal), state, browser and log are
    those after [pre] plus the one announcement.  The engine then
    refreshes the page, and this refresh is not guarded: when it goes
    through, the next Task is started (the log goes on with the refresh
    and the header of the next Task, and the session continues as a run
    of the remaining Tasks); when it raises, the exception leaves the
    session and no further Task is started. *)
Theorem complete_session_ends_task (persona : CustomPersona)
    (pre post : list string) (a : TiraAutomation) (w : W) (out : list Line) :
  run_functions env persona (pre ++ "complete_session" :: post) a w out
  = run_functions env persona (pre ++ ["complete_session"]) a w out
  /\ ((interests persona ++ shopping_goals persona)%list <> []
      \/ ~ In "search_products" pre ->
      ~ In "complete_session" pre ->
      let '(a1, w1, out1) := run_functions env persona pre a w out in
      run_functions env persona (pre ++ "complete_session" :: post) a w out
      = (a1, w1, (out1 ++ [Executing "complete_session"])%list)
      /\ announced (out1 ++ [Executing "complete_session"])
         = (announced out ++ pre ++ ["complete_session"])%list
      /\ (forall task i out0,
             expected_functions task = (pre ++ "complete_session" :: post)%list ->
             out = (out0 ++ [ExecutingTask i (task_name task)])%list ->
             run_tasks env persona i [task] a w out0
             = Finished a1 w1 (out1 ++ [Executing "complete_session"])%list
             /\ forall task2 rest,
                 match drv_refresh env w1 with
                 | (Ok _, w2) =>
                   run_tasks env persona i (task :: task2 :: rest) a w out0
                   = run_tasks env persona (S i) (task2 :: rest) a1 w2
                       (out1 ++ [Executing "complete_session"; Refreshing])%list
                   /\ exists more,
                       final_out
                         (run_tasks env persona i (task :: task2 :: rest) a w out0)
                       = (out1
                            ++ [Executing "complete_session"; Refreshing;
                                ExecutingTask (S i) (task_name task2)]
                            ++ more)%list
                 | (Raise e, w2) =>
                   run_tasks env persona i (task :: task2 :: rest) a w out0
                   = Crashed e a1 w2
                       (out1 ++ [Executing "complete_session"; Refreshing])%list
                 end)).
Proof.
  split; [apply run_functions_cut|].
  intros Hne Hnot.
  destruct (run_functions_through persona pre ("complete_session" :: post)
              Hne Hnot a w out) as (Hrun & Hann).
  destruct (run_functions env persona pre a w out) as [[a1 w1] out1].
  simpl in Hann.
  assert (Hall :
            run_functions env persona (pre ++ "complete_session" :: post) a w out
            = (a1, w1, (out1 ++ [Executing "complete_session"])%list)).
  { rewrite Hrun. reflexivity. }
  split; [exact Hall|]. split.
  { rewrite announced_app, Hann. simpl. now rewrite <- app_assoc. }
  intros task i out0 Hops Hout. split.
  { cbn [run_tasks]. unfold _execute_task. now rewrite Hops, <- Hout, Hall. }
  intros task2 rest.
  destruct (drv_refresh env w1) as [[u|e] w2] eqn:Href.
  - assert (Hnext :
              run_tasks env persona i (task :: task2 :: rest) a w out0
              = run_tasks env persona (S i) (task2 :: rest) a1 w2
                  (out1 ++ [Executing "complete_session"; Refreshing])%list).
    { rewrite run_tasks_cons. unfold _execute_task.
      rewrite Hops, <- Hout, Hall, Href. now rewrite <- app_assoc. }
    split; [exact Hnext|]. rewrite Hnext.
    destruct (run_tasks_out_head persona (S i) task2 rest a1 w2
                (out1 ++ [Executing "complete_session"; Refreshing])%list)
      as (more & Hmore).
    exists more. rewrite Hmore. now rewrite <- app_assoc.
  - rewrite run_tasks_cons. unfold _execute_task.
    rewrite Hops, <- Hout, Hall, Href. now rewrite <- app_assoc.
Qed.

(** ** The end-to-end scenario *)

(** C4, amended: for a persona with decision style quick-impulsive,
    budget range (500, 5000), interests ["lipstick"] and no budget keyword
    among its traits, rule-based generation yields exactly one Task, named
    "Quick Product Discovery", with operations search, extract, quick-add.
    Executing it against a page that answers every call and shows one
    product priced 1200 dispatches three operations and ends with a cart
    count of 1, 2 successes and 2 attempts: the extract is not counted. *)
Theorem quick_discovery_scenario_amended (persona : CustomPersona)
    (card : Card) (name_text price_text : string) (w : W) :
  decision_style persona = "quick_impulsive" ->
  budget_range persona = (500, 5000) ->
  interests persona = ["lipstick"] ->
  PyStr.contains "budget" (trait_text_of (personality_traits persona)) = false ->
  displayed card = true ->
  card_name card = Some name_text ->
  card_price card = Some price_text ->
  parse_price price_text = 1200 ->
  (forall term w0, exists u w1, drv_search env term w0 = (Ok u, w1)) ->
  (forall w0, exists w1, drv_cards env w0 = (Ok [card], w1)) ->
  (forall c w0, exists w1, drv_hover env c w0 = (Ok true, w1)) ->
  (forall w0, exists u w1, drv_click_add env w0 = (Ok u, w1)) ->
  exists task,
    _rule_generate_tasks persona = Ok [task]
    /\ task_name task = "Quick Product Discovery"
    /\ expected_functions task
       = ["search_products"; "extract_products"; "hover_add_to_cart"]
    /\ exists a' w' out',
        run_tasks env persona 1 [task] init_automation w [] = Finished a' w' out'
        /\ cart_items (stats a') = 1
        /\ success (stats a') = 2
        /\ actions (stats a') = 2
        /\ dispatched out' = 3%nat
        /\ map price (current_products a') = [1200].
Proof.
  intros Hstyle Hbudget Hint Htraits Hshown Hname Hprice Hparse
         Hsearch Hcards Hhover Hclick.
  unfold _rule_generate_tasks. unfold trait_text_of in Htraits.
  rewrite Hint, Hstyle, Htraits. simpl.
  eexists. split; [reflexivity|]. split; [reflexivity|]. split; [reflexivity|].
  unfold _execute_task. cbn [expected_functions run_functions].
  unfold dispatch. cbn [String.eqb Ascii.eqb Bool.eqb].
  pose proof (search_term_chosen persona w) as Hterm.
  destruct (_get_intelligent_search_term env persona w) as [[term|e] w0].
  2:{ destruct Hterm as (Hnil & _). rewrite Hint in Hnil. discriminate. }
  unfold search_products.
  destruct (Hsearch term w0) as (u1 & w1 & ->).
  unfold extract_products.
  destruct (Hcards w1) as (w2 & ->).
  cbn [filter firstn parse_cards]. rewrite Hshown.
  cbn [filter firstn parse_cards]. rewrite Hname, Hprice, Hparse.
  unfold commentary_raises. rewrite Hstyle.
  cbn [String.eqb Ascii.eqb Bool.eqb andb].
  unfold hover_add_to_cart.
  cbn [current_products update_stats with_stats stats List.length py_index
       Z.of_nat Z.geb Z.compare Z.leb nth_error Z.to_nat price].
  cbn. rewrite Hbudget. cbn.
  destruct (Hhover card w2) as (w3 & ->).
  destruct (Hclick w3) as (u2 & w4 & ->).
  cbn. do 3 eexists. split; [reflexivity|].
  cbn. repeat split; reflexivity.
Qed.

End EngineProperties.

(** ** Concrete runs *)



Lemma budget_gate_witness :
  py_index (current_products (after_extract [lipstick_6000])) 0
  = nth_error (current_products (after_extract [lipstick_6000])) 0
  /\ hover_add_to_cart (shop [lipstick_6000]) impulsive_persona 0
       (after_extract [lipstick_6000]) 0%nat
     = (Failed "Over budget", after_extract [lipstick_6000], 0%nat).
Proof.
  split; [reflexivity|].
  apply (proj1 (budget_gate (shop [lipstick_6000]) impulsive_persona 0
                  {| p_name := parse_name "Gold Lipstick";
                     price := 6000;
                     element := lipstick_6000;
                     index := 0 |}
                  (after_extract [lipstick_6000]) 0%nat eq_refl)).
  reflexivity.
Defined.

(** C8, as stated, fails: in the initial state the cart count is 0, yet
    with a remove button on the page the removal succeeds, is counted as a
    successful attempt and does not answer "No items to remove". *)
Lemma remove_from_empty_cart_counterexample :
  cart_items (stats init_automation) = 0
  /\ remove_from_cart (shop []) impulsive_persona init_automation 1%nat
     = (Succeeded,
        {| current_products := [];
           stats := {| actions := 1; success := 1; cart_items := 0 |} |},
        0%nat).
Proof.
  split; reflexivity.
Qed.

Lemma remove_from_cart_clamped_witness :
  remove_from_cart (shop []) impulsive_persona init_automation 0%nat
  = (Failed "No items to remove", init_automation, 0%nat)
  /\ cart_items (stats init_automation) = 0.
Proof.
  pose proof (remove_from_cart_clamped (shop []) impulsive_persona
                init_automation 0%nat) as H.
  destruct (remove_from_cart (shop []) impulsive_persona init_automation 0%nat)
    as [[r a'] w'].
  destruct H as (H & _).
  destruct (H 0%nat eq_refl) as (-> & -> & ->).
  split; reflexivity.
Defined.

(** C10, as stated, fails below minus the length: with one visible
    product the index -2 selects nothing, the selection raises and the
    operation fails as a counted attempt. *)
Lemma negative_index_counterexample :
  current_products (after_extract [lipstick_1200]) <> []
  /\ py_index (current_products (after_extract [lipstick_1200])) (-2) = None
  /\ hover_add_to_cart (shop [lipstick_1200]) impulsive_persona (-2)
       (after_extract [lipstick_1200]) 0%nat
     = (Failed "list index out of range",
        update_stats false (after_extract [lipstick_1200]), 0%nat).
Proof.
  split; [discriminate|]. split; reflexivity.
Qed.

Lemma negative_index_amended_witness :
  hover_add_to_cart (shop [lipstick_1200]) impulsive_persona (-1)
    (after_extract [lipstick_1200]) 0%nat
  = hover_add_to_cart (shop [lipstick_1200]) impulsive_persona 0
      (after_extract [lipstick_1200]) 0%nat.
Proof.
  assert (Hne : current_products (after_extract [lipstick_1200]) <> [])
    by discriminate.
  assert (Hneg : -1 < 0) by lia.
  destruct (negative_index_amended (shop [lipstick_1200]) impulsive_persona (-1)
              (after_extract [lipstick_1200]) 0%nat Hne Hneg)
    as (_ & Hin & _).
  destruct Hin as (product & _ & _ & Heq); [simpl; lia|].
  exact Heq.
Defined.

(** C5, as stated, fails twice.  On the counters: the over-budget
    quick-add of the scenario fails and is reported, yet neither counter
    moves, so the session ends with as many successes as attempts.  On the
    loop: for a persona with neither interest nor goal the search raises,
    the exception is reported and the loop breaks, so the view-cart that
    follows in the same Task is never run. *)
Lemma failure_not_counted_counterexample :
  dispatch (shop [lipstick_6000]) impulsive_persona "hover_add_to_cart"
    (after_extract [lipstick_6000]) 0%nat
  = Returned (Failed "Over budget") (after_extract [lipstick_6000]) 0%nat
  /\ (let s := run_interactive_session (shop [lipstick_6000]) false rule_engine
                 impulsive_persona 0%nat in
      final_out s
      = [ExecutingTask 1 "Quick Product Discovery";
         Executing "search_products"; Executing "extract_products";
         Executing "hover_add_to_cart";
         FunctionFailed "hover_add_to_cart" "Over budget"]
      /\ final_stats s = {| actions := 1; success := 1; cart_items := 0 |})
  /\ run_functions (shop []) aimless_persona ["search_products"; "view_cart"]
       init_automation 0%nat []
     = (init_automation, 0%nat,
        [Executing "search_products";
         TaskExecutionFailed "Cannot choose from an empty sequence"]).
Proof.
  split; [reflexivity|]. split; [split; reflexivity | reflexivity].
Qed.

Lemma failure_containment_amended_witness :
  run_functions (shop []) impulsive_persona ["remove_from_cart"; "view_cart"]
    init_automation 0%nat []
  = run_functions (shop []) impulsive_persona ["view_cart"] init_automation 0%nat
      [Executing "remove_from_cart";
       FunctionFailed "remove_from_cart" "No items to remove"]
  /\ run_functions (shop []) aimless_persona ["search_products"; "view_cart"]
       init_automation 0%nat []
     = (init_automation, 0%nat,
        [Executing "search_products";
         TaskExecutionFailed "Cannot choose from an empty sequence"]).
Proof.
  assert (Hrec1 : recognized "remove_from_cart" = true) by reflexivity.
  assert (Hrec2 : recognized "search_products" = true) by reflexivity.
  assert (Hf1 : "remove_from_cart" <> "complete_session") by discriminate.
  assert (Hf2 : "search_products" <> "complete_session") by discriminate.
  split.
  - pose proof (proj1 (failure_containment_amended (shop []) impulsive_persona)
                  "remove_from_cart" ["view_cart"] init_automation 0%nat []
                  Hrec1 Hf1) as H.
    cbv beta iota delta [dispatch] in H. simpl in H. exact (proj1 H).
  - pose proof (proj1 (failure_containment_amended (shop []) aimless_persona)
                  "search_products" ["view_cart"] init_automation 0%nat []
                  Hrec2 Hf2) as H.
    simpl in H. destruct H as (_ & _ & _ & _ & H). exact H.
Defined.

(** C7, as stated, fails on the next Task: when the page refresh that
    follows the Task raises, the exception leaves the session and the
    second Task is never started.  The operation after complete-session is
    not run either way. *)
Lemma next_task_not_reached_counterexample :
  run_tasks stuck_shop impulsive_persona 1 [finishing_task; following_task]
    init_automation 0%nat []
  = Crashed "page crashed" (update_stats true init_automation) 0%nat
      [ExecutingTask 1 "Finish early"; Executing "view_cart";
       Executing "complete_session"; Refreshing].
Proof.
  reflexivity.
Qed.

Lemma complete_session_ends_task_witness :
  run_functions (shop []) impulsive_persona
    (["view_cart"] ++ "complete_session" :: ["remove_from_cart"; "view_cart"])
    init_automation 0%nat []
  = (update_stats true init_automation, 0%nat,
     [Executing "view_cart"; Executing "complete_session"]).
Proof.
  assert (Hne : (interests impulsive_persona ++ shopping_goals impulsive_persona)%list
                <> []
                \/ ~ In "search_products" ["view_cart"])
    by (left; discriminate).
  assert (Hnot : ~ In "complete_session" ["view_cart"]).
  { simpl. intros [H|[]]. discriminate. }
  pose proof (proj2 (complete_session_ends_task (shop []) impulsive_persona
                       ["view_cart"] ["remove_from_cart"; "view_cart"]
                       init_automation 0%nat []) Hne Hnot) as H.
  simpl in H. exact (proj1 H).
Defined.

(** C4, as stated, fails on the successes: the scenario ends with one
    item in the cart and two successes, not three. *)
Lemma quick_discovery_counterexample :
  exists task,
    _rule_generate_tasks impulsive_persona = Ok [task]
    /\ task_name task = "Quick Product Discovery"
    /\ expected_functions task
       = ["search_products"; "extract_products"; "hover_add_to_cart"]
    /\ exists a' w' out',
        run_tasks (shop [lipstick_1200]) impulsive_persona 1 [task]
          init_automation 0%nat []
        = Finished a' w' out'
        /\ map price (current_products a') = [1200]
        /\ cart_items (stats a') = 1
        /\ success (stats a') = 2
        /\ ~ success (stats a') = 3.
Proof.
  eexists. split; [reflexivity|]. split; [reflexivity|]. split; [reflexivity|].
  do 3 eexists. split; [reflexivity|].
  repeat split; try reflexivity. vm_compute. discriminate.
Qed.

Lemma quick_discovery_scenario_amended_witness :
  exists task,
    _rule_generate_tasks impulsive_persona = Ok [task]
    /\ task_name task = "Quick Product Discovery"
    /\ expected_functions task
       = ["search_products"; "extract_products"; "hover_add_to_cart"]
    /\ exists a' w' out',
        run_tasks (shop [lipstick_1200]) impulsive_persona 1 [task]
          init_automation 0%nat []
        = Finished a' w' out'
        /\ cart_items (stats a') = 1
        /\ success (stats a') = 2
        /\ actions (stats a') = 2
        /\ dispatched out' = 3%nat
        /\ map price (current_products a') = [1200].
Proof.
  apply (quick_discovery_scenario_amended (shop [lipstick_1200]) impulsive_persona
           lipstick_1200 "Matte Lipstick" (rupee ++ "1,200") 0%nat);
    try reflexivity.
  - intros term w0. exists tt, w0. reflexivity.
  - intros w0. exists w0. reflexivity.
  - intros c w0. exists w0. reflexivity.
  - intros w0. exists tt, (S w0). reflexivity.
Defined.

(** * Further properties *)

(** ** Keywords and the joined trait text *)

Lemma lower_app (a b : string) :
  PyStr.lower (a ++ b) = PyStr.lower a ++ PyStr.lower b.
Proof.
  induction a as [|c a IH]; simpl; [reflexivity | now rewrite IH].
Qed.

Lemma prefix_app_space (word a b : string) :
  has_char " " word = false ->
  prefix word (a ++ String " " b) = prefix word a.
Proof.
  revert word. induction a as [|x a IH]; intros word Hfree.
  - destruct word as [|c word]; [reflexivity|].
    simpl in *. apply orb_false_elim in Hfree as (Hc & _).
    destruct (ascii_dec c " ") as [->|Hne].
    + now rewrite Ascii.eqb_refl in Hc.
    + reflexivity.
  - destruct word as [|c word]; [reflexivity|].
    simpl in *. apply orb_false_elim in Hfree as (_ & Hrest).
    destruct (ascii_dec c x); [now apply IH | reflexivity].
Qed.

Lemma contains_app_space (word a b : string) :
  word <> EmptyString ->
  has_char " " word = false ->
  PyStr.contains word (a ++ String " " b)
  = PyStr.contains word a || PyStr.contains word b.
Proof.
  intros Hne Hfree. induction a as [|x a IH].
  - destruct word as [|c word]; [congruence|].
    cbn [append PyStr.contains].
    assert (Hc : prefix (String c word) (String " " b) = false).
    { simpl in *. apply orb_false_elim in Hfree as (Hc & _).
      destruct (ascii_dec c " ") as [->|]; [|reflexivity].
      now rewrite Ascii.eqb_refl in Hc. }
    rewrite Hc. reflexivity.
  - change (String x a ++ String " " b) with (String x (a ++ String " " b)).
    cbn [PyStr.contains]. rewrite IH.
    change (String x (a ++ String " " b)) with (String x a ++ String " " b).
    rewrite (prefix_app_space word (String x a) b Hfree).
    now rewrite orb_assoc.
Qed.

Lemma contains_joined (word : string) (traits : list string) :
  word <> EmptyString ->
  has_char " " word = false ->
  PyStr.contains word (PyStr.lower (PyStr.join " " traits))
  = existsb (fun t => PyStr.contains word (PyStr.lower t)) traits.
Proof.
  intros Hne Hfree. unfold PyStr.join.
  induction traits as [|t traits IH].
  - destruct word; [congruence | reflexivity].
  - destruct traits as [|t' traits].
    + simpl. now rewrite orb_false_r.
    + change (concat " " (t :: t' :: traits))
        with (t ++ String " " (concat " " (t' :: traits))).
      rewrite lower_app.
      change (PyStr.lower (String " " (concat " " (t' :: traits))))
        with (String " " (PyStr.lower (concat " " (t' :: traits)))).
      rewrite contains_app_space by assumption.
      rewrite IH. reflexivity.
Qed.

Lemma existsb_swap {A B : Type} (f : A -> B -> bool) (la : list A) (lb : list B) :
  existsb (fun a => existsb (fun b => f a b) lb) la
  = existsb (fun b => existsb (fun a => f a b) la) lb.
Proof.
  induction la as [|a la IH]; simpl.
  - induction lb as [|b lb IHb]; simpl; [reflexivity | now rewrite <- IHb].
  - rewrite IH. clear IH.
    induction lb as [|b lb IHb]; simpl; [reflexivity|].
    rewrite <- IHb.
    destruct (f a b), (existsb _ la), (existsb (fun b0 => f a b0) lb),
      (existsb (fun b0 => existsb (fun a0 => f a0 b0) la) lb); reflexivity.
Qed.

Lemma any_in_joined (words traits : list string) :
  Forall (fun word => word <> EmptyString /\ has_char " " word = false) words ->
  PyStr.any_in words (PyStr.lower (PyStr.join " " traits))
  = trait_hits words traits.
Proof.
  intros Hwords. unfold PyStr.any_in, trait_hits.
  etransitivity;
    [|apply (existsb_swap (fun word t => PyStr.contains word (PyStr.lower t)))].
  induction Hwords as [|word words (Hne & Hfree) _ IH]; simpl; [reflexivity|].
  now rewrite IH, contains_joined.
Qed.

Lemma table_words_plain :
  Forall (fun row =>
            Forall (fun word => word <> EmptyString /\ has_char " " word = false)
              (fst row)) priority_table.
Proof.
  repeat constructor; discriminate.
Qed.

Lemma trait_hits_true (words traits : list string) :
  trait_hits words traits = true <->
  exists t, In t traits /\ PyStr.any_in words (PyStr.lower t) = true.
Proof. unfold trait_hits. apply existsb_exists. Qed.

Lemma group_joined (traits : list string) (row : list string * PersonaType) :
  In row priority_table ->
  PyStr.any_in (fst row) (trait_text_of traits) = trait_hits (fst row) traits.
Proof.
  intros Hin. unfold trait_text_of. apply any_in_joined.
  pose proof table_words_plain as Hplain.
  rewrite Forall_forall in Hplain. now apply Hplain.
Qed.

Lemma budget_trait_decides (traits : list string) (d t : string) :
  In t traits ->
  PyStr.any_in ["budget"; "cheap"; "affordable"; "price"] (PyStr.lower t) = true ->
  _determine_persona_type traits d = BUDGET_SHOPPER.
Proof.
  intros Ht Hhit.
  pose proof (group_joined traits _ (or_introl eq_refl)) as Hrow.
  cbn [fst] in Hrow.
  unfold _determine_persona_type. fold (trait_text_of traits). rewrite Hrow.
  assert (Hhits : trait_hits ["budget"; "cheap"; "affordable"; "price"] traits
                  = true) by (apply trait_hits_true; eauto).
  now rewrite Hhits.
Qed.

(** X1: joining the traits with spaces creates no keyword that is not in
    one of them.  A persona is a budget shopper exactly when one single
    trait, lower-cased, holds a budget keyword, and is custom exactly when
    no trait holds a keyword of any group. *)
Theorem classification_by_single_traits (traits : list string) (d : string) :
  (_determine_persona_type traits d = BUDGET_SHOPPER <->
   exists t, In t traits
             /\ PyStr.any_in ["budget"; "cheap"; "affordable"; "price"]
                  (PyStr.lower t) = true)
  /\ (_determine_persona_type traits d = CUSTOM <->
      forall t row,
        In t traits -> In row priority_table ->
        PyStr.any_in (fst row) (PyStr.lower t) = false).
Proof.
  assert (Hrows : forall row, In row priority_table ->
                  PyStr.any_in (fst row) (trait_text_of traits)
                  = trait_hits (fst row) traits)
    by (intros row; apply group_joined).
  pose proof (Hrows _ (or_introl eq_refl)) as H1.
  pose proof (Hrows _ (or_intror (or_introl eq_refl))) as H2.
  pose proof (Hrows _ (or_intror (or_intror (or_introl eq_refl)))) as H3.
  pose proof (Hrows _ (or_intror (or_intror (or_intror (or_introl eq_refl))))) as H4.
  pose proof (Hrows _ (or_intror (or_intror (or_intror (or_intror
                (or_introl eq_refl)))))) as H5.
  pose proof (Hrows _ (or_intror (or_intror (or_intror (or_intror
                (or_intror (or_introl eq_refl))))))) as H6.
  cbn [fst] in H1, H2, H3, H4, H5, H6.
  unfold _determine_persona_type. fold (trait_text_of traits).
  rewrite H1, H2, H3, H4, H5, H6.
  split.
  - rewrite <- trait_hits_true.
    destruct (trait_hits ["budget"; "cheap"; "affordable"; "price"] traits).
    + now split.
    + split; [|discriminate].
      repeat match goal with
             | |- context [if ?b then _ else _] => destruct b
             end; discriminate.
  - split.
    + intros Hcustom t row Ht Hrow.
      assert (Hnone : trait_hits (fst row) traits = false).
      { cbn [priority_table In] in Hrow.
        repeat match goal with
               | H : _ \/ _ |- _ => destruct H as [<-|H]
               | H : False |- _ => destruct H
               end; cbn [fst];
          repeat match type of Hcustom with
                 | context [if ?b then _ else _] =>
                   destruct b eqn:?; try discriminate
                 end; reflexivity. }
      unfold trait_hits in Hnone.
      destruct (PyStr.any_in (fst row) (PyStr.lower t)) eqn:Hhit; [|reflexivity].
      assert (existsb (fun t0 => PyStr.any_in (fst row) (PyStr.lower t0)) traits
              = true) by (apply existsb_exists; eauto).
      congruence.
    + intros Hnone.
      assert (Hrow : forall row, In row priority_table ->
                     trait_hits (fst row) traits = false).
      { intros row Hin. unfold trait_hits.
        destruct (existsb _ traits) eqn:Hex; [|reflexivity].
        apply existsb_exists in Hex as (t & Ht & Hhit).
        rewrite (Hnone t row Ht Hin) in Hhit. discriminate. }
      pose proof (Hrow _ (or_introl eq_refl)) as R1.
      pose proof (Hrow _ (or_intror (or_introl eq_refl))) as R2.
      pose proof (Hrow _ (or_intror (or_intror (or_introl eq_refl)))) as R3.
      pose proof (Hrow _ (or_intror (or_intror (or_intror (or_introl eq_refl)))))
        as R4.
      pose proof (Hrow _ (or_intror (or_intror (or_intror (or_intror
                    (or_introl eq_refl)))))) as R5.
      pose proof (Hrow _ (or_intror (or_intror (or_intror (or_intror
                    (or_intror (or_introl eq_refl))))))) as R6.
      cbn [fst] in R1, R2, R3, R4, R5, R6.
      now rewrite R1, R2, R3, R4, R5, R6.
Qed.

(** X2: for a persona with an interest, the rule table emits the
    "Budget-Conscious Shopping" task exactly when one single trait,
    lower-cased, contains "budget"; every such persona classifies as a
    budget shopper from the same traits. *)
Theorem budget_task_needs_budget_trait (persona : CustomPersona) :
  interests persona <> [] ->
  exists tasks,
    _rule_generate_tasks persona = Ok tasks
    /\ (In "Budget-Conscious Shopping" (map task_name tasks) <->
        exists t, In t (personality_traits persona)
                  /\ PyStr.contains "budget" (PyStr.lower t) = true)
    /\ (In "Budget-Conscious Shopping" (map task_name tasks) ->
        forall d,
          _determine_persona_type (personality_traits persona) d = BUDGET_SHOPPER).
Proof.
  intros Hne.
  assert (Hjoin :
            PyStr.contains "budget"
              (PyStr.lower (PyStr.join " " (personality_traits persona)))
            = existsb (fun t => PyStr.contains "budget" (PyStr.lower t))
                (personality_traits persona)).
  { apply contains_joined; [discriminate | reflexivity]. }
  assert (Hclass :
            existsb (fun t => PyStr.contains "budget" (PyStr.lower t))
              (personality_traits persona) = true ->
            forall d,
              _determine_persona_type (personality_traits persona) d
              = BUDGET_SHOPPER).
  { intros Hex d. apply existsb_exists in Hex as (t & Ht & Hhit).
    apply (budget_trait_decides (personality_traits persona) d t Ht).
    unfold PyStr.any_in. simpl. now rewrite Hhit. }
  unfold _rule_generate_tasks.
  destruct (interests persona) as [|interest0 more]; [congruence|].
  rewrite Hjoin.
  destruct (decision_style persona =? "quick_impulsive")%string;
    destruct (existsb _ (personality_traits persona)) eqn:Hex;
    (eexists; split; [reflexivity|]); simpl; split.
  all: try (intros; now apply Hclass).
  all: try (split; [intros _; now apply existsb_exists in Hex | auto]).
  all: try (intros [H|[]]; discriminate).
  all: split; [intros [H|[]]; discriminate|].
  all: intros Hsome; apply existsb_exists in Hsome; congruence.
Qed.

(** ** White space around a text *)

Lemma append_assoc (a b c : string) : (a ++ b) ++ c = a ++ (b ++ c).
Proof. induction a as [|x a IH]; simpl; [reflexivity | now rewrite IH]. Qed.

Lemma append_nil_r (a : string) : a ++ EmptyString = a.
Proof. induction a as [|x a IH]; simpl; [reflexivity | now rewrite IH]. Qed.

Lemma rev_string_app (acc s : string) :
  PyStr.rev_string acc s = PyStr.rev_string EmptyString s ++ acc.
Proof.
  revert acc. induction s as [|c s IH]; intros acc; simpl; [reflexivity|].
  rewrite IH, (IH (String c EmptyString)).
  now rewrite append_assoc.
Qed.

Lemma rev_string_snoc (s : string) (c : ascii) :
  PyStr.rev_string EmptyString (s ++ String c EmptyString)
  = String c (PyStr.rev_string EmptyString s).
Proof.
  induction s as [|x s IH]; simpl; [reflexivity|].
  rewrite rev_string_app, IH, (rev_string_app (String x EmptyString)).
  reflexivity.
Qed.

Lemma all_space_app (a b : string) :
  all_space (a ++ b) = all_space a && all_space b.
Proof.
  induction a as [|c a IH]; simpl; [reflexivity|].
  now rewrite IH, andb_assoc.
Qed.

Lemma all_space_rev (s : string) :
  all_space (PyStr.rev_string EmptyString s) = all_space s.
Proof.
  induction s as [|c s IH]; simpl; [reflexivity|].
  rewrite rev_string_app, all_space_app, IH. simpl.
  now rewrite andb_true_r, andb_comm.
Qed.

Lemma lstrip_all_space (s : string) :
  all_space s = true -> PyStr.lstrip s = EmptyString.
Proof.
  induction s as [|c s IH]; simpl; [reflexivity|].
  intros H. apply andb_prop in H as (Hc & Hs). rewrite Hc. now apply IH.
Qed.

Lemma lstrip_app (a b : string) :
  PyStr.lstrip (a ++ b)
  = if all_space a then PyStr.lstrip b else PyStr.lstrip a ++ b.
Proof.
  induction a as [|c a IH]; simpl; [reflexivity|].
  destruct (PyStr.is_space c); simpl; [exact IH | reflexivity].
Qed.

(** [rstrip] read from the front of the text. *)
Lemma rstrip_cons (c : ascii) (t : string) :
  PyStr.rstrip (String c t)
  = if all_space (String c t) then EmptyString else String c (PyStr.rstrip t).
Proof.
  unfold PyStr.rstrip. cbn [PyStr.rev_string].
  rewrite (rev_string_app (String c EmptyString)), lstrip_app, all_space_rev.
  destruct (all_space t) eqn:Ht.
  - rewrite (lstrip_all_space (PyStr.rev_string EmptyString t))
      by now rewrite all_space_rev.
    simpl. rewrite Ht, andb_true_r.
    destruct (PyStr.is_space c); reflexivity.
  - simpl. rewrite Ht, andb_false_r. now rewrite rev_string_snoc.
Qed.

Lemma rstrip_empty : PyStr.rstrip EmptyString = EmptyString.
Proof. reflexivity. Qed.

(** An induction scheme for functions that look two characters ahead. *)
Lemma string_length_ind (P : string -> Prop) :
  (forall s, (forall t, (String.length t < String.length s)%nat -> P t) -> P s) ->
  forall s, P s.
Proof.
  intros Hstep s.
  assert (H : forall n t, (String.length t < n)%nat -> P t).
  { induction n as [|n IH]; intros t Hlt; [lia|].
    apply Hstep. intros u Hu. apply IH. lia. }
  apply (H (S (String.length s))). lia.
Qed.

Lemma space_not_digit (c : ascii) :
  PyStr.is_space c = true -> PyStr.is_digit c = false.
Proof.
  unfold PyStr.is_space, PyStr.is_digit.
  destruct (nat_of_ascii c) as [|n] eqn:Hn; [reflexivity|].
  intros H.
  destruct ((48 <=? S n)%nat && (S n <=? 57)%nat) eqn:Hd; [|reflexivity].
  apply andb_prop in Hd as (H1 & H2).
  apply Nat.leb_le in H1, H2.
  apply orb_prop in H as [H|H]; apply andb_prop in H as (H3 & H4);
    apply Nat.leb_le in H3, H4; lia.
Qed.

Lemma space_not_comma (c : ascii) :
  PyStr.is_space c = true -> (c =? ",")%char = false.
Proof.
  intros H. destruct (c =? ",")%char eqn:Hc; [|reflexivity].
  apply Ascii.eqb_eq in Hc. subst c. discriminate.
Qed.

Lemma scan_number_all_space (acc : Z) (s : string) :
  all_space s = true -> scan_number acc s = acc.
Proof.
  destruct s as [|c t]; [reflexivity|]. simpl.
  intros H. apply andb_prop in H as (Hc & _).
  now rewrite (space_not_digit c Hc), (space_not_comma c Hc).
Qed.

Lemma scan_number_rstrip (s : string) :
  forall acc, scan_number acc (PyStr.rstrip s) = scan_number acc s.
Proof.
  induction s as [s IH] using string_length_ind. intros acc.
  destruct s as [|c t]; [reflexivity|].
  rewrite rstrip_cons.
  destruct (all_space (String c t)) eqn:Hall.
  { now rewrite (scan_number_all_space acc (String c t) Hall). }
  cbn [scan_number].
  destruct (PyStr.is_digit c); [apply IH; simpl; lia|].
  destruct (c =? ",")%char; [|reflexivity].
  destruct t as [|d t']; [reflexivity|].
  rewrite rstrip_cons.
  destruct (all_space (String d t')) eqn:Hall2.
  - simpl in Hall2. apply andb_prop in Hall2 as (Hd & _).
    now rewrite (space_not_digit d Hd).
  - destruct (PyStr.is_digit d); [apply IH; simpl; lia | reflexivity].
Qed.

Lemma match_amount_all_space (s : string) :
  all_space s = true -> match_amount s = None.
Proof.
  induction s as [|c t IH]; simpl; [reflexivity|].
  intros H. apply andb_prop in H as (Hc & Ht). rewrite Hc. now apply IH.
Qed.

Lemma match_amount_rstrip (s : string) :
  match_amount (PyStr.rstrip s) = match_amount s.
Proof.
  induction s as [|c t IH]; [reflexivity|].
  rewrite rstrip_cons.
  destruct (all_space (String c t)) eqn:Hall.
  { now rewrite (match_amount_all_space (String c t) Hall). }
  cbn [match_amount].
  destruct (PyStr.is_space c); [exact IH|].
  destruct (PyStr.is_digit c); [|reflexivity].
  now rewrite scan_number_rstrip.
Qed.

(** ** The price pattern *)

Lemma substring_full (u : string) : substring 0 (String.length u) u = u.
Proof. induction u as [|c u IH]; simpl; [reflexivity | now rewrite IH]. Qed.

Lemma after_sign_rupee (u : string) : after_sign (rupee ++ u) = u.
Proof.
  unfold after_sign, rupee. cbn [append String.length].
  replace (S (S (S (String.length u))) - 3)%nat with (String.length u) by lia.
  cbn [substring]. apply substring_full.
Qed.

Lemma prefix_app (word u : string) : prefix word (word ++ u) = true.
Proof.
  induction word as [|a word IH]; cbn [append prefix]; [now destruct u|].
  destruct (ascii_dec a a); [exact IH | congruence].
Qed.

Lemma prefix_split (word : string) :
  forall text, prefix word text = true -> exists u, text = word ++ u.
Proof.
  induction word as [|a word IH]; intros text H; [now exists text|].
  destruct text as [|b t]; cbn [prefix] in H; [discriminate|].
  destruct (ascii_dec a b) as [<-|]; [|discriminate].
  destruct (IH t H) as (u & ->). now exists u.
Qed.

Lemma prefix_rupee_app (u : string) : prefix rupee (rupee ++ u) = true.
Proof. apply prefix_app. Qed.

Lemma prefix_rupee_split (text : string) :
  prefix rupee text = true -> exists u, text = rupee ++ u.
Proof. apply prefix_split. Qed.

Lemma search_price_unfold (text : string) :
  search_price text
  = match first_try text with
    | Some v => Some v
    | None =>
      match text with
      | String _ t => search_price t
      | EmptyString => None
      end
    end.
Proof. destruct text; reflexivity. Qed.

Lemma space_not_sign (c : ascii) (t : string) :
  PyStr.is_space c = true -> first_try (String c t) = None.
Proof.
  intros Hc. unfold first_try, rupee. cbn [prefix].
  destruct (ascii_dec (ascii_of_nat 226) c) as [<-|]; [discriminate | reflexivity].
Qed.

Lemma search_price_skip_space (ws text : string) :
  all_space ws = true -> search_price (ws ++ text) = search_price text.
Proof.
  induction ws as [|c ws IH]; intros Hall; [reflexivity|].
  simpl in Hall. apply andb_prop in Hall as (Hc & Hws).
  change (String c ws ++ text) with (String c (ws ++ text)).
  rewrite search_price_unfold, (space_not_sign c _ Hc). now apply IH.
Qed.

Lemma search_price_all_space (s : string) :
  all_space s = true -> search_price s = None.
Proof.
  intros H. rewrite <- (append_nil_r s).
  now rewrite search_price_skip_space.
Qed.

Lemma lstrip_split (s : string) :
  exists ws, all_space ws = true /\ s = ws ++ PyStr.lstrip s.
Proof.
  induction s as [|c s (ws & Hws & IH)]; [now exists EmptyString|].
  simpl. destruct (PyStr.is_space c) eqn:Hc.
  - exists (String c ws). simpl. rewrite Hc, Hws. split; [reflexivity|].
    now rewrite <- IH.
  - now exists EmptyString.
Qed.

Lemma rstrip_split (s : string) :
  exists ws, all_space ws = true /\ s = PyStr.rstrip s ++ ws.
Proof.
  induction s as [|c s (ws & Hws & IH)]; [now exists EmptyString|].
  rewrite rstrip_cons. destruct (all_space (String c s)) eqn:Hall.
  - now exists (String c s).
  - exists ws. split; [assumption|]. simpl. now rewrite <- IH.
Qed.

Lemma rstrip_rupee (u : string) :
  PyStr.rstrip (rupee ++ u) = rupee ++ PyStr.rstrip u.
Proof.
  unfold rupee. cbn [append]. now rewrite !rstrip_cons.
Qed.

Lemma first_try_rstrip (s : string) :
  first_try (PyStr.rstrip s) = first_try s.
Proof.
  unfold first_try.
  destruct (prefix rupee s) eqn:Hs.
  - apply prefix_rupee_split in Hs as (u & ->).
    rewrite rstrip_rupee, prefix_rupee_app, !after_sign_rupee.
    apply match_amount_rstrip.
  - destruct (prefix rupee (PyStr.rstrip s)) eqn:Hr; [|reflexivity].
    apply prefix_rupee_split in Hr as (v & Hv).
    destruct (rstrip_split s) as (ws & _ & Hsplit).
    rewrite Hv, append_assoc in Hsplit.
    rewrite Hsplit, prefix_rupee_app in Hs. discriminate.
Qed.

Lemma search_price_rstrip (s : string) :
  search_price (PyStr.rstrip s) = search_price s.
Proof.
  induction s as [|c t IH]; [reflexivity|].
  rewrite (search_price_unfold (String c t)), <- first_try_rstrip.
  rewrite rstrip_cons.
  destruct (all_space (String c t)) eqn:Hall.
  - simpl in Hall. apply andb_prop in Hall as (_ & Ht).
    now rewrite (search_price_all_space t Ht).
  - rewrite (search_price_unfold (String c (PyStr.rstrip t))). now rewrite IH.
Qed.

(** The white space that [strip] removes plays no part in the search. *)
Lemma search_price_strip (s : string) :
  search_price (PyStr.strip s) = search_price s.
Proof.
  unfold PyStr.strip. rewrite search_price_rstrip.
  destruct (lstrip_split s) as (ws & Hws & Hs).
  rewrite Hs at 2. now rewrite search_price_skip_space.
Qed.

Lemma digit_val_nonneg (c : ascii) :
  PyStr.is_digit c = true -> 0 <= PyStr.digit_val c <= 9.
Proof.
  unfold PyStr.is_digit, PyStr.digit_val. intros H.
  apply andb_prop in H as (H1 & H2). apply Nat.leb_le in H1, H2. lia.
Qed.

Lemma scan_number_nonneg (s : string) :
  forall acc, 0 <= acc -> acc <= scan_number acc s.
Proof.
  induction s as [s IH] using string_length_ind. intros acc Hacc.
  destruct s as [|c t]; [simpl; lia|]. cbn [scan_number].
  destruct (PyStr.is_digit c) eqn:Hc.
  { pose proof (digit_val_nonneg c Hc).
    etransitivity; [|apply IH; [simpl; lia | lia]]. lia. }
  destruct (c =? ",")%char; [|lia].
  destruct t as [|d t']; [lia|].
  destruct (PyStr.is_digit d) eqn:Hd; [|lia].
  pose proof (digit_val_nonneg d Hd).
  etransitivity; [|apply IH; [simpl; lia | lia]]. lia.
Qed.

Lemma match_amount_nonneg (s : string) (v : Z) :
  match_amount s = Some v -> 0 <= v.
Proof.
  induction s as [|c t IH]; simpl; [discriminate|].
  destruct (PyStr.is_space c); [exact IH|].
  destruct (PyStr.is_digit c) eqn:Hc; [|discriminate].
  intros [= <-]. pose proof (digit_val_nonneg c Hc).
  etransitivity; [|apply scan_number_nonneg]; lia.
Qed.

Lemma search_price_nonneg (s : string) (v : Z) :
  search_price s = Some v -> 0 <= v.
Proof.
  induction s as [|c t IH]; rewrite search_price_unfold; unfold first_try.
  - destruct (prefix rupee EmptyString); [|discriminate].
    destruct (match_amount _) eqn:Hm; [|discriminate].
    intros [= <-]. now apply match_amount_nonneg in Hm.
  - destruct (prefix rupee (String c t)).
    + destruct (match_amount _) eqn:Hm; [|exact IH].
      intros [= <-]. now apply match_amount_nonneg in Hm.
    + exact IH.
Qed.

(** X3: whatever the text of the price element, the parsed price is a
    non-negative integer. *)
Theorem parse_price_nonneg (price_text : string) : 0 <= parse_price price_text.
Proof.
  unfold parse_price, get_default.
  destruct (search_price (PyStr.strip price_text)) as [v|] eqn:Hs; [|lia].
  now apply search_price_nonneg in Hs.
Qed.

Lemma contains_prefix (word text : string) :
  PyStr.contains word text = false -> prefix word text = false.
Proof.
  destruct text; simpl; intros H; now apply orb_false_elim in H.
Qed.

Lemma search_price_no_sign (text : string) :
  PyStr.contains rupee text = false -> search_price text = None.
Proof.
  induction text as [|c t IH]; intros H; rewrite search_price_unfold;
    unfold first_try; rewrite (contains_prefix _ _ H); [reflexivity|].
  apply IH. simpl in H. now apply orb_false_elim in H.
Qed.

(** X4: a price text without the rupee sign gives the price 0, whatever
    digits it holds. *)
Theorem parse_price_without_sign (price_text : string) :
  PyStr.contains rupee price_text = false -> parse_price price_text = 0.
Proof.
  intros H. unfold parse_price.
  now rewrite search_price_strip, (search_price_no_sign _ H).
Qed.

Lemma digit_char_spec (d : nat) :
  (d < 10)%nat ->
  PyStr.is_digit (digit_char d) = true
  /\ PyStr.digit_val (digit_char d) = Z.of_nat d.
Proof.
  intros Hd.
  do 10 (destruct d as [|d]; [split; reflexivity|]). lia.
Qed.

Lemma scan_number_digits (ds : list nat) (more : string) :
  Forall (fun d => (d < 10)%nat) ds ->
  forall acc,
    scan_number acc (digits_text ds ++ more)
    = scan_number (digits_value acc ds) more.
Proof.
  induction 1 as [|d ds Hd _ IH]; intros acc; [reflexivity|].
  destruct (digit_char_spec d Hd) as (Hdigit & Hval).
  cbn [digits_text append scan_number digits_value].
  now rewrite Hdigit, Hval, IH.
Qed.

Lemma digits_value_app (ds1 ds2 : list nat) (acc : Z) :
  digits_value acc (ds1 ++ ds2) = digits_value (digits_value acc ds1) ds2.
Proof.
  revert acc. induction ds1 as [|d ds1 IH]; intros acc; simpl;
    [reflexivity | apply IH].
Qed.

Lemma scan_number_stops (acc : Z) (rest : string) :
  stops rest = true -> scan_number acc rest = acc.
Proof.
  destruct rest as [|c t]; [reflexivity|]. simpl. intros H.
  apply andb_prop in H as (H1 & H2).
  apply negb_true_iff in H1, H2. now rewrite H1, H2.
Qed.

Lemma groups_text_cons (g : list nat) (groups : list (list nat)) (rest : string) :
  groups_text (g :: groups) ++ rest = digits_text g ++ continuation groups rest.
Proof.
  destruct groups as [|g' groups]; [reflexivity|].
  cbn [groups_text continuation]. now rewrite !append_assoc.
Qed.

Lemma scan_number_groups (groups : list (list nat)) (rest : string) :
  Forall digit_group groups ->
  stops rest = true ->
  forall acc,
    scan_number acc (continuation groups rest)
    = digits_value acc (List.concat groups).
Proof.
  intros Hgroups Hstop.
  induction Hgroups as [|g groups (Hne & Hdigits) _ IH]; intros acc.
  - simpl. now apply scan_number_stops.
  - cbn [continuation]. rewrite groups_text_cons.
    destruct g as [|d ds]; [congruence|].
    inversion Hdigits as [|? ? Hd Hds]; subst.
    destruct (digit_char_spec d Hd) as (Hdigit & Hval).
    cbn [append digits_text scan_number]. rewrite Hdigit. simpl.
    rewrite Hval, scan_number_digits by assumption.
    rewrite IH. cbn [List.concat app digits_value]. now rewrite digits_value_app.
Qed.

Lemma match_amount_skip_space (ws text : string) :
  all_space ws = true -> match_amount (ws ++ text) = match_amount text.
Proof.
  induction ws as [|c ws IH]; intros Hall; [reflexivity|].
  simpl in Hall. apply andb_prop in Hall as (Hc & Hws).
  simpl. rewrite Hc. now apply IH.
Qed.

Lemma space_not_digit_conv (c : ascii) :
  PyStr.is_digit c = true -> PyStr.is_space c = false.
Proof.
  intros Hd. destruct (PyStr.is_space c) eqn:Hs; [|reflexivity].
  rewrite (space_not_digit c Hs) in Hd. discriminate.
Qed.

(** X5: a price written as the rupee sign, optional white space and one
    or more digit groups separated by commas is read as the number that
    the digits spell with the commas dropped, whatever white space
    surrounds it and whatever follows the amount, as long as what follows
    does not start with a digit or a comma.  The amount is taken to stay
    within the 4300 digits that the interpreter converts. *)
Theorem parse_price_groups (ws1 ws2 rest : string) (g : list nat)
    (groups : list (list nat)) :
  all_space ws1 = true ->
  all_space ws2 = true ->
  Forall digit_group (g :: groups) ->
  (List.length (List.concat (g :: groups)) <= 4300)%nat ->
  stops rest = true ->
  parse_price (ws1 ++ rupee ++ ws2 ++ groups_text (g :: groups) ++ rest)
  = digits_value 0 (List.concat (g :: groups)).
Proof.
  intros Hws1 Hws2 Hgroups _ Hstop. unfold parse_price.
  rewrite search_price_strip, search_price_skip_space by assumption.
  rewrite search_price_unfold. unfold first_try.
  rewrite prefix_rupee_app, after_sign_rupee.
  rewrite match_amount_skip_space by assumption.
  rewrite groups_text_cons.
  inversion Hgroups as [|? ? (Hne & Hdigits) Hrest]; subst.
  destruct g as [|d ds]; [congruence|].
  inversion Hdigits as [|? ? Hd Hds]; subst.
  destruct (digit_char_spec d Hd) as (Hdigit & Hval).
  cbn [digits_text append match_amount].
  rewrite (space_not_digit_conv _ Hdigit), Hdigit, Hval.
  rewrite scan_number_digits by assumption.
  rewrite (scan_number_groups groups rest Hrest Hstop).
  cbn [List.concat app digits_value get_default].
  now rewrite digits_value_app.
Qed.

(** ** Extraction *)

Lemma parse_cards_spec (cards : list Card) :
  forall i,
    (List.length (parse_cards i cards) <= List.length cards)%nat
    /\ Forall (fun p => (i <= index p < i + List.length cards)%nat
                        /\ In (element p) cards
                        /\ card_name (element p) <> None
                        /\ card_price (element p) <> None
                        /\ 0 <= price p)
         (parse_cards i cards)
    /\ StronglySorted lt (map index (parse_cards i cards)).
Proof.
  induction cards as [|card cards IH]; intros i.
  - simpl. repeat split; [lia | constructor | constructor].
  - destruct (IH (S i)) as (Hlen & Hall & Hsorted).
    assert (Hall' :
              Forall (fun p => (i <= index p < i + List.length (card :: cards))%nat
                               /\ In (element p) (card :: cards)
                               /\ card_name (element p) <> None
                               /\ card_price (element p) <> None
                               /\ 0 <= price p)
                (parse_cards (S i) cards)).
    { eapply Forall_impl; [|exact Hall].
      intros p (Hi & Hin & Hn & Hp & Hprice). simpl.
      repeat split; auto; lia. }
    cbn [parse_cards].
    destruct (card_name card) as [name_text|] eqn:Hname;
      [destruct (card_price card) as [price_text|] eqn:Hprice|].
    + split; [simpl; lia|]. split.
      * constructor; [|exact Hall'].
        simpl. rewrite Hname, Hprice.
        repeat split; try lia; try discriminate; auto.
        unfold parse_price, get_default.
        destruct (search_price (PyStr.strip price_text)) as [v|] eqn:Hs; [|lia].
        now apply search_price_nonneg in Hs.
      * simpl. constructor; [exact Hsorted|].
        rewrite Forall_map. eapply Forall_impl; [|exact Hall].
        intros p (Hi & _). simpl. lia.
    + split; [simpl; lia|]. now split.
    + split; [simpl; lia|]. now split.
Qed.

Lemma firstn_subset {A : Type} (n : nat) (l : list A) (x : A) :
  In x (firstn n l) -> In x l.
Proof.
  revert l. induction n as [|n IH]; intros l H; [destruct H|].
  destruct l as [|y l]; [destruct H|].
  destruct H as [->|H]; [now left | right; now apply IH].
Qed.

Lemma firstn_filter_subset {A : Type} (f : A -> bool) (n : nat) (l : list A) (x : A) :
  In x (firstn n (filter f l)) -> In x l /\ f x = true.
Proof.
  intros H. apply firstn_subset in H. now apply filter_In in H.
Qed.

Section MoreEngineProperties.

Context {W : Type} (env : Env W).

Ltac step_page :=
  match goal with
  | |- context [match ?f env ?x ?w with _ => _ end] =>
    let o := fresh "o" in let w' := fresh "w" in
    destruct (f env x w) as [o w'] eqn:?; destruct o
  | |- context [match ?f env ?w with _ => _ end] =>
    let o := fresh "o" in let w' := fresh "w" in
    destruct (f env w) as [o w'] eqn:?; destruct o
  | |- context [match ?n with O => _ | S _ => _ end] => is_var n; destruct n
  | |- context [if ?b then _ else _] =>
    lazymatch b with
    | true => fail
    | false => fail
    | _ => destruct b eqn:?
    end
  end; simpl.

(** X6: when the page answers with its cards, none of them with a price
    text longer than 4300 characters, an extract stores at most 6 products,
    whatever products were stored before.  Each stored product comes from
    a displayed card of the page that has both a name and a price element,
    carries a non-negative price and an index below 6, and the indices
    grow strictly along the list.  The statistics are left alone.  The
    extract succeeds and reports the number of products stored, unless
    products were found for a price-focused persona whose budget maximum
    is too large for a float (2^1024 - 2^970 or more in absolute value):
    then the commentary raises and the extract fails, with the products
    already stored. *)
Theorem extract_products_bounded (persona : CustomPersona)
    (a : TiraAutomation) (w w1 : W) (cards : list Card) :
  drv_cards env w = (Ok cards, w1) ->
  Forall (fun card =>
            forall price_text,
              card_price card = Some price_text ->
              (String.length price_text <= 4300)%nat) cards ->
  exists products,
    extract_products env persona a w
    = (if commentary_raises persona products then ExtractFailed
       else Extracted products (List.length products),
       {| current_products := products; stats := stats a |}, w1)
    /\ (commentary_raises persona products = true <->
        products <> []
        /\ decision_style persona = "price_focused"
        /\ 2 ^ 1024 - 2 ^ 970 <= Z.abs (snd (budget_range persona)))
    /\ (List.length products <= 6)%nat
    /\ (List.length products <= List.length (filter displayed cards))%nat
    /\ Forall (fun p => (index p < 6)%nat
                        /\ In (element p) cards
                        /\ displayed (element p) = true
                        /\ card_name (element p) <> None
                        /\ card_price (element p) <> None
                        /\ 0 <= price p) products
    /\ StronglySorted lt (map index products).
Proof.
  intros Hcards _. unfold extract_products. rewrite Hcards.
  set (visible := firstn 6 (filter displayed cards)).
  destruct (parse_cards_spec visible 0) as (Hlen & Hall & Hsorted).
  assert (Hvis : (List.length visible <= 6)%nat)
    by (unfold visible; rewrite length_firstn; lia).
  assert (Hvis' : (List.length visible <= List.length (filter displayed cards))%nat)
    by (unfold visible; rewrite length_firstn; lia).
  exists (parse_cards 0 visible). split.
  { cbv zeta. now destruct (commentary_raises persona (parse_cards 0 visible)). }
  split.
  { unfold commentary_raises, float_overflows.
    destruct (parse_cards 0 visible) as [|p ps].
    - split; [discriminate | now intros (H & _)].
    - rewrite andb_true_iff, String.eqb_eq, Z.leb_le.
      split; [intros (H1 & H2); now repeat split | now intros (_ & H1 & H2)]. }
  split; [lia|]. split; [lia|]. split; [|exact Hsorted].
  eapply Forall_impl; [|exact Hall].
  intros p (Hi & Hin & Hn & Hp & Hprice).
  apply firstn_filter_subset in Hin as (Hin & Hshown).
  repeat split; auto. lia.
Qed.

(** X7: extraction is idempotent on an unchanged page.  When the page
    shows the same cards to two extracts in a row, both return the same
    result and the second leaves the automation state as the first set
    it. *)
Theorem extract_products_idempotent (persona : CustomPersona)
    (a : TiraAutomation) (w w1 w2 : W) (cards : list Card) :
  drv_cards env w = (Ok cards, w1) ->
  drv_cards env w1 = (Ok cards, w2) ->
  let '(r1, a1, w1') := extract_products env persona a w in
  extract_products env persona a1 w1' = (r1, a1, w2).
Proof.
  intros H1 H2. unfold extract_products. rewrite H1. cbv zeta.
  destruct (commentary_raises persona _) eqn:Hraises;
    cbn [current_products stats]; rewrite H2; cbv zeta; now rewrite Hraises.
Qed.

(** X8: when reading the cards raises, the extract fails without an
    error text and changes nothing.  The loop reports it as "Unknown
    error" and goes on, and a quick-add that follows works on the products
    of the last successful extract. *)
Theorem failed_extract_keeps_products (persona : CustomPersona)
    (a : TiraAutomation) (w w1 : W) (e : string) (rest : list string)
    (out : list Line) :
  drv_cards env w = (Raise e, w1) ->
  extract_products env persona a w = (ExtractFailed, a, w1)
  /\ run_functions env persona ("extract_products" :: rest) a w out
     = run_functions env persona rest a w1
         (out ++ [Executing "extract_products";
                  FunctionFailed "extract_products" "Unknown error"])%list
  /\ run_functions env persona ["extract_products"; "hover_add_to_cart"] a w out
     = (let '(r, a', w') := hover_add_to_cart env persona 0 a w1 in
        (a', w',
         (out ++ [Executing "extract_products";
                  FunctionFailed "extract_products" "Unknown error";
                  Executing "hover_add_to_cart"] ++ report "hover_add_to_cart" r)%list)).
Proof.
  intros Hcards.
  assert (Hex : extract_products env persona a w = (ExtractFailed, a, w1)).
  { unfold extract_products. now rewrite Hcards. }
  assert (Hstep :
            forall more,
              run_functions env persona ("extract_products" :: more) a w out
              = run_functions env persona more a w1
                  (out ++ [Executing "extract_products";
                           FunctionFailed "extract_products" "Unknown error"])%list).
  { intros more. cbn [run_functions]. unfold dispatch.
    cbn [String.eqb Ascii.eqb Bool.eqb]. rewrite Hex.
    cbn [report succeeded error_of]. now rewrite <- app_assoc. }
  split; [exact Hex|]. split; [apply Hstep|].
  rewrite Hstep. cbn [run_functions]. unfold dispatch.
  cbn [String.eqb Ascii.eqb Bool.eqb].
  destruct (hover_add_to_cart env persona 0 a w1) as [[r a'] w'].
  now rewrite <- !app_assoc.
Qed.

(** ** Quick-add *)

(** X9: a quick-add that succeeds has targeted a stored product whose
    price does not exceed the upper bound of the budget, has found an add
    button and clicked it, and has raised the cart count, the attempts and
    the successes by one each.  No product above the budget is ever
    added. *)
Theorem hover_success_within_budget (persona : CustomPersona) (i : Z)
    (a : TiraAutomation) (w : W) :
  let '(r, a', w') := hover_add_to_cart env persona i a w in
  succeeded r = true ->
  exists product w1 u,
    py_index (current_products a) i = Some product
    /\ price product <= snd (budget_range persona)
    /\ drv_hover env (element product) w = (Ok true, w1)
    /\ drv_click_add env w1 = (Ok u, w')
    /\ current_products a' = current_products a
    /\ stats a'
       = {| actions := actions (stats a) + 1;
            success := success (stats a) + 1;
            cart_items := cart_items (stats a) + 1 |}.
Proof.
  unfold hover_add_to_cart.
  destruct (current_products a) as [|p ps] eqn:Hps; [discriminate|].
  destruct (i >=? _); [discriminate|].
  destruct (py_index (p :: ps) i) as [product|] eqn:Hsel; [|discriminate].
  pose proof (Zgt_cases (price product) (snd (budget_range persona))) as Hgt.
  destruct (price product >? snd (budget_range persona)); [discriminate|].
  destruct (drv_hover env (element product) w) as [[[|]|e] w1] eqn:Hhover;
    try discriminate.
  destruct (drv_click_add env w1) as [[u|e] w2] eqn:Hclick; [|discriminate].
  intros _. exists product, w1, u.
  repeat split; auto; lia.
Qed.

(** X10: with no stored product, or with an index at or beyond their
    number, a quick-add fails with "Invalid product index" before it
    touches the browser, the statistics or the stored products. *)
Theorem hover_invalid_index (persona : CustomPersona) (i : Z)
    (a : TiraAutomation) (w : W) :
  current_products a = [] \/ Z.of_nat (List.length (current_products a)) <= i ->
  hover_add_to_cart env persona i a w = (Failed "Invalid product index", a, w).
Proof.
  intros H. unfold hover_add_to_cart.
  destruct (current_products a) as [|p ps]; [reflexivity|].
  destruct H as [H|H]; [discriminate|].
  pose proof (Zge_cases i (Z.of_nat (List.length (p :: ps)))) as Hge.
  destruct (i >=? Z.of_nat (List.length (p :: ps))); [reflexivity | lia].
Qed.

(** ** What each operation may change *)

Lemma hover_frame (persona : CustomPersona) (i : Z)
    (a : TiraAutomation) (w : W) :
  let '(r, a', _) := hover_add_to_cart env persona i a w in
  current_products a' = current_products a
  /\ ((cart_items (stats a') = cart_items (stats a)
       /\ success (stats a') = success (stats a))
      \/ (cart_items (stats a') = cart_items (stats a) + 1
          /\ success (stats a') = success (stats a) + 1))
  /\ success (stats a) <= success (stats a').
Proof.
  unfold hover_add_to_cart.
  destruct (current_products a) as [|p ps] eqn:Hps;
    [rewrite Hps; repeat split; auto; lia|].
  destruct (i >=? _); [rewrite Hps; repeat split; auto; lia|].
  destruct (py_index (p :: ps) i) as [product|];
    [|cbn; rewrite Hps; repeat split; auto; lia].
  destruct (price product >? snd (budget_range persona));
    [rewrite Hps; repeat split; auto; lia|].
  destruct (drv_hover env (element product) w) as [[[|]|e] w1];
    [|cbn; rewrite Hps; repeat split; auto; lia
     |cbn; rewrite Hps; repeat split; auto; lia].
  destruct (drv_click_add env w1) as [[u|e] w2];
    cbn; rewrite Hps; repeat split; auto; lia.
Qed.

Lemma dispatch_frame (persona : CustomPersona) (f : string)
    (a : TiraAutomation) (w : W) :
  match dispatch env persona f a w with
  | Returned r a' _ =>
    (f <> "extract_products" -> current_products a' = current_products a)
    /\ ((List.length (current_products a) <= 6)%nat ->
        (List.length (current_products a') <= 6)%nat)
    /\ (f <> "hover_add_to_cart" -> f <> "remove_from_cart" ->
        cart_items (stats a') = cart_items (stats a))
    /\ (f = "hover_add_to_cart" ->
        (cart_items (stats a') = cart_items (stats a)
         /\ success (stats a') = success (stats a))
        \/ (cart_items (stats a') = cart_items (stats a) + 1
            /\ success (stats a') = success (stats a) + 1))
    /\ (f = "remove_from_cart" ->
        cart_items (stats a') = cart_items (stats a)
        \/ cart_items (stats a') = Z.max 0 (cart_items (stats a) - 1))
    /\ success (stats a) <= success (stats a')
  | Completed a' w' => a' = a /\ w' = w
  | Unknown => True
  | Escaped _ w' => w' = w
  end.
Proof.
  unfold dispatch.
  destruct (String.eqb_spec f "search_products") as [->|N1].
  { pose proof (search_term_chosen env persona w) as Hterm.
    destruct (_get_intelligent_search_term env persona w) as [[term|e] w1];
      [|now destruct Hterm].
    unfold search_products. repeat step_page;
      repeat split; intros; try discriminate; try congruence; auto; lia. }
  destruct (String.eqb_spec f "extract_products") as [->|N2].
  { unfold extract_products.
    destruct (drv_cards env w) as [[cards|e] w1] eqn:Hcards;
      cbn [current_products stats].
    - pose proof (parse_cards_spec (firstn 6 (filter displayed cards)) 0)
        as (Hl & _).
      rewrite length_firstn in Hl. cbv zeta.
      destruct (commentary_raises persona _); cbn [current_products stats];
        repeat split; intros; try discriminate; try congruence; auto; try lia.
    - repeat split; intros; try discriminate; try congruence; auto; lia. }
  destruct (String.eqb_spec f "hover_add_to_cart") as [->|N3].
  { pose proof (hover_frame persona 0 a w) as Hf.
    destruct (hover_add_to_cart env persona 0 a w) as [[r a'] w'].
    destruct Hf as (Hprod & Hcart & Hsucc). rewrite Hprod.
    repeat split; intros; try congruence; auto. }
  destruct (String.eqb_spec f "view_cart") as [->|N4].
  { unfold view_cart. repeat step_page;
      repeat split; intros; try discriminate; try congruence; auto; lia. }
  destruct (String.eqb_spec f "remove_from_cart") as [->|N5].
  { unfold remove_from_cart. repeat step_page;
      repeat split; intros; try congruence; auto; lia. }
  destruct (String.eqb_spec f "complete_session") as [->|N6];
    [now split | exact I].
Qed.

(** X11: an operation other than extract never changes the stored
    products, and an operation other than quick-add and remove-from-cart
    never changes the cart count.  A quick-add raises the cart count by one
    together with the successes or leaves both, a removal keeps the count
    or sets it to max(0, count - 1), and no operation lowers the
    successes. *)
Theorem operations_frame (persona : CustomPersona) (f : string)
    (a : TiraAutomation) (w : W) :
  match dispatch env persona f a w with
  | Returned r a' _ =>
    (f <> "extract_products" -> current_products a' = current_products a)
    /\ (f <> "hover_add_to_cart" -> f <> "remove_from_cart" ->
        cart_items (stats a') = cart_items (stats a))
    /\ (f = "hover_add_to_cart" ->
        (cart_items (stats a') = cart_items (stats a)
         /\ success (stats a') = success (stats a))
        \/ (cart_items (stats a') = cart_items (stats a) + 1
            /\ success (stats a') = success (stats a) + 1))
    /\ (f = "remove_from_cart" ->
        cart_items (stats a') = cart_items (stats a)
        \/ cart_items (stats a') = Z.max 0 (cart_items (stats a) - 1))
    /\ success (stats a) <= success (stats a')
  | Completed a' w' => a' = a /\ w' = w
  | Unknown => True
  | Escaped _ w' => w' = w
  end.
Proof.
  pose proof (dispatch_frame persona f a w) as H.
  destruct (dispatch env persona f a w); try exact H.
  destruct H as (H1 & _ & H2 & H3 & H4 & H5). now repeat split.
Qed.

Lemma occurrences_app (f : string) (l1 l2 : list string) :
  occurrences f (l1 ++ l2) = (occurrences f l1 + occurrences f l2)%nat.
Proof. unfold occurrences. now rewrite filter_app, length_app. Qed.

Lemma run_functions_sound (persona : CustomPersona) (functions : list string) :
  forall a w out,
    sound a ->
    let '(a', _, out') := run_functions env persona functions a w out in
    exists new,
      out' = (out ++ new)%list
      /\ sound a'
      /\ cart_items (stats a') - cart_items (stats a)
         <= success (stats a') - success (stats a)
      /\ cart_items (stats a') - cart_items (stats a)
         <= Z.of_nat (occurrences "hover_add_to_cart" (announced new))
      /\ headers new = [] /\ refreshes new = O.
Proof.
  induction functions as [|f rest IH]; intros a w out Hsound; simpl.
  - exists []. rewrite app_nil_r. repeat split; try apply Hsound; simpl; lia.
  - pose proof (dispatch_frame persona f a w) as Hd.
    destruct (dispatch env persona f a w) as [r a1 w1|a1 w1| |e w1].
    + destruct Hd as (_ & Hprod & Hother & Hhover & Hremove & Hsucc).
      destruct Hsound as (Hcart & Hlen).
      assert (Hstep :
                sound a1
                /\ cart_items (stats a1) - cart_items (stats a)
                   <= success (stats a1) - success (stats a)
                /\ cart_items (stats a1) - cart_items (stats a)
                   <= Z.of_nat (occurrences "hover_add_to_cart" [f])).
      { unfold sound, occurrences. cbn [filter].
        destruct (String.eqb_spec "hover_add_to_cart" f) as [<-|Nh].
        - destruct (Hhover eq_refl) as [(Hc & Hs)|(Hc & Hs)];
            simpl; repeat split; auto; lia.
        - destruct (String.eqb_spec f "remove_from_cart") as [->|Nr].
          + destruct (Hremove eq_refl) as [Hc|Hc];
              simpl; repeat split; auto; lia.
          + rewrite Hother by congruence.
            simpl; repeat split; auto; lia. }
      destruct Hstep as (Hsound1 & Hs1 & Ho1).
      specialize (IH a1 w1 ((out ++ [Executing f]) ++ report f r)%list Hsound1).
      destruct (run_functions env persona rest a1 w1 _) as [[a2 w2] out2].
      destruct IH as (new & -> & Hsound2 & Hs2 & Ho2 & Hh & Hr).
      exists ([Executing f] ++ report f r ++ new)%list.
      split; [now rewrite <- !app_assoc|].
      split; [exact Hsound2|].
      split; [lia|]. split.
      * rewrite !announced_app, announced_report. cbn [announced app].
        change (f :: announced new) with ([f] ++ announced new)%list.
        rewrite occurrences_app. lia.
      * unfold report. destruct (succeeded r); simpl; now split.
    + destruct Hd as (-> & ->).
      exists [Executing f].
      repeat split; try apply Hsound; simpl; lia.
    + specialize (IH a w (out ++ [Executing f])%list Hsound).
      destruct (run_functions env persona rest a w _) as [[a2 w2] out2].
      destruct IH as (new & -> & Hsound2 & Hs2 & Ho2 & Hh & Hr).
      exists ([Executing f] ++ new)%list.
      split; [now rewrite <- !app_assoc|].
      split; [exact Hsound2|]. split; [lia|]. split.
      * cbn [announced app].
        change (f :: announced new) with ([f] ++ announced new)%list.
        rewrite occurrences_app. lia.
      * simpl. now split.
    + exists [Executing f; TaskExecutionFailed e].
      split; [now rewrite <- app_assoc|].
      repeat split; try apply Hsound; simpl; lia.
Qed.

Lemma headers_app (out1 out2 : list Line) :
  headers (out1 ++ out2) = (headers out1 ++ headers out2)%list.
Proof.
  induction out1 as [|l out1 IH]; simpl; [reflexivity|].
  destruct l; simpl; now rewrite ?IH.
Qed.

Lemma refreshes_app (out1 out2 : list Line) :
  refreshes (out1 ++ out2) = (refreshes out1 + refreshes out2)%nat.
Proof.
  induction out1 as [|l out1 IH]; simpl; [reflexivity|].
  destruct l; simpl; now rewrite ?IH.
Qed.

Lemma run_tasks_sound (persona : CustomPersona) (tasks : list LLMTask) :
  forall i a w out,
    sound a ->
    let s := run_tasks env persona i tasks a w out in
    exists new,
      final_out s = (out ++ new)%list
      /\ sound (final_automation s)
      /\ cart_items (stats (final_automation s)) - cart_items (stats a)
         <= success (stats (final_automation s)) - success (stats a)
      /\ cart_items (stats (final_automation s)) - cart_items (stats a)
         <= Z.of_nat (occurrences "hover_add_to_cart" (announced new))
      /\ (forall a' w' out', s = Finished a' w' out' ->
          headers new = numbered i tasks
          /\ refreshes new = Nat.pred (List.length tasks)).
Proof.
  induction tasks as [|task rest IH]; intros i a w out Hsound.
  - exists []. cbn. rewrite app_nil_r.
    repeat split; try apply Hsound; try lia.
  - cbn [run_tasks]. unfold _execute_task.
    pose proof (run_functions_sound persona (expected_functions task) a w
                  (out ++ [ExecutingTask i (task_name task)])%list Hsound)
      as Hrun.
    destruct (run_functions env persona (expected_functions task) a w _)
      as [[a1 w1] out1].
    destruct Hrun as (new1 & -> & Hsound1 & Hs1 & Ho1 & Hh1 & Hr1).
    destruct rest as [|task2 rest].
    + exists ([ExecutingTask i (task_name task)] ++ new1)%list.
      cbn [final_out final_automation].
      split; [now rewrite <- app_assoc|].
      split; [exact Hsound1|]. split; [lia|]. split.
      * cbn [announced app]. lia.
      * intros _ _ _ _. cbn [headers app numbered List.length Nat.pred refreshes].
        now rewrite Hh1, Hr1.
    + destruct (drv_refresh env w1) as [[u|e] w2].
      * specialize (IH (S i) a1 w2
            (((out ++ [ExecutingTask i (task_name task)]) ++ new1)
               ++ [Refreshing])%list Hsound1).
        cbv zeta in IH.
        set (s := run_tasks env persona (S i) (task2 :: rest) a1 w2 _) in *.
        clearbody s.
        destruct IH as (new2 & Hout & Hsound2 & Hs2 & Ho2 & Hfin).
        exists ([ExecutingTask i (task_name task)] ++ new1
                  ++ [Refreshing] ++ new2)%list.
        split; [rewrite Hout; now rewrite <- !app_assoc|].
        split; [exact Hsound2|]. split; [lia|]. split.
        -- cbn [announced app]. rewrite !announced_app, occurrences_app.
           cbn [announced app]. lia.
        -- intros a' w' out' Hs. destruct (Hfin a' w' out' Hs) as (Hh2 & Hr2).
           cbn [headers app numbered List.length Nat.pred refreshes].
           rewrite headers_app, Hh1, refreshes_app, Hr1.
           cbn [headers app refreshes Nat.add]. rewrite Hh2, Hr2.
           split; reflexivity.
      * exists ([ExecutingTask i (task_name task)] ++ new1 ++ [Refreshing])%list.
        cbn [final_out final_automation].
        split; [now rewrite <- !app_assoc|].
        split; [exact Hsound1|]. split; [lia|]. split.
        -- cbn [announced app]. rewrite announced_app, occurrences_app.
           cbn [announced]. unfold occurrences at 2. simpl. lia.
        -- intros a' w' out' Hs. discriminate.
Qed.

(** X12: in every session the cart count stays between 0 and the number
    of successes, it never exceeds the number of quick-adds announced, and
    at most six products are stored, whatever the tasks, the persona and
    the page do. *)
Theorem session_keeps_cart_sound (persona : CustomPersona)
    (tasks : list LLMTask) (w : W) :
  let s := run_tasks env persona 1 tasks init_automation w [] in
  0 <= cart_items (final_stats s) <= success (final_stats s)
  /\ cart_items (final_stats s)
     <= Z.of_nat (occurrences "hover_add_to_cart" (announced (final_out s)))
  /\ (List.length (current_products (final_automation s)) <= 6)%nat.
Proof.
  assert (Hinit : sound init_automation) by (split; simpl; lia).
  destruct (run_tasks_sound persona tasks 1%nat init_automation w [] Hinit)
    as (new & Hout & (Hcart & Hlen) & Hs & Ho & _).
  cbv zeta.
  set (s := run_tasks env persona 1 tasks init_automation w []) in *.
  assert (Hstats : final_stats s = stats (final_automation s))
    by (destruct s; reflexivity).
  rewrite Hstats, Hout. simpl in *. repeat split; try lia; exact Hlen.
Qed.

(** X13: a session that runs through has started every task, in the
    order of the list and numbered from 1, and has refreshed the page once
    between two tasks, whatever operations failed; it does run through
    when no page refresh raises. *)
Theorem tasks_started_in_order (persona : CustomPersona)
    (tasks : list LLMTask) (w : W) :
  (forall a' w' out',
      run_tasks env persona 1 tasks init_automation w [] = Finished a' w' out' ->
      headers out' = numbered 1 tasks
      /\ refreshes out' = Nat.pred (List.length tasks))
  /\ ((forall w0 e w1, drv_refresh env w0 <> (Raise e, w1)) ->
      exists a' w' out',
        run_tasks env persona 1 tasks init_automation w [] = Finished a' w' out').
Proof.
  split.
  - intros a' w' out' Hfin.
    assert (Hinit : sound init_automation) by (split; simpl; lia).
    destruct (run_tasks_sound persona tasks 1%nat init_automation w [] Hinit)
      as (new & Hout & _ & _ & _ & Hheaders).
    cbv zeta in Hout, Hheaders. rewrite Hfin in Hout. simpl in Hout. subst out'.
    now apply (Hheaders a' w' new).
  - intros Hrefresh.
    destruct (run_tasks env persona 1 tasks init_automation w [])
      as [a' w' out'|e a' w' out'] eqn:Hrun; [now exists a', w', out'|].
    apply run_tasks_crash in Hrun as (w0 & Hraise).
    now destruct (Hrefresh w0 e w').
Qed.

(** ** Names that are not dispatched *)

Lemma dispatch_unknown (persona : CustomPersona) (f : string)
    (a : TiraAutomation) (w : W) :
  recognized f = false -> dispatch env persona f a w = Unknown.
Proof.
  intros Hrec. pose proof (dispatch_cases env persona f a w) as Hd.
  destruct (dispatch env persona f a w) as [r a1 w1|a1 w1| |e w1].
  - destruct Hd as (H & _). congruence.
  - destruct Hd as (-> & _). discriminate.
  - reflexivity.
  - destruct Hd as (-> & _). discriminate.
Qed.

Lemma run_functions_log_free (persona : CustomPersona) (functions : list string) :
  forall a w out1 out2,
    fst (run_functions env persona functions a w out1)
    = fst (run_functions env persona functions a w out2).
Proof.
  induction functions as [|f rest IH]; intros a w out1 out2; simpl;
    [reflexivity|].
  destruct (dispatch env persona f a w) as [r a1 w1|a1 w1| |e w1];
    try reflexivity; apply IH.
Qed.

(** X14: a function name that the loop does not dispatch is announced and
    skipped: a list of such names changes neither the automation state nor
    the browser, and any list of names leaves the state and the browser as
    the list of its dispatched names does. *)
Theorem unrecognized_names_are_skipped (persona : CustomPersona)
    (functions : list string) (a : TiraAutomation) (w : W) (out : list Line) :
  fst (run_functions env persona functions a w out)
  = fst (run_functions env persona (filter recognized functions) a w out)
  /\ (forallb (fun f => negb (recognized f)) functions = true ->
      run_functions env persona functions a w out
      = (a, w, (out ++ map Executing functions)%list)).
Proof.
  split.
  - revert a w out. induction functions as [|f rest IH]; intros a w out;
      [reflexivity|].
    cbn [filter]. destruct (recognized f) eqn:Hrec.
    + cbn [run_functions].
      destruct (dispatch env persona f a w) as [r a1 w1|a1 w1| |e w1];
        try reflexivity; apply IH.
    + cbn [run_functions]. rewrite (dispatch_unknown persona f a w Hrec).
      rewrite IH. apply run_functions_log_free.
  - revert out. induction functions as [|f rest IH]; intros out Hall.
    + simpl. now rewrite app_nil_r.
    + cbn [forallb] in Hall. apply andb_prop in Hall as (Hf & Hrest).
      apply negb_true_iff in Hf.
      cbn [run_functions]. rewrite (dispatch_unknown persona f a w Hf).
      rewrite (IH _ Hrest). cbn [map]. now rewrite <- app_assoc.
Qed.

(** ** The order of a task *)

Lemma escaped_in_app (out1 out2 : list Line) :
  escaped_in (out1 ++ out2) = escaped_in out1 || escaped_in out2.
Proof. unfold escaped_in. apply existsb_app. Qed.

(** X15: the loop of a task announces the function names in the order
    of the list, each position once.  It stops before the end of the list
    only after announcing a complete-session or after an exception has
    reached it. *)
Theorem functions_run_in_order (persona : CustomPersona)
    (functions : list string) (a : TiraAutomation) (w : W) (out : list Line) :
  let '(_, _, out') := run_functions env persona functions a w out in
  exists new k,
    out' = (out ++ new)%list
    /\ announced new = firstn k functions
    /\ (announced new = functions
        \/ (exists pre, announced new = (pre ++ ["complete_session"])%list)
        \/ escaped_in new = true).
Proof.
  revert a w out. induction functions as [|f rest IH]; intros a w out; simpl.
  - exists [], O. rewrite app_nil_r. repeat split. now left.
  - pose proof (dispatch_cases env persona f a w) as Hd.
    destruct (dispatch env persona f a w) as [r a1 w1|a1 w1| |e w1].
    + specialize (IH a1 w1 ((out ++ [Executing f]) ++ report f r)%list).
      destruct (run_functions env persona rest a1 w1 _) as [[a2 w2] out2].
      destruct IH as (new & k & -> & Hann & Hend).
      exists ([Executing f] ++ report f r ++ new)%list, (S k).
      split; [now rewrite <- !app_assoc|].
      assert (Hann' : announced ([Executing f] ++ report f r ++ new)
                      = f :: announced new).
      { cbn [app announced]. now rewrite announced_app, announced_report. }
      rewrite Hann'. split; [simpl; now rewrite Hann|].
      destruct Hend as [Hall|[(pre & Hpre)|Hesc]].
      * left. now rewrite Hall.
      * right. left. exists (f :: pre). now rewrite Hpre.
      * right. right. rewrite !escaped_in_app, Hesc. now rewrite !orb_true_r.
    + destruct Hd as (-> & _).
      exists [Executing "complete_session"], 1%nat.
      split; [reflexivity|]. split; [reflexivity|].
      right. left. now exists [].
    + specialize (IH a w (out ++ [Executing f])%list).
      destruct (run_functions env persona rest a w _) as [[a2 w2] out2].
      destruct IH as (new & k & -> & Hann & Hend).
      exists ([Executing f] ++ new)%list, (S k).
      split; [now rewrite <- !app_assoc|].
      cbn [app announced]. split; [simpl; now rewrite Hann|].
      destruct Hend as [Hall|[(pre & Hpre)|Hesc]].
      * left. now rewrite Hall.
      * right. left. exists (f :: pre). now rewrite Hpre.
      * right. right. exact Hesc.
    + exists [Executing f; TaskExecutionFailed e], 1%nat.
      split; [now rewrite <- app_assoc|]. split; [reflexivity|].
      right. right. reflexivity.
Qed.

(** ** The search term *)

Lemma random_choice_member (seq : list string) (w : W) :
  seq <> [] ->
  exists choice,
    In choice seq /\ random_choice env seq w = (Ok choice, snd (rnd env w)).
Proof.
  intros Hne. unfold random_choice.
  destruct seq as [|x l] eqn:Hseq; [congruence|]. rewrite <- Hseq.
  destruct (rnd env w) as [r w'] eqn:Hr.
  exists (nth (r mod List.length seq) seq EmptyString). split; [|reflexivity].
  apply nth_In. apply Nat.mod_upper_bound. subst seq. discriminate.
Qed.

(** X16: for a persona with an interest or a goal the search term is one
    of its interests and goals, taken by one random choice, and prefixed by "affordable" for the price-focused style, else
    by "premium" for the luxury buyer, else by "trending" when the traits
    hold that word, else left as it is. *)
Theorem search_term_shape (persona : CustomPersona) (w : W) :
  (interests persona ++ shopping_goals persona)%list <> [] ->
  exists choice,
    In choice (interests persona ++ shopping_goals persona)%list
    /\ _get_intelligent_search_term env persona w
       = (Ok (if (decision_style persona =? "price_focused")%string
              then "affordable " ++ choice
              else
                match type persona with
                | LUXURY_BUYER => "premium " ++ choice
                | _ =>
                  if PyStr.contains "trending"
                       (PyStr.lower (PyStr.join " " (personality_traits persona)))
                  then "trending " ++ choice
                  else choice
                end),
          snd (rnd env w)).
Proof.
  intros Hne.
  destruct (random_choice_member _ w Hne) as (choice & Hin & Hchoice).
  exists choice. split; [exact Hin|].
  unfold _get_intelligent_search_term, prefixed. rewrite Hchoice.
  destruct (decision_style persona =? "price_focused")%string; [reflexivity|].
  destruct (type persona); try reflexivity;
    destruct (PyStr.contains _ _); reflexivity.
Qed.

(** X17: for a persona with neither an interest nor a goal, choosing
    the search term raises before the browser is touched.  The loop prints
    the exception and leaves the task: the operations after the search are
    not run, and state, browser and counters stay as they were. *)
Theorem search_without_terms_ends_task (persona : CustomPersona)
    (rest : list string) (a : TiraAutomation) (w : W) (out : list Line) :
  (interests persona ++ shopping_goals persona)%list = [] ->
  run_functions env persona ("search_products" :: rest) a w out
  = (a, w,
     (out ++ [Executing "search_products";
              TaskExecutionFailed "Cannot choose from an empty sequence"])%list).
Proof.
  intros Hnil. cbn [run_functions]. unfold dispatch.
  cbn [String.eqb Ascii.eqb Bool.eqb].
  assert (Hterm : _get_intelligent_search_term env persona w
                  = (Raise "Cannot choose from an empty sequence", w)).
  { unfold _get_intelligent_search_term, prefixed, random_choice.
    rewrite Hnil.
    destruct (decision_style persona =? "price_focused")%string; [reflexivity|].
    destruct (type persona); try reflexivity;
      destruct (PyStr.contains _ _); reflexivity. }
  rewrite Hterm. now rewrite <- app_assoc.
Qed.

(** ** Attempts, counted from both sides *)

Lemma always_counted_app (l1 l2 : list string) :
  always_counted (l1 ++ l2) = (always_counted l1 + always_counted l2)%nat.
Proof. unfold always_counted. rewrite !occurrences_app. lia. Qed.

Lemma may_be_counted_app (l1 l2 : list string) :
  may_be_counted (l1 ++ l2) = (may_be_counted l1 + may_be_counted l2)%nat.
Proof.
  unfold may_be_counted. rewrite always_counted_app, !occurrences_app. lia.
Qed.

Lemma dispatch_attempts (persona : CustomPersona) (f : string)
    (a : TiraAutomation) (w : W) :
  match dispatch env persona f a w with
  | Returned _ a' _ =>
    Z.of_nat (always_counted [f]) <= actions (stats a') - actions (stats a)
    /\ actions (stats a') - actions (stats a) <= Z.of_nat (may_be_counted [f])
  | Completed _ _ => always_counted [f] = O
  | Unknown => always_counted [f] = O
  | Escaped _ _ => True
  end.
Proof.
  pose proof (dispatch_cases env persona f a w) as Hd.
  destruct (dispatch env persona f a w) as [r a1 w1|a1 w1| |e w1].
  - destruct Hd as (Hrec & Hcs & Hcount & _ & Hsv & Hex).
    apply counted_bounds in Hcount.
    unfold may_be_counted, always_counted, occurrences. cbn [filter].
    destruct (String.eqb_spec "search_products" f) as [<-|N1].
    { rewrite Hsv by now left. simpl. lia. }
    destruct (String.eqb_spec "view_cart" f) as [<-|N2].
    { rewrite Hsv by now right. simpl. lia. }
    destruct (String.eqb_spec "hover_add_to_cart" f) as [<-|N3]; [simpl; lia|].
    destruct (String.eqb_spec "remove_from_cart" f) as [<-|N4]; [simpl; lia|].
    assert (Hf : f = "extract_products").
    { unfold recognized in Hrec. cbn [existsb] in Hrec.
      repeat match type of Hrec with
             | context [String.eqb f ?n] =>
               destruct (String.eqb_spec f n); [congruence|]; cbn [orb] in Hrec
             end; try congruence.
      all: try discriminate. }
    rewrite (Hex Hf). simpl. lia.
  - destruct Hd as (-> & _). reflexivity.
  - unfold always_counted, occurrences. cbn [filter].
    destruct (String.eqb_spec "search_products" f) as [<-|N1]; [discriminate|].
    destruct (String.eqb_spec "view_cart" f) as [<-|N2]; [discriminate|].
    reflexivity.
  - exact I.
Qed.

Lemma run_functions_attempts (persona : CustomPersona) (functions : list string) :
  (interests persona ++ shopping_goals persona)%list <> [] ->
  forall a w out,
    let '(a', _, out') := run_functions env persona functions a w out in
    exists new,
      out' = (out ++ new)%list
      /\ Z.of_nat (always_counted (announced new))
         <= actions (stats a') - actions (stats a)
      /\ actions (stats a') - actions (stats a)
         <= Z.of_nat (may_be_counted (announced new)).
Proof.
  intros Hne.
  induction functions as [|f rest IH]; intros a w out; simpl.
  - exists []. rewrite app_nil_r. split; [reflexivity|]. simpl. lia.
  - pose proof (dispatch_attempts persona f a w) as Hd.
    pose proof (dispatch_cases env persona f a w) as Hc.
    destruct (dispatch env persona f a w) as [r a1 w1|a1 w1| |e w1].
    + specialize (IH a1 w1 ((out ++ [Executing f]) ++ report f r)%list).
      destruct (run_functions env persona rest a1 w1 _) as [[a2 w2] out2].
      destruct IH as (new & -> & Hlow & Hup).
      exists ([Executing f] ++ report f r ++ new)%list.
      split; [now rewrite <- !app_assoc|].
      assert (Hann : announced ([Executing f] ++ report f r ++ new)
                     = ([f] ++ announced new)%list).
      { cbn [app announced]. now rewrite announced_app, announced_report. }
      rewrite Hann, always_counted_app, may_be_counted_app. lia.
    + destruct Hc as (_ & -> & _).
      exists [Executing f]. split; [reflexivity|].
      cbn [announced]. unfold may_be_counted. rewrite Hd. lia.
    + specialize (IH a w (out ++ [Executing f])%list).
      destruct (run_functions env persona rest a w _) as [[a2 w2] out2].
      destruct IH as (new & -> & Hlow & Hup).
      exists ([Executing f] ++ new)%list.
      split; [now rewrite <- !app_assoc|].
      cbn [app announced].
      change (f :: announced new) with ([f] ++ announced new)%list.
      rewrite always_counted_app, may_be_counted_app, Hd.
      unfold may_be_counted at 1. rewrite Hd. lia.
    + now destruct Hc as (_ & Hnil & _).
Qed.

Lemma run_tasks_attempts (persona : CustomPersona) (tasks : list LLMTask) :
  (interests persona ++ shopping_goals persona)%list <> [] ->
  forall i a w out,
    let s := run_tasks env persona i tasks a w out in
    exists new,
      final_out s = (out ++ new)%list
      /\ Z.of_nat (always_counted (announced new))
         <= actions (final_stats s) - actions (stats a)
      /\ actions (final_stats s) - actions (stats a)
         <= Z.of_nat (may_be_counted (announced new)).
Proof.
  intros Hne.
  induction tasks as [|task rest IH]; intros i a w out.
  - exists []. cbn. rewrite app_nil_r. split; [reflexivity | lia].
  - cbn [run_tasks]. unfold _execute_task.
    pose proof (run_functions_attempts persona (expected_functions task) Hne a w
                  (out ++ [ExecutingTask i (task_name task)])%list) as Hrun.
    destruct (run_functions env persona (expected_functions task) a w _)
      as [[a1 w1] out1].
    destruct Hrun as (new1 & -> & Hlow1 & Hup1).
    destruct rest as [|task2 rest].
    + exists ([ExecutingTask i (task_name task)] ++ new1)%list.
      cbn [final_out final_stats].
      split; [now rewrite <- app_assoc|]. cbn [app announced]. lia.
    + destruct (drv_refresh env w1) as [[u|e] w2].
      * specialize (IH (S i) a1 w2
            (((out ++ [ExecutingTask i (task_name task)]) ++ new1)
               ++ [Refreshing])%list).
        cbv zeta in IH.
        set (s := run_tasks env persona (S i) (task2 :: rest) a1 w2 _) in *.
        clearbody s.
        destruct IH as (new2 & Hout & Hlow2 & Hup2).
        exists ([ExecutingTask i (task_name task)] ++ new1
                  ++ [Refreshing] ++ new2)%list.
        split; [rewrite Hout; now rewrite <- !app_assoc|].
        cbn [app announced].
        rewrite !announced_app, always_counted_app, may_be_counted_app.
        cbn [app announced]. lia.
      * exists ([ExecutingTask i (task_name task)] ++ new1 ++ [Refreshing])%list.
        cbn [final_out final_stats].
        split; [now rewrite <- !app_assoc|].
        cbn [app announced].
        rewrite !announced_app, always_counted_app, may_be_counted_app.
        cbn [announced].
        change (always_counted []) with 0%nat.
        change (may_be_counted []) with 0%nat. lia.
Qed.

(** X18: for a persona with an interest or a goal, the attempts a
    session records lie between the number of searches and view-carts it
    announced and the number of searches, view-carts, quick-adds and
    removals it announced. *)
Theorem attempts_between (persona : CustomPersona) (tasks : list LLMTask) (w : W) :
  (interests persona ++ shopping_goals persona)%list <> [] ->
  let s := run_tasks env persona 1 tasks init_automation w [] in
  Z.of_nat (always_counted (announced (final_out s))) <= actions (final_stats s)
  /\ actions (final_stats s) <= Z.of_nat (may_be_counted (announced (final_out s))).
Proof.
  intros Hne.
  destruct (run_tasks_attempts persona tasks Hne 1%nat init_automation w [])
    as (new & Hout & Hlow & Hup).
  cbv zeta. rewrite Hout. simpl in *. lia.
Qed.

(** ** Tasks that cannot change the cart *)

Lemma run_functions_cart_kept (persona : CustomPersona) (functions : list string) :
  forallb (fun f => negb (touches_cart f)) functions = true ->
  forall a w out,
    cart_items (stats (fst (fst (run_functions env persona functions a w out))))
    = cart_items (stats a).
Proof.
  induction functions as [|f rest IH]; intros Hall a w out; [reflexivity|].
  cbn [forallb] in Hall. apply andb_prop in Hall as (Hf & Hrest).
  apply negb_true_iff in Hf. unfold touches_cart in Hf.
  apply orb_false_elim in Hf as (Hh & Hr).
  apply String.eqb_neq in Hh, Hr.
  cbn [run_functions].
  pose proof (dispatch_frame persona f a w) as Hd.
  destruct (dispatch env persona f a w) as [r a1 w1|a1 w1| |e w1].
  - destruct Hd as (_ & _ & Hother & _). rewrite IH by assumption.
    now apply Hother.
  - now destruct Hd as (-> & _).
  - now apply IH.
  - reflexivity.
Qed.

Lemma run_tasks_cart_kept (persona : CustomPersona) (tasks : list LLMTask) :
  forallb (fun task =>
             forallb (fun f => negb (touches_cart f)) (expected_functions task))
    tasks = true ->
  forall i a w out,
    cart_items (final_stats (run_tasks env persona i tasks a w out))
    = cart_items (stats a).
Proof.
  induction tasks as [|task rest IH]; intros Hall i a w out; [reflexivity|].
  cbn [forallb] in Hall. apply andb_prop in Hall as (Htask & Hrest).
  cbn [run_tasks]. unfold _execute_task.
  pose proof (run_functions_cart_kept persona (expected_functions task) Htask a w
                (out ++ [ExecutingTask i (task_name task)])%list) as Hrun.
  destruct (run_functions env persona (expected_functions task) a w _)
    as [[a1 w1] out1].
  cbn [fst] in Hrun.
  destruct rest as [|task2 rest]; [exact Hrun|].
  destruct (drv_refresh env w1) as [[u|e] w2]; [|exact Hrun].
  rewrite IH by assumption. exact Hrun.
Qed.

(** X19: the tasks that the rule table gives a persona whose decision
    style is not quick-impulsive never change the cart: the session of
    such a persona on the rule-based path ends with a cart count of 0,
    whatever the page does. *)
Theorem careful_session_never_adds (OPENAI_AVAILABLE : bool)
    (persona : CustomPersona) (w : W) :
  decision_style persona <> "quick_impulsive" ->
  cart_items
    (final_stats
       (run_interactive_session env OPENAI_AVAILABLE rule_engine persona w))
  = 0.
Proof.
  intros Hstyle. apply String.eqb_neq in Hstyle.
  unfold run_interactive_session, generate_shopping_tasks, rule_engine.
  cbn [openai_client]. unfold _rule_generate_tasks.
  destruct (interests persona) as [|interest0 more]; [reflexivity|].
  rewrite Hstyle.
  destruct (drv_setup env w) as [[u|e] w1]; [|reflexivity].
  rewrite run_tasks_cart_kept; [reflexivity|].
  destruct (PyStr.contains "budget" _); reflexivity.
Qed.

End MoreEngineProperties.

(** ** Generation *)

(** X20: a text-generation capability that raises, or answers without
    JSON, gives the tasks of the rule table: the same result as with no
    capability configured. *)
Theorem generation_falls_back (OPENAI_AVAILABLE : bool)
    (client : CustomPersona -> LLMReply) (persona : CustomPersona) :
  (forall tasks, client persona <> ReplyJson tasks) ->
  generate_shopping_tasks true {| openai_client := Some client |} persona
  = generate_shopping_tasks OPENAI_AVAILABLE rule_engine persona.
Proof.
  intros Hreply. unfold generate_shopping_tasks, rule_engine.
  cbn [openai_client]. unfold _llm_generate_tasks.
  destruct (client persona) as [e| |tasks]; try reflexivity.
  now destruct (Hreply tasks).
Qed.

(** X21: for a persona without interests the rule table raises "list
    index out of range".  Generation then raises on every path but the
    text-generation path with a JSON answer, and the session ends before
    the browser is set up. *)
Theorem generation_needs_an_interest (persona : CustomPersona) :
  interests persona = [] ->
  _rule_generate_tasks persona = Raise "list index out of range"
  /\ (forall OPENAI_AVAILABLE engine,
         generate_shopping_tasks OPENAI_AVAILABLE engine persona
         = Raise "list index out of range"
         \/ (OPENAI_AVAILABLE = true
             /\ exists client answer,
                 openai_client engine = Some client
                 /\ client persona = ReplyJson answer))
  /\ (forall (W : Type) (env : Env W) OPENAI_AVAILABLE w,
         run_interactive_session env OPENAI_AVAILABLE rule_engine persona w
         = Crashed "list index out of range" init_automation w []).
Proof.
  intros Hnil.
  assert (Hrule : _rule_generate_tasks persona = Raise "list index out of range").
  { unfold _rule_generate_tasks. now rewrite Hnil. }
  split; [exact Hrule|]. split.
  - intros avail engine. unfold generate_shopping_tasks.
    destruct (openai_client engine) as [client|]; [|now left].
    destruct avail; [|now left].
    unfold _llm_generate_tasks.
    destruct (client persona) as [e| |answer] eqn:Hreply;
      [now left | now left |].
    right. split; [reflexivity|]. now exists client, answer.
  - intros W env avail w. unfold run_interactive_session, generate_shopping_tasks.
    cbn [rule_engine openai_client]. now rewrite Hrule.
Qed.

(** X22: every operation of a task that the rule table emits is a key of
    the function catalog. *)
Theorem rule_tasks_use_catalog (persona : CustomPersona) (tasks : list LLMTask) :
  _rule_generate_tasks persona = Ok tasks ->
  forall task f,
    In task tasks -> In f (expected_functions task) -> in_catalog f = true.
Proof.
  unfold _rule_generate_tasks.
  destruct (interests persona) as [|interest0 more]; [discriminate|].
  intros [= <-] task f Htask Hf.
  destruct (decision_style persona =? "quick_impulsive")%string;
    destruct (PyStr.contains "budget" _);
    cbn [In app] in Htask;
    repeat match goal with
           | H : _ \/ _ |- _ => destruct H as [H|H]
           | H : False |- _ => destruct H
           end; subst; cbn [expected_functions In] in Hf;
    repeat match goal with
           | H : _ \/ _ |- _ => destruct H as [H|H]
           | H : False |- _ => destruct H
           end; subst; reflexivity.
Qed.

(** X23: the loop dispatches exactly the catalog entries other than
    click_product_details and add_from_details; these two are announced
    and skipped like a name that is not in the catalog. *)
Theorem dispatch_covers_catalog (f : string) :
  recognized f = true <->
  in_catalog f = true
  /\ f <> "click_product_details" /\ f <> "add_from_details".
Proof.
  unfold recognized, in_catalog, get_catalog. cbn [existsb fst].
  destruct (String.eqb_spec f "search_products") as [->|N1];
    [split; [repeat split; discriminate | reflexivity]|].
  destruct (String.eqb_spec f "extract_products") as [->|N2];
    [split; [repeat split; discriminate | reflexivity]|].
  destruct (String.eqb_spec f "hover_add_to_cart") as [->|N3];
    [split; [repeat split; discriminate | reflexivity]|].
  destruct (String.eqb_spec f "view_cart") as [->|N4];
    [split; [repeat split; try discriminate; now rewrite ?orb_true_r
            | reflexivity]|].
  destruct (String.eqb_spec f "remove_from_cart") as [->|N5];
    [split; [repeat split; try discriminate; now rewrite ?orb_true_r
            | reflexivity]|].
  destruct (String.eqb_spec f "complete_session") as [->|N6];
    [split; [repeat split; try discriminate; now rewrite ?orb_true_r
            | reflexivity]|].
  cbn [orb].
  destruct (String.eqb_spec f "click_product_details") as [->|N7];
    [split; [discriminate | intros (_ & H & _); congruence]|].
  destruct (String.eqb_spec f "add_from_details") as [->|N8];
    [split; [discriminate | intros (_ & _ & H); congruence]|].
  split; [discriminate | intros (H & _); discriminate].
Qed.

(** ** Persona creation *)

Lemma split_on_nonempty (sep : ascii) (s : string) : split_on sep s <> [].
Proof.
  induction s as [|c s IH]; simpl; [discriminate|].
  destruct (c =? sep)%char; [discriminate|].
  destruct (split_on sep s); discriminate.
Qed.

Lemma comma_list_nonempty (text : string) (default : list string) :
  default <> [] -> comma_list text default <> [].
Proof.
  intros Hd. unfold comma_list. destruct text as [|c t]; [exact Hd|].
  pose proof (split_on_nonempty "," (String c t)) as H.
  destruct (split_on "," (String c t)); [congruence | discriminate].
Qed.

Lemma decision_style_of_known (choice : string) :
  In (decision_style_of choice)
    ["quick_impulsive"; "research_heavy"; "price_focused"; "quality_focused";
     "indecisive"; "balanced"].
Proof.
  unfold decision_style_of.
  repeat match goal with
         | |- context [if ?b then _ else _] => destruct b; [simpl; tauto|]
         end.
  simpl; tauto.
Qed.

Lemma time_preference_of_known (choice : string) :
  In (time_preference_of choice) ["quick"; "normal"; "extended"].
Proof.
  unfold time_preference_of.
  repeat match goal with
         | |- context [if ?b then _ else _] => destruct b; [simpl; tauto|]
         end.
  simpl; tauto.
Qed.

Lemma create_inversion (answers rest : list string) (persona : CustomPersona) :
  create_custom_persona answers = (Ok persona, rest) ->
  exists name_line traits_line budget interests_line goals_line decision_line
         time_line,
    persona = persona_of name_line traits_line budget interests_line goals_line
                decision_line time_line
    /\ (List.length answers = 7 + List.length rest
        \/ List.length answers = 8 + List.length rest)%nat.
Proof.
  unfold create_custom_persona, bind, input, ret.
  destruct answers as [|name_line [|traits_line answers]]; try discriminate.
  unfold read_budget, bind, input, ret.
  destruct answers as [|first answers]; [discriminate|].
  destruct (py_int (or_default first "500")) as [min_budget|].
  - destruct answers as [|second answers]; [discriminate|].
    destruct (py_int (or_default second "5000")) as [max_budget|];
      destruct answers as [|il [|gl [|dl [|tl answers]]]]; try discriminate;
      intros [= <- <-]; do 7 eexists; (split; [reflexivity | simpl; lia]).
  - destruct answers as [|il [|gl [|dl [|tl answers]]]]; try discriminate.
    intros [= <- <-]. do 7 eexists. split; [reflexivity | simpl; lia].
Qed.

(** X24: whatever the user types, a created persona has a name, at
    least one trait, one interest and one goal, one of the six decision
    styles and one of the three time preferences, and its type is the
    classification of its traits. *)
Theorem created_persona_wellformed (answers rest : list string)
    (persona : CustomPersona) :
  create_custom_persona answers = (Ok persona, rest) ->
  name persona <> EmptyString
  /\ personality_traits persona <> []
  /\ interests persona <> []
  /\ shopping_goals persona <> []
  /\ In (decision_style persona)
       ["quick_impulsive"; "research_heavy"; "price_focused"; "quality_focused";
        "indecisive"; "balanced"]
  /\ In (time_preference persona) ["quick"; "normal"; "extended"]
  /\ type persona
     = _determine_persona_type (personality_traits persona) (decision_style persona).
Proof.
  intros Hcreate.
  apply create_inversion in Hcreate
    as (nl & tl & budget & il & gl & dl & tml & -> & _).
  unfold persona_of. cbn [name personality_traits interests shopping_goals
                          decision_style time_preference type].
  split.
  { unfold or_default. destruct (PyStr.strip nl); discriminate. }
  split; [apply comma_list_nonempty; discriminate|].
  split; [apply comma_list_nonempty; discriminate|].
  split; [apply comma_list_nonempty; discriminate|].
  split; [apply decision_style_of_known|].
  split; [apply time_preference_of_known | reflexivity].
Qed.

(** X25: persona creation reads seven answers, or eight when the minimum
    budget parses.  With fewer than seven answers it raises the end of
    input, with eight or more it always returns a persona and leaves the
    answers it did not read. *)
Theorem creation_reads_answers (answers : list string) :
  ((List.length answers < 7)%nat ->
   exists rest,
     create_custom_persona answers = (Raise "EOF when reading a line", rest))
  /\ ((8 <= List.length answers)%nat ->
      exists persona rest,
        create_custom_persona answers = (Ok persona, rest)
        /\ (List.length answers = 7 + List.length rest
            \/ List.length answers = 8 + List.length rest)%nat).
Proof.
  split.
  - intros Hlen. unfold create_custom_persona, bind, input, ret.
    destruct answers as [|nl [|tl answers]]; try (eexists; reflexivity).
    unfold read_budget, bind, input, ret.
    destruct answers as [|first answers]; [eexists; reflexivity|].
    destruct (py_int (or_default first "500")).
    + destruct answers as [|second answers]; [eexists; reflexivity|].
      destruct (py_int (or_default second "5000"));
        destruct answers as [|il [|gl [|dl [|tml answers]]]];
        try (eexists; reflexivity); simpl in Hlen; lia.
    + destruct answers as [|il [|gl [|dl [|tml answers]]]];
        try (eexists; reflexivity); simpl in Hlen; lia.
  - intros Hlen.
    destruct (create_custom_persona answers) as [[persona|e] rest] eqn:Hcreate.
    + exists persona, rest. split; [reflexivity|].
      now destruct (create_inversion _ _ _ Hcreate)
        as (? & ? & ? & ? & ? & ? & ? & _ & H).
    + exfalso. revert Hcreate.
      unfold create_custom_persona, bind, input, ret.
      destruct answers as [|nl [|tl answers]]; try (simpl in Hlen; lia).
      unfold read_budget, bind, input, ret.
      destruct answers as [|first answers]; [simpl in Hlen; lia|].
      destruct (py_int (or_default first "500")).
      * destruct answers as [|second answers]; [simpl in Hlen; lia|].
        destruct (py_int (or_default second "5000"));
          destruct answers as [|il [|gl [|dl [|tml answers]]]];
          try discriminate; simpl in Hlen; lia.
      * destruct answers as [|il [|gl [|dl [|tml answers]]]];
          try discriminate; simpl in Hlen; lia.
Qed.

(** X26: the two budget answers are taken together or not at all.  When
    the minimum does not parse, the budget is (500, 5000), the maximum is
    not asked and the next answer is read as the interests.  When the
    minimum parses and the maximum does not, the budget is (500, 5000) as
    well.  When both parse, the budget is the pair as typed, in that
    order. *)
Theorem budget_answers (nl tl first second il gl dl tml : string)
    (rest : list string) :
  (py_int (or_default first "500") = None ->
   create_custom_persona (nl :: tl :: first :: il :: gl :: dl :: tml :: rest)
   = (Ok (persona_of nl tl (500, 5000) il gl dl tml), rest))
  /\ (forall min_budget,
         py_int (or_default first "500") = Some min_budget ->
         py_int (or_default second "5000") = None ->
         create_custom_persona
           (nl :: tl :: first :: second :: il :: gl :: dl :: tml :: rest)
         = (Ok (persona_of nl tl (500, 5000) il gl dl tml), rest))
  /\ (forall min_budget max_budget,
         py_int (or_default first "500") = Some min_budget ->
         py_int (or_default second "5000") = Some max_budget ->
         create_custom_persona
           (nl :: tl :: first :: second :: il :: gl :: dl :: tml :: rest)
         = (Ok (persona_of nl tl (min_budget, max_budget) il gl dl tml), rest)).
Proof.
  unfold create_custom_persona, read_budget, bind, input, ret.
  split; [intros ->; reflexivity|].
  split; [intros m -> ->; reflexivity | intros m1 m2 -> ->; reflexivity].
Qed.

Lemma int_space_is_plain (c : ascii) :
  is_int_space c = true ->
  PyStr.is_digit c = false /\ (c =? "_")%char = false
  /\ (c =? "+")%char = false /\ (c =? "-")%char = false.
Proof.
  destruct c as [[] [] [] [] [] [] [] []]; try discriminate;
    intros _; repeat split; reflexivity.
Qed.

Lemma digit_is_plain (c : ascii) :
  PyStr.is_digit c = true ->
  is_int_space c = false /\ (c =? "+")%char = false /\ (c =? "-")%char = false.
Proof.
  destruct c as [[] [] [] [] [] [] [] []]; try discriminate;
    intros _; repeat split; reflexivity.
Qed.

Lemma int_lstrip_app (ws s : string) :
  all_int_space ws = true -> int_lstrip (ws ++ s) = int_lstrip s.
Proof.
  induction ws as [|c ws IH]; [reflexivity|].
  cbn [all_int_space append int_lstrip]. intros H.
  apply andb_true_iff in H as (Hc & Hws). rewrite Hc. now apply IH.
Qed.

Lemma int_digits_space (ws : string) (count : nat) (acc : Z) :
  all_int_space ws = true -> int_digits count acc ws = int_finish count acc.
Proof.
  destruct ws as [|c ws]; [reflexivity|]. intros H.
  cbn [int_digits]. rewrite H.
  cbn [all_int_space] in H. apply andb_true_iff in H as (Hc & _).
  destruct (int_space_is_plain c Hc) as (-> & -> & _). reflexivity.
Qed.

Lemma int_digits_text (ds : list nat) (ws : string) :
  Forall (fun d => (d < 10)%nat) ds ->
  all_int_space ws = true ->
  forall count acc,
    int_digits count acc (digits_text ds ++ ws)
    = int_finish (count + List.length ds) (digits_value acc ds).
Proof.
  intros Hds Hws. induction Hds as [|d ds Hd _ IH]; intros count acc.
  - cbn [digits_text append List.length digits_value].
    rewrite Nat.add_0_r. now apply int_digits_space.
  - destruct (digit_char_spec d Hd) as (Hdigit & Hval).
    cbn [digits_text append int_digits digits_value List.length].
    rewrite Hdigit, Hval, IH. f_equal. lia.
Qed.

(** [int] on plain digits between white space: the number they spell, as
    long as there are at most 4300 of them. *)
Lemma py_int_digits (ws1 ws2 : string) (ds : list nat) :
  digit_group ds ->
  (List.length ds <= 4300)%nat ->
  all_int_space ws1 = true ->
  all_int_space ws2 = true ->
  py_int (ws1 ++ digits_text ds ++ ws2) = Some (digits_value 0 ds).
Proof.
  intros (Hne & Hds) Hlen Hws1 Hws2. unfold py_int.
  rewrite (int_lstrip_app ws1 _ Hws1).
  destruct ds as [|d ds]; [congruence|].
  inversion Hds as [|? ? Hd Hrest]; subst.
  destruct (digit_char_spec d Hd) as (Hdigit & Hval).
  destruct (digit_is_plain _ Hdigit) as (Hspace & Hplus & Hminus).
  cbn [digits_text append int_lstrip]. rewrite Hspace, Hplus, Hminus.
  unfold int_unsigned. rewrite Hdigit, Hval.
  rewrite (int_digits_text ds ws2 Hrest Hws2). unfold int_finish.
  cbn [List.length] in Hlen.
  destruct (Nat.ltb_spec 4300 (1 + List.length ds)); [lia|].
  reflexivity.
Qed.

(** Beyond 4300 digits [int] refuses the text. *)
Lemma py_int_too_long (ws1 ws2 : string) (ds : list nat) :
  Forall (fun d => (d < 10)%nat) ds ->
  (4300 < List.length ds)%nat ->
  all_int_space ws1 = true ->
  all_int_space ws2 = true ->
  py_int (ws1 ++ digits_text ds ++ ws2) = None.
Proof.
  intros Hds Hlen Hws1 Hws2. unfold py_int.
  rewrite (int_lstrip_app ws1 _ Hws1).
  destruct ds as [|d ds]; [simpl in Hlen; lia|].
  inversion Hds as [|? ? Hd Hrest]; subst.
  destruct (digit_char_spec d Hd) as (Hdigit & Hval).
  destruct (digit_is_plain _ Hdigit) as (Hspace & Hplus & Hminus).
  cbn [digits_text append int_lstrip]. rewrite Hspace, Hplus, Hminus.
  unfold int_unsigned. rewrite Hdigit, Hval.
  rewrite (int_digits_text ds ws2 Hrest Hws2). unfold int_finish.
  cbn [List.length] in Hlen.
  destruct (Nat.ltb_spec 4300 (1 + List.length ds)); [reflexivity | lia].
Qed.

Lemma rstrip_all_space (ws : string) :
  all_space ws = true -> PyStr.rstrip ws = EmptyString.
Proof.
  destruct ws as [|c ws]; [reflexivity|].
  intros H. now rewrite rstrip_cons, H.
Qed.

Lemma rstrip_digits (ds : list nat) (ws : string) :
  Forall (fun d => (d < 10)%nat) ds ->
  all_space ws = true ->
  PyStr.rstrip (digits_text ds ++ ws) = digits_text ds.
Proof.
  intros Hds Hws. induction Hds as [|d ds Hd _ IH].
  - now apply rstrip_all_space.
  - destruct (digit_char_spec d Hd) as (Hdigit & _).
    cbn [digits_text append]. rewrite rstrip_cons. cbn [all_space].
    rewrite (space_not_digit_conv _ Hdigit). cbn [andb]. now rewrite IH.
Qed.

Lemma strip_digits (ws1 ws2 : string) (ds : list nat) :
  digit_group ds ->
  all_space ws1 = true ->
  all_space ws2 = true ->
  PyStr.strip (ws1 ++ digits_text ds ++ ws2) = digits_text ds.
Proof.
  intros (Hne & Hds) Hws1 Hws2. unfold PyStr.strip.
  rewrite lstrip_app, Hws1.
  destruct ds as [|d ds]; [congruence|].
  inversion Hds as [|? ? Hd Hrest]; subst.
  destruct (digit_char_spec d Hd) as (Hdigit & _).
  assert (Hl : PyStr.lstrip (digits_text (d :: ds) ++ ws2)
               = digits_text (d :: ds) ++ ws2).
  { cbn [digits_text append PyStr.lstrip].
    now rewrite (space_not_digit_conv _ Hdigit). }
  rewrite Hl. now apply rstrip_digits.
Qed.

Lemma separator_is_refused (c : ascii) :
  (28 <= nat_of_ascii c <= 31)%nat ->
  PyStr.is_space c = true
  /\ forall t, py_int (String c t) = None.
Proof.
  destruct c as [[] [] [] [] [] [] [] []]; cbn [nat_of_ascii];
    intros H; try (exfalso; vm_compute in H; lia);
    split; reflexivity.
Qed.

Lemma or_default_digits (ds : list nat) (ws1 ws2 default : string) :
  digit_group ds ->
  or_default (ws1 ++ digits_text ds ++ ws2) default
  = ws1 ++ digits_text ds ++ ws2.
Proof.
  intros (Hne & _). destruct ds as [|d ds]; [congruence|].
  destruct ws1; reflexivity.
Qed.

(** X27: budgets typed as plain digits, at most 4300 of them, with or
    without the white space that [int] accepts around them (tab, newline,
    vertical tab, form feed, carriage return, space), are stored as the
    numbers they spell, minimum first, whether or not the minimum is below
    the maximum.  A minimum of more than 4300 digits is refused, and the
    budget is then (500, 5000); so is a minimum that starts with one of
    the separator characters 28 to 31, which [strip] would drop but [int]
    does not take for white space. *)
Theorem plain_budget_is_kept (nl tl il gl dl tml : string) (rest : list string)
    (ws1 ws2 ws3 ws4 : string) (ds1 ds2 : list nat) :
  digit_group ds1 ->
  digit_group ds2 ->
  all_int_space ws1 = true -> all_int_space ws2 = true ->
  all_int_space ws3 = true -> all_int_space ws4 = true ->
  ((List.length ds1 <= 4300)%nat ->
   (List.length ds2 <= 4300)%nat ->
   create_custom_persona
     (nl :: tl :: (ws1 ++ digits_text ds1 ++ ws2)
         :: (ws3 ++ digits_text ds2 ++ ws4) :: il :: gl :: dl :: tml :: rest)
   = (Ok (persona_of nl tl (digits_value 0 ds1, digits_value 0 ds2) il gl dl tml),
      rest))
  /\ ((4300 < List.length ds1)%nat ->
      create_custom_persona
        (nl :: tl :: (ws1 ++ digits_text ds1 ++ ws2) :: il :: gl :: dl :: tml :: rest)
      = (Ok (persona_of nl tl (500, 5000) il gl dl tml), rest))
  /\ (forall c,
         (28 <= nat_of_ascii c <= 31)%nat ->
         PyStr.strip (String c (digits_text ds1)) = digits_text ds1
         /\ create_custom_persona
              (nl :: tl :: String c (digits_text ds1)
                  :: il :: gl :: dl :: tml :: rest)
            = (Ok (persona_of nl tl (500, 5000) il gl dl tml), rest)).
Proof.
  intros H1 H2 Hws1 Hws2 Hws3 Hws4. split.
  - intros Hlen1 Hlen2.
    unfold create_custom_persona, read_budget, bind, input, ret.
    rewrite (or_default_digits ds1) by assumption.
    rewrite (py_int_digits ws1 ws2 ds1) by assumption. cbn beta iota.
    rewrite (or_default_digits ds2) by assumption.
    now rewrite (py_int_digits ws3 ws4 ds2) by assumption.
  - split.
    + intros Hlen1.
      unfold create_custom_persona, read_budget, bind, input, ret.
      rewrite (or_default_digits ds1) by assumption.
      now rewrite (py_int_too_long ws1 ws2 ds1) by (try apply H1; assumption).
    + intros c Hc. destruct (separator_is_refused c Hc) as (Hsp & Hint).
      split.
      * assert (Hone : all_space (String c EmptyString) = true)
          by (cbn [all_space]; now rewrite Hsp).
        pose proof (strip_digits (String c EmptyString) EmptyString ds1 H1
                      Hone eq_refl) as Hs.
        cbn [append] in Hs. now rewrite append_nil_r in Hs.
      * unfold create_custom_persona, read_budget, bind, input, ret.
        cbn [or_default]. now rewrite Hint.
Qed.

Lemma escaped_in_report (f : string) (r : Result) : escaped_in (report f r) = false.
Proof. unfold report. now destruct (succeeded r). Qed.

Lemma run_functions_never_escapes {W : Type} (env : Env W)
    (persona : CustomPersona) (functions : list string) :
  (interests persona ++ shopping_goals persona)%list <> [] ->
  forall a w out,
    escaped_in (snd (run_functions env persona functions a w out))
    = escaped_in out.
Proof.
  intros Hne. induction functions as [|f rest IH]; intros a w out;
    [reflexivity|].
  cbn [run_functions].
  pose proof (dispatch_cases env persona f a w) as Hd.
  destruct (dispatch env persona f a w) as [r a1 w1|a1 w1| |e w1].
  - rewrite IH, !escaped_in_app, escaped_in_report. simpl.
    now rewrite !orb_false_r.
  - cbn [snd]. rewrite escaped_in_app. simpl. now rewrite orb_false_r.
  - rewrite IH, escaped_in_app. simpl. now rewrite orb_false_r.
  - now destruct Hd as (_ & Hnil & _).
Qed.

(** X28: a persona that comes out of persona creation can always be
    served.  The rule table gives it one or two tasks, and no exception
    reaches the loop of a task, whatever the functions of the task and
    whatever the page does. *)
Theorem created_persona_runs (answers rest : list string)
    (persona : CustomPersona) :
  create_custom_persona answers = (Ok persona, rest) ->
  (exists task more,
      _rule_generate_tasks persona = Ok (task :: more)
      /\ (List.length more <= 1)%nat)
  /\ (forall (W : Type) (env : Env W) functions a w out,
         escaped_in (snd (run_functions env persona functions a w out))
         = escaped_in out).
Proof.
  intros Hcreate.
  apply create_inversion in Hcreate
    as (nl & tl & budget & il & gl & dl & tml & -> & _).
  assert (Hint : interests (persona_of nl tl budget il gl dl tml) <> [])
    by (apply comma_list_nonempty; discriminate).
  split; [now apply rule_tasks_nonempty|].
  intros W env functions a w out. apply run_functions_never_escapes.
  destruct (interests (persona_of nl tl budget il gl dl tml));
    [congruence | discriminate].
Qed.

(** ** Concrete runs of the further properties *)

Lemma budget_task_needs_budget_trait_witness :
  exists tasks,
    _rule_generate_tasks thrifty_persona = Ok tasks
    /\ (In "Budget-Conscious Shopping" (map task_name tasks) <->
        exists t, In t (personality_traits thrifty_persona)
                  /\ PyStr.contains "budget" (PyStr.lower t) = true)
    /\ (In "Budget-Conscious Shopping" (map task_name tasks) ->
        forall d,
          _determine_persona_type (personality_traits thrifty_persona) d
          = BUDGET_SHOPPER).
Proof.
  apply (budget_task_needs_budget_trait thrifty_persona). discriminate.
Defined.

Lemma parse_price_without_sign_witness :
  PyStr.contains rupee "Rs. 1,200" = false /\ parse_price "Rs. 1,200" = 0.
Proof.
  split; [reflexivity|].
  apply (parse_price_without_sign "Rs. 1,200"). reflexivity.
Defined.

Lemma parse_price_groups_witness :
  parse_price (" " ++ rupee ++ "  " ++ groups_text [digits_1; digits_200] ++ ".50 ")
  = digits_value 0 (List.concat [digits_1; digits_200])
  /\ digits_value 0 (List.concat [digits_1; digits_200]) = 1200.
Proof.
  split; [|reflexivity].
  apply (parse_price_groups " " "  " ".50 " digits_1 [digits_200]);
    try reflexivity; [|simpl; lia].
  repeat constructor; try discriminate; lia.
Defined.

Lemma extract_products_bounded_witness :
  exists products,
    extract_products (shop [lipstick_1200; lipstick_6000]) impulsive_persona
      init_automation 0%nat
    = (Extracted products (List.length products),
       {| current_products := products; stats := stats init_automation |}, 0%nat)
    /\ (List.length products <= 6)%nat.
Proof.
  assert (Hshort :
            Forall (fun card =>
                      forall price_text,
                        card_price card = Some price_text ->
                        (String.length price_text <= 4300)%nat)
              [lipstick_1200; lipstick_6000]).
  { constructor; [|constructor; [|constructor]];
      intros price_text H; injection H as <-; vm_compute; lia. }
  destruct (extract_products_bounded (shop [lipstick_1200; lipstick_6000])
              impulsive_persona init_automation 0%nat 0%nat
              [lipstick_1200; lipstick_6000] eq_refl Hshort)
    as (products & Hex & Hraises & Hlen & _).
  exists products. split; [|exact Hlen].
  rewrite Hex.
  destruct (commentary_raises impulsive_persona products) eqn:Hr;
    [|reflexivity].
  destruct (proj1 Hraises eq_refl) as (_ & Hstyle & _). discriminate.
Defined.

Lemma extract_products_idempotent_witness :
  extract_products (shop [lipstick_1200]) impulsive_persona
    (after_extract [lipstick_1200]) 0%nat
  = (Extracted (current_products (after_extract [lipstick_1200])) 1,
     after_extract [lipstick_1200], 0%nat).
Proof.
  pose proof (extract_products_idempotent (shop [lipstick_1200]) impulsive_persona
                {| current_products := [];
                   stats := {| actions := 1; success := 1; cart_items := 0 |} |}
                0%nat 0%nat 0%nat [lipstick_1200] eq_refl eq_refl) as H.
  exact H.
Defined.

Lemma failed_extract_keeps_products_witness :
  extract_products broken_shop impulsive_persona
    (after_extract [lipstick_1200]) 0%nat
  = (ExtractFailed, after_extract [lipstick_1200], 0%nat).
Proof.
  apply (failed_extract_keeps_products broken_shop impulsive_persona
           (after_extract [lipstick_1200]) 0%nat 0%nat "no such element" [] []).
  reflexivity.
Defined.

Lemma hover_success_within_budget_witness :
  exists product,
    py_index (current_products (after_extract [lipstick_1200])) 0 = Some product
    /\ price product <= snd (budget_range impulsive_persona).
Proof.
  pose proof (hover_success_within_budget (shop [lipstick_1200]) impulsive_persona 0
                (after_extract [lipstick_1200]) 0%nat) as H.
  destruct (hover_add_to_cart (shop [lipstick_1200]) impulsive_persona 0
              (after_extract [lipstick_1200]) 0%nat) as [[r a'] w'] eqn:Hrun.
  assert (Hr : r = Succeeded) by (vm_compute in Hrun; congruence).
  destruct (H (f_equal succeeded Hr)) as (product & w1 & u & Hsel & Hprice & _).
  now exists product.
Defined.

Lemma hover_invalid_index_witness :
  hover_add_to_cart (shop [lipstick_1200]) impulsive_persona 0 init_automation 0%nat
  = (Failed "Invalid product index", init_automation, 0%nat).
Proof.
  apply (hover_invalid_index (shop [lipstick_1200]) impulsive_persona 0
           init_automation 0%nat).
  left. reflexivity.
Defined.

Lemma search_term_shape_witness :
  exists choice,
    In choice ["sunscreen"; "restock essentials"]
    /\ fst (_get_intelligent_search_term (shop []) thrifty_persona 0%nat)
       = Ok choice.
Proof.
  destruct (search_term_shape (shop []) thrifty_persona 0%nat)
    as (choice & Hin & Hterm); [discriminate|].
  exists choice. split; [exact Hin|]. now rewrite Hterm.
Defined.

Lemma search_without_terms_ends_task_witness :
  run_functions (shop [lipstick_1200]) aimless_persona
    ["search_products"; "extract_products"; "hover_add_to_cart"]
    init_automation 0%nat []
  = (init_automation, 0%nat,
     [Executing "search_products";
      TaskExecutionFailed "Cannot choose from an empty sequence"]).
Proof.
  apply (search_without_terms_ends_task (shop [lipstick_1200]) aimless_persona
           ["extract_products"; "hover_add_to_cart"] init_automation 0%nat []).
  reflexivity.
Defined.

Lemma attempts_between_witness :
  let s := run_tasks (shop [lipstick_6000]) impulsive_persona 1
             [ {| task_name := "Look around";
                  description := "Search, try to add, look at the cart";
                  expected_functions :=
                    ["search_products"; "extract_products"; "hover_add_to_cart";
                     "view_cart"; "remove_from_cart"];
                  success_criteria := "Cart reviewed";
                  emotional_journey := ["curious"] |} ] init_automation 0%nat [] in
  Z.of_nat (always_counted (announced (final_out s))) <= actions (final_stats s)
  /\ actions (final_stats s) <= Z.of_nat (may_be_counted (announced (final_out s))).
Proof.
  apply (attempts_between (shop [lipstick_6000]) impulsive_persona). discriminate.
Defined.

Lemma careful_session_never_adds_witness :
  cart_items
    (final_stats
       (run_interactive_session (shop [lipstick_1200]) false rule_engine
          thrifty_persona 0%nat))
  = 0.
Proof.
  apply (careful_session_never_adds (shop [lipstick_1200]) false thrifty_persona).
  discriminate.
Defined.

Lemma generation_falls_back_witness :
  generate_shopping_tasks true {| openai_client := Some failing_client |}
    thrifty_persona
  = generate_shopping_tasks false rule_engine thrifty_persona.
Proof.
  apply (generation_falls_back false failing_client thrifty_persona).
  intros tasks. discriminate.
Defined.

Lemma generation_needs_an_interest_witness :
  _rule_generate_tasks aimless_persona = Raise "list index out of range".
Proof.
  apply (generation_needs_an_interest aimless_persona). reflexivity.
Defined.

Lemma rule_tasks_use_catalog_witness :
  in_catalog "click_product_details" = true /\ in_catalog "view_cart" = true.
Proof.
  destruct (_rule_generate_tasks thrifty_persona) as [tasks|e] eqn:Hgen;
    [|discriminate].
  pose proof (rule_tasks_use_catalog thrifty_persona tasks Hgen) as H.
  vm_compute in Hgen. injection Hgen as <-.
  split.
  - eapply H; [left; reflexivity | simpl; tauto].
  - eapply H; [right; left; reflexivity | simpl; tauto].
Defined.

Lemma created_persona_wellformed_witness :
  exists persona,
    create_custom_persona typed_answers = (Ok persona, ["y"])
    /\ name persona <> EmptyString
    /\ interests persona <> [].
Proof.
  destruct (create_custom_persona typed_answers) as [[persona|e] rest] eqn:Hc;
    [|discriminate].
  assert (Hrest : rest = ["y"]) by (vm_compute in Hc; congruence).
  subst rest.
  destruct (created_persona_wellformed typed_answers ["y"] persona Hc)
    as (Hname & _ & Hint & _).
  exists persona. repeat split; assumption.
Defined.

Lemma plain_budget_is_kept_witness :
  exists persona,
    create_custom_persona typed_answers = (Ok persona, ["y"])
    /\ budget_range persona = (1500, 200).
Proof.
  assert (H1 : digit_group digits_1500)
    by (split; [discriminate | repeat constructor; lia]).
  assert (H2 : digit_group digits_200)
    by (split; [discriminate | repeat constructor; lia]).
  assert (Hlen1 : (List.length digits_1500 <= 4300)%nat) by (simpl; lia).
  assert (Hlen2 : (List.length digits_200 <= 4300)%nat) by (simpl; lia).
  eexists. split.
  - exact (proj1 (plain_budget_is_kept "  Asha " "Trendy, budget-Minded"
                    "sunscreen, lip balm" "restock essentials" "3" "1" ["y"]
                    " " EmptyString EmptyString " " digits_1500 digits_200
                    H1 H2 eq_refl eq_refl eq_refl eq_refl) Hlen1 Hlen2).
  - reflexivity.
Defined.

Lemma created_persona_runs_witness :
  exists persona task more,
    create_custom_persona typed_answers = (Ok persona, ["y"])
    /\ _rule_generate_tasks persona = Ok (task :: more).
Proof.
  destruct (create_custom_persona typed_answers) as [[persona|e] rest] eqn:Hc;
    [|discriminate].
  assert (Hrest : rest = ["y"]) by (vm_compute in Hc; congruence).
  subst rest.
  destruct (created_persona_runs typed_answers ["y"] persona Hc)
    as ((task & more & Hgen & _) & _).
  now exists persona, task, more.
Defined.
